(** * CRUD reconciliation of the azurerm resources: a shallow embedding

    The resource handlers of the provider are Go functions of type
    [func(d *pluginsdk.ResourceData, meta interface{}) error].  They read the
    declared configuration out of [d], talk to the cloud management API
    through the clients held by [meta], and write the identifier and the
    attributes back into [d].

    The embedding keeps that shape.  A handler is a computation in a small
    state-and-error monad whose state holds the resource data, the remote
    side (an abstract world the clients act on) and the trace of the calls
    made so far.  Pointers are [option]s, slices are [list]s, Go strings are
    byte strings ([string]), and a nil dereference is the outcome [Panic]. *)

From Stdlib Require Import String Ascii List ZArith Bool.
Import ListNotations.

Local Open Scope string_scope.
Local Open Scope list_scope.

Set Implicit Arguments.

(** ** Go strings *)

Module strings.

(** [strings.Split(s, sep)] for a separator of one byte: the substrings of
    [s] between the occurrences of [sep]; a string without [sep] comes
    back whole, so the result is never empty. *)
Fixpoint Split (s : string) (sep : ascii) : list string :=
  match s with
  | EmptyString => [EmptyString]
  | String c rest =>
      if Ascii.eqb c sep then EmptyString :: Split rest sep
      else match Split rest sep with
           | seg :: segs => String c seg :: segs
           | [] => [String c EmptyString]
           end
  end.


(** ASCII case folding; on strings of ASCII bytes this is what
    [strings.EqualFold] computes. *)
Definition lower (c : ascii) : ascii :=
  let n := nat_of_ascii c in
  if (65 <=? n)%nat && (n <=? 90)%nat then ascii_of_nat (n + 32) else c.

Fixpoint asciiEqualFold (s t : string) : bool :=
  match s, t with
  | EmptyString, EmptyString => true
  | String a s', String b t' => Ascii.eqb (lower a) (lower b) && asciiEqualFold s' t'
  | _, _ => false
  end.

End strings.

Definition bar : ascii := "|"%char.

(** ** Errors *)

(** The [error] values the handlers return.  [Errorf] keeps the format
    string of the source and the values substituted into it; [Wrapf] is an
    [fmt.Errorf] whose last verb prints the error it wraps;
    [ImportAsExistsError] is [tf.ImportAsExistsError]; a [ClientError] is an
    error built outside the handlers (SDK clients, identifier parsers). *)
Inductive error : Type :=
  | Errorf (format : string) (args : list string)
  | Wrapf (format : string) (args : list string) (err : error)
  | ImportAsExistsError (resourceName id : string)
  | ClientError (message : string).

(** ** Responses of the management API *)

(** What a client call hands back: the decoded body (the zero value when
    the call failed), the HTTP status of the response and the [err]. *)
Record Response (A : Type) : Type := mkResponse {
  Body : A;
  StatusCode : Z;
  Err : option error
}.

Definition StatusNotFound : Z := 404.
Definition StatusOK : Z := 200.

(** Modelled from the spec: [utils.ResponseWasNotFound] (package utils is not
    among the sources).  Responses include a "not found" status
    distinguishable from other 4xx/5xx. *)
Definition ResponseWasNotFound {A : Type} (resp : Response A) : bool :=
  (StatusCode resp =? StatusNotFound)%Z.

(** ** pluginsdk.ResourceData *)

Inductive value : Type :=
  | VString (s : string)
  | VStringPtr (s : option string)
  | VBool (b : bool)
  | VBoolPtr (b : option bool)
  | VStrings (l : list string)
  | VStringsPtr (l : option (list string))
  | VMap (m : list (string * string)).

(** [pluginsdk.ResourceTimeout], durations in nanoseconds as [time.Duration]. *)
Record ResourceTimeout : Type := mkResourceTimeout {
  TimeoutCreate : Z;
  TimeoutRead : Z;
  TimeoutUpdate : Z;
  TimeoutDelete : Z
}.

Definition Minute : Z := 60 * 1000000000.

(** The resource data a handler is given: the identifier, the declared
    configuration ([d.Get]), the attributes written back ([d.Set]), whether
    the resource is being created, and the timeouts configured for it. *)
Record ResourceData : Type := mkResourceData {
  Id : string;
  Config : list (string * value);
  Attributes : list (string * value);
  IsNewResource : bool;
  Timeouts : ResourceTimeout
}.

Fixpoint lookup {A : Type} (key : string) (m : list (string * A)) : option A :=
  match m with
  | [] => None
  | (k, v) :: rest => if String.eqb k key then Some v else lookup key rest
  end.

(** [d.Get(key).(string)]: the zero value when the key is not set. *)
Definition GetString (d : ResourceData) (key : string) : string :=
  match lookup key (Config d) with
  | Some (VString s) => s
  | _ => ""
  end.

Definition GetBool (d : ResourceData) (key : string) : bool :=
  match lookup key (Config d) with
  | Some (VBool b) => b
  | _ => false
  end.

Definition GetStrings (d : ResourceData) (key : string) : list string :=
  match lookup key (Config d) with
  | Some (VStrings l) => l
  | _ => []
  end.

Definition GetMap (d : ResourceData) (key : string) : list (string * string) :=
  match lookup key (Config d) with
  | Some (VMap m) => m
  | _ => []
  end.

(** [d.GetOk(key)] for a string: set, and not the zero value. *)
Definition GetOkString (d : ResourceData) (key : string) : option string :=
  match lookup key (Config d) with
  | Some (VString s) => if String.eqb s "" then None else Some s
  | _ => None
  end.

Definition withId (d : ResourceData) (id : string) : ResourceData :=
  {| Id := id; Config := Config d; Attributes := Attributes d;
   IsNewResource := IsNewResource d; Timeouts := Timeouts d |}.

Definition withAttribute (d : ResourceData) (key : string) (v : value) : ResourceData :=
  {| Id := Id d; Config := Config d; Attributes := (key, v) :: Attributes d;
   IsNewResource := IsNewResource d; Timeouts := Timeouts d |}.

(** ** Contexts and timeouts *)

(** A [context.Context] as far as the handlers use it: the time after which
    the calls made under it are cancelled. *)
Record context : Type := mkContext { Deadline : Z }.

Module timeouts.

(** Modelled from the spec: package internal/timeouts is not among the
    sources.  Every operation is bounded by a caller-supplied timeout, per
    operation kind: create, read, update and delete each have an
    independent configurable timeout. *)
Definition ForCreate (d : ResourceData) : context :=
  mkContext (TimeoutCreate (Timeouts d)).
Definition ForRead (d : ResourceData) : context :=
  mkContext (TimeoutRead (Timeouts d)).
Definition ForUpdate (d : ResourceData) : context :=
  mkContext (TimeoutUpdate (Timeouts d)).
Definition ForDelete (d : ResourceData) : context :=
  mkContext (TimeoutDelete (Timeouts d)).
Definition ForCreateUpdate (d : ResourceData) : context :=
  if IsNewResource d then ForCreate d else ForUpdate d.

End timeouts.

(** ** The handler monad *)

Inductive outcome (A : Type) : Type :=
  | Return (a : A)
  | Fail (e : error)
  | Panic.

Arguments Fail {A} e.
Arguments Panic {A}.

(** What a handler leaves in the trace: the named locks it takes and
    releases, and its calls to the API with their results. *)
Inductive event (C : Type) : Type :=
  | Lock (name kind : string)
  | Unlock (name kind : string)
  | Api (call : C).

Arguments Lock {C} name kind.
Arguments Unlock {C} name kind.

Section Handler.

Variables W C : Type.

Record state : Type := mkState {
  data : ResourceData;
  world : W;
  trace : list (event C)
}.

Definition M (A : Type) : Type := state -> outcome A * state.

Definition ret {A : Type} (a : A) : M A := fun s => (Return a, s).

Definition bind {A B : Type} (m : M A) (k : A -> M B) : M B :=
  fun s =>
    match m s with
    | (Return a, s') => k a s'
    | (Fail e, s') => (Fail e, s')
    | (Panic, s') => (Panic, s')
    end.

Definition fail {A : Type} (e : error) : M A := fun s => (Fail e, s).

Definition panic {A : Type} : M A := fun s => (Panic, s).

(** [*p]: a nil pointer panics. *)
Definition deref {A : Type} (p : option A) : M A :=
  match p with
  | Some a => ret a
  | None => panic
  end.

(** The [d] of the handler, as it is now. *)
Definition getData : M ResourceData := fun s => (Return (data s), s).

Definition SetId (id : string) : M unit :=
  fun s => (Return tt, mkState (withId (data s) id) (world s) (trace s)).

Definition Set_ (key : string) (v : value) : M unit :=
  fun s => (Return tt, mkState (withAttribute (data s) key v) (world s) (trace s)).

(** A helper of another package that is handed [d] and may write to it. *)
Definition onData (f : ResourceData -> error + ResourceData) : M unit :=
  fun s =>
    match f (data s) with
    | inl err => (Fail err, s)
    | inr d => (Return tt, mkState d (world s) (trace s))
    end.

(** A call to the API: the client acts on the world, and the call is
    recorded in the trace together with its result. *)
Definition call {R : Type} (record : R -> C) (op : W -> R * W) : M R :=
  fun s =>
    let (r, w) := op (world s) in
    (Return r, mkState (data s) w (trace s ++ [Api (record r)])).

(** [locks.ByName(name, kind); defer locks.UnlockByName(name, kind)]: the
    lock is released on every way out of [body]. *)
Definition locked {A : Type} (name kind : string) (body : M A) : M A :=
  fun s =>
    let (r, s') := body (mkState (data s) (world s) (trace s ++ [Lock name kind])) in
    (r, mkState (data s') (world s') (trace s' ++ [Unlock name kind])).

(** Running a handler on [d] against the remote side [w]. *)
Definition run {A : Type} (m : M A) (d : ResourceData) (w : W) : outcome A * state :=
  m (mkState d w []).

(** The API calls of a trace, locks left out. *)
Fixpoint calls (t : list (event C)) : list C :=
  match t with
  | [] => []
  | Api c :: t' => c :: calls t'
  | _ :: t' => calls t'
  end.

End Handler.

Arguments ret {W C A} a.
Arguments bind {W C A B} m k.
Arguments fail {W C A} e.
Arguments panic {W C A}.
Arguments deref {W C A} p.
Arguments getData {W C}.
Arguments SetId {W C} id.
Arguments Set_ {W C} key v.
Arguments onData {W C} f.
Arguments call {W C R} record op.
Arguments locked {W C A} name kind body.
Arguments run {W C A} m d w.
Arguments calls {C} t.
Arguments mkState {W C} data world trace.
Arguments data {W C} s.
Arguments world {W C} s.
Arguments trace {W C} s.

Declare Scope handler_scope.
Delimit Scope handler_scope with handler.

Notation "x <- m ;; k" := (bind m (fun x => k))
  (at level 100, m at next level, right associativity) : handler_scope.
Notation "m ;; k" := (bind m (fun _ => k))
  (at level 100, right associativity) : handler_scope.

Local Open Scope handler_scope.


(** ** helpers/azure: parsed resource identifiers *)

Module azure.

(** [azure.ResourceID], the result of [azure.ParseAzureResourceID]. *)
Record ResourceID : Type := mkResourceID {
  SubscriptionID : string;
  ResourceGroup : string;
  Provider : string;
  Path : list (string * string)
}.

(** [id.Path[key]]: the empty string when the key is missing. *)
Definition PathAt (id : ResourceID) (key : string) : string :=
  match lookup key (Path id) with
  | Some v => v
  | None => ""
  end.

End azure.

(** ** package network, src/unnamed/part_000: the association of a network
    interface with a load-balancer backend address pool *)

Module NetworkInterfaceBackendAddressPoolAssociation.

(** The part of the SDK's [network.Interface] the handlers walk through.  A
    pool keeps its other fields next to the identifier, so that an entry
    carried over is seen to be carried over whole. *)
Record BackendAddressPool : Type := mkBackendAddressPool {
  PoolID : option string;
  PoolName : option string;
  PoolEtag : option string
}.

Record InterfaceIPConfigurationPropertiesFormat : Type := mkIPConfigurationProperties {
  LoadBalancerBackendAddressPools : option (list BackendAddressPool);
  PrivateIPAddress : option string
}.

Record InterfaceIPConfiguration : Type := mkInterfaceIPConfiguration {
  IPConfigurationID : option string;
  IPConfigurationName : option string;
  IPConfigurationProperties : option InterfaceIPConfigurationPropertiesFormat
}.

Record InterfacePropertiesFormat : Type := mkInterfaceProperties {
  IPConfigurations : option (list InterfaceIPConfiguration);
  EnableIPForwarding : option bool
}.

Record Interface : Type := mkInterface {
  InterfaceID : option string;
  InterfaceProperties : option InterfacePropertiesFormat
}.

Definition zeroInterface : Interface := mkInterface None None.

(** Functions and names the file takes from elsewhere in the repository
    (helpers/azure and the rest of package network), which are not among
    the sources; the handlers are parametric in them. *)
Record imports : Type := mkImports {
  ParseAzureResourceID : string -> error + azure.ResourceID;
  FindNetworkInterfaceIPConfiguration :
    option (list InterfaceIPConfiguration) -> string -> option InterfaceIPConfiguration;
  updateNetworkInterfaceIPConfiguration :
    InterfaceIPConfiguration -> option (list InterfaceIPConfiguration) ->
    option (list InterfaceIPConfiguration);
  networkInterfaceResourceName : string
}.

(** The calls of [network.InterfacesClient], each with what it returned. *)
Inductive apicall : Type :=
  | InterfacesGet (ctx : context) (resourceGroup name expand : string)
      (result : Response Interface)
  | InterfacesCreateOrUpdate (ctx : context) (resourceGroup name : string)
      (parameters : Interface) (err : option error)
  | WaitForCompletionRef (ctx : context) (err : option error).

(** The [Network.InterfacesClient] held by [meta], acting on the remote
    side [W]. *)
Record InterfacesClient (W : Type) : Type := mkInterfacesClient {
  Get : context -> string -> string -> string -> W -> Response Interface * W;
  CreateOrUpdate : context -> string -> string -> Interface -> W -> option error * W;
  FutureWaitForCompletionRef : context -> W -> option error * W
}.

(** [p.LoadBalancerBackendAddressPools = &pools], as seen from [config]:
    [p] is the pointer [config.InterfaceIPConfigurationPropertiesFormat], so
    the configuration that is handed to
    [updateNetworkInterfaceIPConfiguration] carries the new pools.  The
    configurations handed over with it are those of the interface as it
    was fetched. *)
Definition withPools (p : InterfaceIPConfigurationPropertiesFormat)
    (pools : list BackendAddressPool) : InterfaceIPConfigurationPropertiesFormat :=
  mkIPConfigurationProperties (Some pools) (PrivateIPAddress p).

Definition withProperties (config : InterfaceIPConfiguration)
    (p : InterfaceIPConfigurationPropertiesFormat) : InterfaceIPConfiguration :=
  mkInterfaceIPConfiguration (IPConfigurationID config) (IPConfigurationName config) (Some p).

(** [props.IPConfigurations = ...], as seen from [read]: [props] is the
    pointer [read.InterfacePropertiesFormat]. *)
Definition withIPConfigurations (read : Interface) (props : InterfacePropertiesFormat)
    (configs : option (list InterfaceIPConfiguration)) : Interface :=
  mkInterface (InterfaceID read)
    (Some (mkInterfaceProperties configs (EnableIPForwarding props))).

(** Line 115: the identifier of the association. *)
Definition resourceId (networkInterfaceId ipConfigurationName backendAddressPoolId : string)
    : string :=
  networkInterfaceId ++ "/ipConfigurations/" ++ ipConfigurationName ++ "|"
    ++ backendAddressPoolId.

(** Lines 117-125 of Create: the loop over the pools the IP configuration
    already has.  An entry whose ID equals the new one ends the handler with
    the import error; an entry with an ID is appended to [pools]; an entry
    without an ID is passed over. *)
Fixpoint existingPools (backendAddressPoolId rid : string)
    (existing pools : list BackendAddressPool) : error + list BackendAddressPool :=
  match existing with
  | [] => inr pools
  | existingPool :: rest =>
      match PoolID existingPool with
      | Some id =>
          if String.eqb id backendAddressPoolId
          then inl (ImportAsExistsError
                      "azurerm_network_interface_backend_address_pool_association" rid)
          else existingPools backendAddressPoolId rid rest (pools ++ [existingPool])
      | None => existingPools backendAddressPoolId rid rest pools
      end
  end.

(** Lines 202-211 of Read: is there a pool with this ID? *)
Fixpoint poolFound (backendAddressPoolId : string) (backendPools : list BackendAddressPool)
    : bool :=
  match backendPools with
  | [] => false
  | pool :: rest =>
      match PoolID pool with
      | None => poolFound backendAddressPoolId rest
      | Some id =>
          if String.eqb id backendAddressPoolId then true
          else poolFound backendAddressPoolId rest
      end
  end.

(** Lines 283-291 of Delete: the pools that stay. *)
Fixpoint remainingPools (backendAddressPoolId : string)
    (backendPools backendAddressPools : list BackendAddressPool) : list BackendAddressPool :=
  match backendPools with
  | [] => backendAddressPools
  | pool :: rest =>
      match PoolID pool with
      | None => remainingPools backendAddressPoolId rest backendAddressPools
      | Some id =>
          if negb (String.eqb id backendAddressPoolId)
          then remainingPools backendAddressPoolId rest (backendAddressPools ++ [pool])
          else remainingPools backendAddressPoolId rest backendAddressPools
      end
  end.

Section Handlers.

Variable W : Type.
Variable imp : imports.
Variable client : InterfacesClient W.

Definition clientGet (ctx : context) (resourceGroup name expand : string)
    : M W apicall (Response Interface) :=
  call (InterfacesGet ctx resourceGroup name expand) (Get client ctx resourceGroup name expand).

Definition clientCreateOrUpdate (ctx : context) (resourceGroup name : string)
    (parameters : Interface) : M W apicall (option error) :=
  call (InterfacesCreateOrUpdate ctx resourceGroup name parameters)
       (CreateOrUpdate client ctx resourceGroup name parameters).

Definition futureWaitForCompletionRef (ctx : context) : M W apicall (option error) :=
  call (WaitForCompletionRef ctx) (FutureWaitForCompletionRef client ctx).

(** Lines 150-226. *)
Definition resourceNetworkInterfaceBackendAddressPoolAssociationRead : M W apicall unit :=
  d <- getData ;;
  let ctx := timeouts.ForRead d in
  match strings.Split (Id d) bar with
  | [splitId0; splitId1] =>
      match ParseAzureResourceID imp splitId0 with
      | inl err => fail err
      | inr nicID =>
          let ipConfigurationName := azure.PathAt nicID "ipConfigurations" in
          let networkInterfaceName := azure.PathAt nicID "networkInterfaces" in
          let resourceGroup := azure.ResourceGroup nicID in
          let backendAddressPoolId := splitId1 in
          read <- clientGet ctx resourceGroup networkInterfaceName "" ;;
          match Err read with
          | Some err =>
              if ResponseWasNotFound read then SetId ""
              else fail (Wrapf "Error retrieving Network Interface %q (Resource Group %q): %+v"
                           [networkInterfaceName; resourceGroup] err)
          | None =>
              match InterfaceProperties (Body read) with
              | None =>
                  fail (Errorf "Error: `properties` was nil for Network Interface %q (Resource Group %q)"
                          [networkInterfaceName; resourceGroup])
              | Some nicProps =>
                  match IPConfigurations nicProps with
                  | None =>
                      fail (Errorf "Error: `properties.IPConfigurations` was nil for Network Interface %q (Resource Group %q)"
                              [networkInterfaceName; resourceGroup])
                  | Some _ =>
                      match FindNetworkInterfaceIPConfiguration imp
                              (IPConfigurations nicProps) ipConfigurationName with
                      | None => SetId ""
                      | Some config =>
                          let found :=
                            match IPConfigurationProperties config with
                            | Some props =>
                                match LoadBalancerBackendAddressPools props with
                                | Some backendPools => poolFound backendAddressPoolId backendPools
                                | None => false
                                end
                            | None => false
                            end in
                          if negb found then SetId ""
                          else
                            Set_ "backend_address_pool_id" (VString backendAddressPoolId) ;;
                            Set_ "ip_configuration_name" (VString ipConfigurationName) ;;
                            Set_ "network_interface_id" (VStringPtr (InterfaceID (Body read)))
                      end
                  end
              end
          end
      end
  | _ =>
      fail (Errorf "Expected ID to be in the format {networkInterfaceId}/ipConfigurations/{ipConfigurationName}|{backendAddressPoolId} but got %q"
              [Id d])
  end.

(** Lines 60-148. *)
Definition resourceNetworkInterfaceBackendAddressPoolAssociationCreate : M W apicall unit :=
  d <- getData ;;
  let ctx := timeouts.ForCreate d in
  let networkInterfaceId := GetString d "network_interface_id" in
  let ipConfigurationName := GetString d "ip_configuration_name" in
  let backendAddressPoolId := GetString d "backend_address_pool_id" in
  match ParseAzureResourceID imp networkInterfaceId with
  | inl err => fail err
  | inr id =>
      let networkInterfaceName := azure.PathAt id "networkInterfaces" in
      let resourceGroup := azure.ResourceGroup id in
      locked networkInterfaceName (networkInterfaceResourceName imp) (
        read <- clientGet ctx resourceGroup networkInterfaceName "" ;;
        match Err read with
        | Some err =>
            if ResponseWasNotFound read
            then fail (Errorf "Network Interface %q (Resource Group %q) was not found!"
                         [networkInterfaceName; resourceGroup])
            else fail (Wrapf "Error retrieving Network Interface %q (Resource Group %q): %+v"
                         [networkInterfaceName; resourceGroup] err)
        | None =>
            match InterfaceProperties (Body read) with
            | None =>
                fail (Errorf "Error: `properties` was nil for Network Interface %q (Resource Group %q)"
                        [networkInterfaceName; resourceGroup])
            | Some props =>
                match IPConfigurations props with
                | None =>
                    fail (Errorf "Error: `properties.IPConfigurations` was nil for Network Interface %q (Resource Group %q)"
                            [networkInterfaceName; resourceGroup])
                | Some _ =>
                    match FindNetworkInterfaceIPConfiguration imp
                            (IPConfigurations props) ipConfigurationName with
                    | None =>
                        fail (Errorf "Error: IP Configuration %q was not found on Network Interface %q (Resource Group %q)"
                                [ipConfigurationName; networkInterfaceName; resourceGroup])
                    | Some config =>
                        match IPConfigurationProperties config with
                        | None =>
                            fail (Errorf "Error: `IPConfiguration.properties` was nil for Network Interface %q (Resource Group %q)"
                                    [networkInterfaceName; resourceGroup])
                        | Some p =>
                            let rid := resourceId networkInterfaceId ipConfigurationName
                                         backendAddressPoolId in
                            match match LoadBalancerBackendAddressPools p with
                                  | Some existing =>
                                      existingPools backendAddressPoolId rid existing []
                                  | None => inr []
                                  end with
                            | inl err => fail err
                            | inr pools =>
                                let pool := mkBackendAddressPool (Some backendAddressPoolId)
                                              None None in
                                let pools := pools ++ [pool] in
                                let config := withProperties config (withPools p pools) in
                                let read' :=
                                  withIPConfigurations (Body read) props
                                    (updateNetworkInterfaceIPConfiguration imp config
                                       (IPConfigurations props)) in
                                err <- clientCreateOrUpdate ctx resourceGroup
                                         networkInterfaceName read' ;;
                                match err with
                                | Some err =>
                                    fail (Wrapf "Error updating Backend Address Pool Association for Network Interface %q (Resource Group %q): %+v"
                                            [networkInterfaceName; resourceGroup] err)
                                | None =>
                                    err <- futureWaitForCompletionRef ctx ;;
                                    match err with
                                    | Some err =>
                                        fail (Wrapf "Error waiting for completion of Backend Address Pool Association for NIC %q (Resource Group %q): %+v"
                                                [networkInterfaceName; resourceGroup] err)
                                    | None =>
                                        SetId rid ;;
                                        resourceNetworkInterfaceBackendAddressPoolAssociationRead
                                    end
                                end
                            end
                        end
                    end
                end
            end
        end)
  end.

(** Lines 228-306. *)
Definition resourceNetworkInterfaceBackendAddressPoolAssociationDelete : M W apicall unit :=
  d <- getData ;;
  let ctx := timeouts.ForDelete d in
  match strings.Split (Id d) bar with
  | [splitId0; splitId1] =>
      match ParseAzureResourceID imp splitId0 with
      | inl err => fail err
      | inr nicID =>
          let ipConfigurationName := azure.PathAt nicID "ipConfigurations" in
          let networkInterfaceName := azure.PathAt nicID "networkInterfaces" in
          let resourceGroup := azure.ResourceGroup nicID in
          let backendAddressPoolId := splitId1 in
          locked networkInterfaceName (networkInterfaceResourceName imp) (
            read <- clientGet ctx resourceGroup networkInterfaceName "" ;;
            match Err read with
            | Some err =>
                if ResponseWasNotFound read
                then fail (Errorf "Network Interface %q (Resource Group %q) was not found!"
                             [networkInterfaceName; resourceGroup])
                else fail (Wrapf "Error retrieving Network Interface %q (Resource Group %q): %+v"
                             [networkInterfaceName; resourceGroup] err)
            | None =>
                match InterfaceProperties (Body read) with
                | None =>
                    fail (Errorf "Error: `properties` was nil for Network Interface %q (Resource Group %q)"
                            [networkInterfaceName; resourceGroup])
                | Some nicProps =>
                    match IPConfigurations nicProps with
                    | None =>
                        fail (Errorf "Error: `properties.IPConfigurations` was nil for Network Interface %q (Resource Group %q)"
                                [networkInterfaceName; resourceGroup])
                    | Some _ =>
                        match FindNetworkInterfaceIPConfiguration imp
                                (IPConfigurations nicProps) ipConfigurationName with
                        | None =>
                            fail (Errorf "Error: IP Configuration %q was not found on Network Interface %q (Resource Group %q)"
                                    [ipConfigurationName; networkInterfaceName; resourceGroup])
                        | Some config =>
                            match IPConfigurationProperties config with
                            | None =>
                                fail (Errorf "Error: Properties for IPConfiguration %q was nil for Network Interface %q (Resource Group %q)"
                                        [ipConfigurationName; networkInterfaceName; resourceGroup])
                            | Some props =>
                                let backendAddressPools :=
                                  match LoadBalancerBackendAddressPools props with
                                  | Some backendPools =>
                                      remainingPools backendAddressPoolId backendPools []
                                  | None => []
                                  end in
                                let config :=
                                  withProperties config (withPools props backendAddressPools) in
                                let read' :=
                                  withIPConfigurations (Body read) nicProps
                                    (updateNetworkInterfaceIPConfiguration imp config
                                       (IPConfigurations nicProps)) in
                                err <- clientCreateOrUpdate ctx resourceGroup
                                         networkInterfaceName read' ;;
                                match err with
                                | Some err =>
                                    fail (Wrapf "Error removing Backend Address Pool Association for Network Interface %q (Resource Group %q): %+v"
                                            [networkInterfaceName; resourceGroup] err)
                                | None =>
                                    err <- futureWaitForCompletionRef ctx ;;
                                    match err with
                                    | Some err =>
                                        fail (Wrapf "Error waiting for removal of Backend Address Pool Association for NIC %q (Resource Group %q): %+v"
                                                [networkInterfaceName; resourceGroup] err)
                                    | None => ret tt
                                    end
                                end
                            end
                        end
                    end
                end
            end)
      end
  | _ =>
      fail (Errorf "Expected ID to be in the format {networkInterfaceId}/ipConfigurations/{ipConfigurationName}|{backendAddressPoolId} but got %q"
              [Id d])
  end.

End Handlers.

End NetworkInterfaceBackendAddressPoolAssociation.

(** ** package iothub, iothub_route_resource.go: the route of an IoT Hub *)

Module IotHubRoute.

(** The part of the SDK's [devices.IotHubDescription] the handlers touch. *)
Record RouteProperties : Type := mkRouteProperties {
  RouteName : option string;
  Source : string;
  Condition : option string;
  EndpointNames : option (list string);
  IsEnabled : option bool
}.

Record RoutingProperties : Type := mkRoutingProperties {
  Routes : option (list RouteProperties);
  FallbackRoute : option string
}.

Record IotHubProperties : Type := mkIotHubProperties {
  Routing : option RoutingProperties;
  HostName : option string
}.

Record IotHubDescription : Type := mkIotHubDescription {
  HubID : option string;
  Properties : option IotHubProperties
}.

(** What the file takes from outside: the identifier parser of
    helpers/azure and the lock name of package iothub (neither is among the
    sources), and Go's [strings.EqualFold]. *)
Record imports : Type := mkImports {
  ParseAzureResourceID : string -> error + azure.ResourceID;
  EqualFold : string -> string -> bool;
  IothubResourceName : string
}.

Inductive apicall : Type :=
  | ResourceGet (ctx : context) (resourceGroup name : string)
      (result : Response IotHubDescription)
  | ResourceCreateOrUpdate (ctx : context) (resourceGroup name : string)
      (iotHubDescription : IotHubDescription) (ifMatch : string) (err : option error)
  | WaitForCompletionRef (ctx : context) (err : option error).

(** The [IoTHub.ResourceClient] held by [meta]. *)
Record ResourceClient (W : Type) : Type := mkResourceClient {
  Get : context -> string -> string -> W -> Response IotHubDescription * W;
  CreateOrUpdate : context -> string -> string -> IotHubDescription -> string -> W ->
                   option error * W;
  FutureWaitForCompletionRef : context -> W -> option error * W
}.

(** [routing.Routes = &routes] as seen from [iothub].  [routing] is the
    pointer [iothub.Properties.Routing]; when that pointer was nil, Create
    has pointed [routing] at a fresh [RoutingProperties] that [iothub] does
    not refer to, and the assignment leaves [iothub] as it was. *)
Definition withRoutes (iothub : IotHubDescription) (properties : IotHubProperties)
    (routes : list RouteProperties) : IotHubDescription :=
  match Routing properties with
  | Some routing =>
      mkIotHubDescription (HubID iothub)
        (Some (mkIotHubProperties
                 (Some (mkRoutingProperties (Some routes) (FallbackRoute routing)))
                 (HostName properties)))
  | None => iothub
  end.

Section Loops.

Variable imp : imports.

(** Lines 146-158 of CreateUpdate: the loop over the routes of the hub, with
    its two accumulators [routes] and [alreadyExists]. *)
Fixpoint existingRoutes (isNewResource : bool) (routeName rid : string)
    (route : RouteProperties) (existing routes : list RouteProperties)
    (alreadyExists : bool) : error + (list RouteProperties * bool) :=
  match existing with
  | [] => inr (routes, alreadyExists)
  | existingRoute :: rest =>
      match RouteName existingRoute with
      | Some name =>
          if EqualFold imp name routeName then
            if isNewResource then inl (ImportAsExistsError "azurerm_iothub_route" rid)
            else existingRoutes isNewResource routeName rid route rest
                   (routes ++ [route]) true
          else existingRoutes isNewResource routeName rid route rest
                 (routes ++ [existingRoute]) alreadyExists
      | None => existingRoutes isNewResource routeName rid route rest routes alreadyExists
      end
  end.

(** Lines 261-267 of Delete: the routes that stay. *)
Fixpoint updatedRoutes (routeName : string) (routes updated : list RouteProperties)
    : list RouteProperties :=
  match routes with
  | [] => updated
  | route :: rest =>
      match RouteName route with
      | Some name =>
          if negb (EqualFold imp name routeName)
          then updatedRoutes routeName rest (updated ++ [route])
          else updatedRoutes routeName rest updated
      | None => updatedRoutes routeName rest updated
      end
  end.

End Loops.

Section Handlers.

Variable W : Type.
Variable imp : imports.
Variable client : ResourceClient W.

Definition clientGet (ctx : context) (resourceGroup name : string)
    : M W apicall (Response IotHubDescription) :=
  call (ResourceGet ctx resourceGroup name) (Get client ctx resourceGroup name).

Definition clientCreateOrUpdate (ctx : context) (resourceGroup name : string)
    (iothub : IotHubDescription) (ifMatch : string) : M W apicall (option error) :=
  call (ResourceCreateOrUpdate ctx resourceGroup name iothub ifMatch)
       (CreateOrUpdate client ctx resourceGroup name iothub ifMatch).

Definition futureWaitForCompletionRef (ctx : context) : M W apicall (option error) :=
  call (WaitForCompletionRef ctx) (FutureWaitForCompletionRef client ctx).

(** Lines 210-219 of Read: every route with the name sets the attributes. *)
Fixpoint setRouteAttributes (routeName : string) (routes : list RouteProperties)
    : M W apicall unit :=
  match routes with
  | [] => ret tt
  | route :: rest =>
      match RouteName route with
      | Some name =>
          if EqualFold imp name routeName then
            Set_ "source" (VString (Source route)) ;;
            Set_ "condition" (VStringPtr (Condition route)) ;;
            Set_ "enabled" (VBoolPtr (IsEnabled route)) ;;
            Set_ "endpoint_names" (VStringsPtr (EndpointNames route)) ;;
            setRouteAttributes routeName rest
          else setRouteAttributes routeName rest
      | None => setRouteAttributes routeName rest
      end
  end.

(** Lines 182-223. *)
Definition resourceIotHubRouteRead : M W apicall unit :=
  d <- getData ;;
  let ctx := timeouts.ForRead d in
  match ParseAzureResourceID imp (Id d) with
  | inl err => fail err
  | inr parsedIothubRouteId =>
      let resourceGroup := azure.ResourceGroup parsedIothubRouteId in
      let iothubName := azure.PathAt parsedIothubRouteId "IotHubs" in
      let routeName := azure.PathAt parsedIothubRouteId "Routes" in
      iothub <- clientGet ctx resourceGroup iothubName ;;
      match Err iothub with
      | Some err =>
          fail (Wrapf "Error loading IotHub %q (Resource Group %q): %+v"
                  [iothubName; resourceGroup] err)
      | None =>
          Set_ "name" (VString routeName) ;;
          Set_ "iothub_name" (VString iothubName) ;;
          Set_ "resource_group_name" (VString resourceGroup) ;;
          match Properties (Body iothub) with
          | None => ret tt
          | Some properties =>
              match Routing properties with
              | None => ret tt
              | Some routing =>
                  match Routes routing with
                  | Some routes => setRouteAttributes routeName routes
                  | None => ret tt
                  end
              end
          end
      end
  end.

(** Lines 95-180. *)
Definition resourceIotHubRouteCreateUpdate : M W apicall unit :=
  d <- getData ;;
  let ctx := timeouts.ForCreateUpdate d in
  let iothubName := GetString d "iothub_name" in
  let resourceGroup := GetString d "resource_group_name" in
  locked iothubName (IothubResourceName imp) (
    iothub <- clientGet ctx resourceGroup iothubName ;;
    match Err iothub with
    | Some err =>
        if ResponseWasNotFound iothub
        then fail (Errorf "IotHub %q (Resource Group %q) was not found"
                     [iothubName; resourceGroup])
        else fail (Wrapf "Error loading IotHub %q (Resource Group %q): %+v"
                     [iothubName; resourceGroup] err)
    | None =>
        let routeName := GetString d "name" in
        hubId <- deref (HubID (Body iothub)) ;;
        let rid := (hubId ++ "/Routes/" ++ routeName)%string in
        let route :=
          mkRouteProperties (Some routeName) (GetString d "source")
            (Some (GetString d "condition")) (Some (GetStrings d "endpoint_names"))
            (Some (GetBool d "enabled")) in
        properties <- deref (Properties (Body iothub)) ;;
        let existing :=
          match Routing properties with
          | Some routing =>
              match Routes routing with
              | Some routes => routes
              | None => []
              end
          | None => []
          end in
        match existingRoutes imp (IsNewResource d) routeName rid route existing [] false with
        | inl err => fail err
        | inr (routes, alreadyExists) =>
            match (if IsNewResource d then inr (routes ++ [route])
                   else if negb alreadyExists
                   then inl (Errorf "Unable to find Route %q defined for IotHub %q (Resource Group %q)"
                               [routeName; iothubName; resourceGroup])
                   else inr routes) with
            | inl err => fail err
            | inr routes =>
                let iothub' := withRoutes (Body iothub) properties routes in
                err <- clientCreateOrUpdate ctx resourceGroup iothubName iothub' "" ;;
                match err with
                | Some err =>
                    fail (Wrapf "Error creating/updating IotHub %q (Resource Group %q): %+v"
                            [iothubName; resourceGroup] err)
                | None =>
                    err <- futureWaitForCompletionRef ctx ;;
                    match err with
                    | Some err =>
                        fail (Wrapf "Error waiting for the completion of the creating/updating of IotHub %q (Resource Group %q): %+v"
                                [iothubName; resourceGroup] err)
                    | None =>
                        SetId rid ;;
                        resourceIotHubRouteRead
                    end
                end
            end
        end
    end).

(** Lines 225-281. *)
Definition resourceIotHubRouteDelete : M W apicall unit :=
  d <- getData ;;
  let ctx := timeouts.ForDelete d in
  match ParseAzureResourceID imp (Id d) with
  | inl err => fail err
  | inr parsedIothubRouteId =>
      let resourceGroup := azure.ResourceGroup parsedIothubRouteId in
      let iothubName := azure.PathAt parsedIothubRouteId "IotHubs" in
      let routeName := azure.PathAt parsedIothubRouteId "Routes" in
      locked iothubName (IothubResourceName imp) (
        iothub <- clientGet ctx resourceGroup iothubName ;;
        match Err iothub with
        | Some err =>
            if ResponseWasNotFound iothub
            then fail (Errorf "IotHub %q (Resource Group %q) was not found"
                         [iothubName; resourceGroup])
            else fail (Wrapf "Error loading IotHub %q (Resource Group %q): %+v"
                         [iothubName; resourceGroup] err)
        | None =>
            match Properties (Body iothub) with
            | None => ret tt
            | Some properties =>
                match Routing properties with
                | None => ret tt
                | Some routing =>
                    match Routes routing with
                    | None => ret tt
                    | Some routes =>
                        let updated := updatedRoutes imp routeName routes [] in
                        let iothub' := withRoutes (Body iothub) properties updated in
                        err <- clientCreateOrUpdate ctx resourceGroup iothubName iothub' "" ;;
                        match err with
                        | Some err =>
                            fail (Wrapf "Error updating IotHub %q (Resource Group %q) with Route %q: %+v"
                                    [iothubName; resourceGroup; routeName] err)
                        | None =>
                            err <- futureWaitForCompletionRef ctx ;;
                            match err with
                            | Some err =>
                                fail (Wrapf "Error waiting for IotHub %q (Resource Group %q) to finish updating Route %q: %+v"
                                        [iothubName; resourceGroup; routeName] err)
                            | None => ret tt
                            end
                        end
                    end
                end
            end
        end)
  end.

End Handlers.

End IotHubRoute.

(** ** package network, subnet_nat_gateway_association_resource.go: the
    association of a subnet with a NAT gateway *)

Module SubnetNatGatewayAssociation.

Record SubResource : Type := mkSubResource {
  SubResourceID : option string
}.

Record SubnetPropertiesFormat : Type := mkSubnetProperties {
  NatGateway : option SubResource;
  AddressPrefix : option string
}.

Record Subnet : Type := mkSubnet {
  SubnetID : option string;
  SubnetProperties : option SubnetPropertiesFormat
}.

(** [parse.SubnetId] and [parse.NatGatewayId], as far as they are read. *)
Record SubnetId : Type := mkSubnetId {
  ResourceGroup : string;
  VirtualNetworkName : string;
  Name : string
}.

Record NatGatewayId : Type := mkNatGatewayId {
  GatewayName : string
}.

(** The identifier parsers (package network/parse and helpers/azure) and
    the lock names of package network are not among the sources. *)
Record imports : Type := mkImports {
  parseSubnetID : string -> error + SubnetId;
  parseNatGatewayID : string -> error + NatGatewayId;
  ParseAzureResourceID : string -> error + azure.ResourceID;
  natGatewayResourceName : string;
  VirtualNetworkResourceName : string;
  SubnetResourceName : string
}.

Inductive apicall : Type :=
  | SubnetsGet (ctx : context) (resourceGroup virtualNetworkName subnetName expand : string)
      (result : Response Subnet)
  | SubnetsCreateOrUpdate (ctx : context) (resourceGroup virtualNetworkName subnetName : string)
      (parameters : Subnet) (err : option error)
  | WaitForCompletionRef (ctx : context) (err : option error).

(** The [Network.SubnetsClient] held by [meta]. *)
Record SubnetsClient (W : Type) : Type := mkSubnetsClient {
  Get : context -> string -> string -> string -> string -> W -> Response Subnet * W;
  CreateOrUpdate : context -> string -> string -> string -> Subnet -> W -> option error * W;
  FutureWaitForCompletionRef : context -> W -> option error * W
}.

(** [props.NatGateway = ...], as seen from [subnet]: [props] is the pointer
    [subnet.SubnetPropertiesFormat]. *)
Definition withNatGateway (subnet : Subnet) (props : SubnetPropertiesFormat)
    (gateway : option SubResource) : Subnet :=
  mkSubnet (SubnetID subnet) (Some (mkSubnetProperties gateway (AddressPrefix props))).

Section Handlers.

Variable W : Type.
Variable imp : imports.
Variable client : SubnetsClient W.

Definition clientGet (ctx : context) (resourceGroup virtualNetworkName subnetName expand : string)
    : M W apicall (Response Subnet) :=
  call (SubnetsGet ctx resourceGroup virtualNetworkName subnetName expand)
       (Get client ctx resourceGroup virtualNetworkName subnetName expand).

Definition clientCreateOrUpdate (ctx : context)
    (resourceGroup virtualNetworkName subnetName : string) (parameters : Subnet)
    : M W apicall (option error) :=
  call (SubnetsCreateOrUpdate ctx resourceGroup virtualNetworkName subnetName parameters)
       (CreateOrUpdate client ctx resourceGroup virtualNetworkName subnetName parameters).

Definition futureWaitForCompletionRef (ctx : context) : M W apicall (option error) :=
  call (WaitForCompletionRef ctx) (FutureWaitForCompletionRef client ctx).

(** Lines 120-159. *)
Definition resourceSubnetNatGatewayAssociationRead : M W apicall unit :=
  d <- getData ;;
  let ctx := timeouts.ForRead d in
  match parseSubnetID imp (Id d) with
  | inl err => fail err
  | inr id =>
      let resourceGroup := ResourceGroup id in
      let virtualNetworkName := VirtualNetworkName id in
      let subnetName := Name id in
      subnet <- clientGet ctx resourceGroup virtualNetworkName subnetName "" ;;
      match Err subnet with
      | Some err =>
          if ResponseWasNotFound subnet then SetId ""
          else fail (Wrapf "Error retrieving Subnet %q (Virtual Network %q / Resource Group %q): %+v"
                       [subnetName; virtualNetworkName; resourceGroup] err)
      | None =>
          match SubnetProperties (Body subnet) with
          | None =>
              fail (Errorf "Error: `properties` was nil for Subnet %q (Virtual Network %q / Resource Group %q)"
                      [subnetName; virtualNetworkName; resourceGroup])
          | Some props =>
              match NatGateway props with
              | None => SetId ""
              | Some natGateway =>
                  Set_ "subnet_id" (VStringPtr (SubnetID (Body subnet))) ;;
                  Set_ "nat_gateway_id" (VStringPtr (SubResourceID natGateway))
              end
          end
      end
  end.

(** Lines 90-100 of Create: the check for an association that is already
    there, and the assignment of the gateway.  A subnet without properties
    is submitted as it was read. *)
Definition associate (natGatewayId : string) (subnet : Subnet) : error + Subnet :=
  match SubnetProperties subnet with
  | Some props =>
      match match NatGateway props with
            | Some gateway =>
                match SubResourceID gateway, SubnetID subnet with
                | Some _, Some subnetID =>
                    Some (ImportAsExistsError "azurerm_subnet_nat_gateway_association"
                            subnetID)
                | _, _ => None
                end
            | None => None
            end with
      | Some err => inl err
      | None =>
          inr (withNatGateway subnet props (Some (mkSubResource (Some natGatewayId))))
      end
  | None => inr subnet
  end.

(** Lines 51-118. *)
Definition resourceSubnetNatGatewayAssociationCreate : M W apicall unit :=
  d <- getData ;;
  let ctx := timeouts.ForCreate d in
  let subnetId := GetString d "subnet_id" in
  let natGatewayId := GetString d "nat_gateway_id" in
  match parseSubnetID imp subnetId with
  | inl err => fail err
  | inr parsedSubnetId =>
      let subnetName := Name parsedSubnetId in
      let virtualNetworkName := VirtualNetworkName parsedSubnetId in
      let resourceGroup := ResourceGroup parsedSubnetId in
      match parseNatGatewayID imp natGatewayId with
      | inl err => fail (Wrapf "Error parsing NAT gateway id '%s': %+v" [natGatewayId] err)
      | inr parsedGatewayId =>
          let gatewayName := GatewayName parsedGatewayId in
          locked gatewayName (natGatewayResourceName imp) (
          locked virtualNetworkName (VirtualNetworkResourceName imp) (
          locked subnetName (SubnetResourceName imp) (
            subnet <- clientGet ctx resourceGroup virtualNetworkName subnetName "" ;;
            match Err subnet with
            | Some err =>
                if ResponseWasNotFound subnet
                then fail (Errorf "Subnet %q (Virtual Network %q / Resource Group %q) was not found!"
                             [subnetName; virtualNetworkName; resourceGroup])
                else fail (Wrapf "Error retrieving Subnet %q (Virtual Network %q / Resource Group %q): %+v"
                             [subnetName; virtualNetworkName; resourceGroup] err)
            | None =>
                match associate natGatewayId (Body subnet) with
                | inl err => fail err
                | inr subnet' =>
                    err <- clientCreateOrUpdate ctx resourceGroup virtualNetworkName
                             subnetName subnet' ;;
                    match err with
                    | Some err =>
                        fail (Wrapf "Error updating NAT Gateway Association for Subnet %q (Virtual Network %q / Resource Group %q): %+v"
                                [subnetName; virtualNetworkName; resourceGroup] err)
                    | None =>
                        err <- futureWaitForCompletionRef ctx ;;
                        match err with
                        | Some err =>
                            fail (Wrapf "Error waiting for completion of NAT Gateway Association for Subnet %q (VN %q / Resource Group %q): %+v"
                                    [subnetName; virtualNetworkName; resourceGroup] err)
                        | None =>
                            read <- clientGet ctx resourceGroup virtualNetworkName
                                      subnetName "" ;;
                            match Err read with
                            | Some err =>
                                fail (Wrapf "Error retrieving Subnet %q (Virtual Network %q / Resource Group %q): %+v"
                                        [subnetName; virtualNetworkName; resourceGroup] err)
                            | None =>
                                readID <- deref (SubnetID (Body read)) ;;
                                SetId readID ;;
                                resourceSubnetNatGatewayAssociationRead
                            end
                        end
                    end
                end
            end)))
      end
  end.

(** Lines 161-225. *)
Definition resourceSubnetNatGatewayAssociationDelete : M W apicall unit :=
  d <- getData ;;
  let ctx := timeouts.ForDelete d in
  match parseSubnetID imp (Id d) with
  | inl err => fail err
  | inr id =>
      let resourceGroup := ResourceGroup id in
      let virtualNetworkName := VirtualNetworkName id in
      let subnetName := Name id in
      subnet <- clientGet ctx resourceGroup virtualNetworkName subnetName "" ;;
      match Err subnet with
      | Some err =>
          if ResponseWasNotFound subnet then ret tt
          else fail (Wrapf "Error retrieving Subnet %q (Virtual Network %q / Resource Group %q): %+v"
                       [subnetName; virtualNetworkName; resourceGroup] err)
      | None =>
          match SubnetProperties (Body subnet) with
          | None =>
              fail (Errorf "`Properties` was nil for Subnet %q (Virtual Network %q / Resource Group %q)"
                      [subnetName; virtualNetworkName; resourceGroup])
          | Some props =>
              match match NatGateway props with
                    | Some gateway => SubResourceID gateway
                    | None => None
                    end with
              | None => ret tt
              | Some gatewayID =>
                  match ParseAzureResourceID imp gatewayID with
                  | inl err => fail err
                  | inr parsedGatewayId =>
                      let gatewayName := azure.PathAt parsedGatewayId "natGateways" in
                      locked gatewayName (natGatewayResourceName imp) (
                      locked virtualNetworkName (VirtualNetworkResourceName imp) (
                        subnet <- clientGet ctx resourceGroup virtualNetworkName
                                    subnetName "" ;;
                        match Err subnet with
                        | Some err =>
                            if ResponseWasNotFound subnet then ret tt
                            else fail (Wrapf "Error retrieving Subnet %q (Virtual Network %q / Resource Group %q): %+v"
                                         [subnetName; virtualNetworkName; resourceGroup] err)
                        | None =>
                            props <- deref (SubnetProperties (Body subnet)) ;;
                            let subnet' := withNatGateway (Body subnet) props None in
                            err <- clientCreateOrUpdate ctx resourceGroup virtualNetworkName
                                     subnetName subnet' ;;
                            match err with
                            | Some err =>
                                fail (Wrapf "Error removing NAT Gateway Association from Subnet %q (Virtual Network %q / Resource Group %q): %+v"
                                        [subnetName; virtualNetworkName; resourceGroup] err)
                            | None =>
                                err <- futureWaitForCompletionRef ctx ;;
                                match err with
                                | Some err =>
                                    fail (Wrapf "Error waiting for removal of NAT Gateway Association from Subnet %q (Virtual Network %q / Resource Group %q): %+v"
                                            [subnetName; virtualNetworkName; resourceGroup] err)
                                | None => ret tt
                                end
                            end
                        end))
                  end
              end
          end
      end
  end.

End Handlers.

End SubnetNatGatewayAssociation.

(** ** package resource, src/unnamed/part_008: the resource group *)

Module ResourceGroup.

Definition tagMap : Type := list (string * option string).

(** [resources.Group]. *)
Record Group : Type := mkGroup {
  GroupID : option string;
  GroupName : option string;
  Location : option string;
  Tags : option tagMap
}.

(** [parse.ResourceGroupId], as far as it is read. *)
Record ResourceGroupId : Type := mkResourceGroupId {
  ResourceGroupName : string
}.

(** Packages location, tags and resource/parse are not among the sources. *)
Record imports : Type := mkImports {
  parseResourceGroupID : string -> error + ResourceGroupId;
  locationNormalize : string -> string;
  locationNormalizeNilable : option string -> string;
  tagsExpand : list (string * string) -> tagMap;
  tagsFlattenAndSet : option tagMap -> ResourceData -> error + ResourceData
}.

Inductive apicall : Type :=
  | GroupsGet (ctx : context) (name : string) (result : Response Group)
  | GroupsCreateOrUpdate (ctx : context) (name : string) (parameters : Group)
      (err : option error).

(** The [Resource.GroupsClient] held by [meta]. *)
Record GroupsClient (W : Type) : Type := mkGroupsClient {
  Get : context -> string -> W -> Response Group * W;
  CreateOrUpdate : context -> string -> Group -> W -> option error * W
}.

Section Handlers.

Variable W : Type.
Variable imp : imports.
Variable client : GroupsClient W.

Definition clientGet (ctx : context) (name : string) : M W apicall (Response Group) :=
  call (GroupsGet ctx name) (Get client ctx name).

Definition clientCreateOrUpdate (ctx : context) (name : string) (parameters : Group)
    : M W apicall (option error) :=
  call (GroupsCreateOrUpdate ctx name parameters) (CreateOrUpdate client ctx name parameters).

(** Lines 537-561. *)
Definition resourceResourceGroupRead : M W apicall unit :=
  d <- getData ;;
  let ctx := timeouts.ForRead d in
  match parseResourceGroupID imp (Id d) with
  | inl err => fail err
  | inr id =>
      resp <- clientGet ctx (ResourceGroupName id) ;;
      match Err resp with
      | Some err =>
          if ResponseWasNotFound resp then SetId ""
          else fail (Wrapf "Error reading resource group: %+v" [] err)
      | None =>
          Set_ "name" (VStringPtr (GroupName (Body resp))) ;;
          Set_ "location" (VString (locationNormalizeNilable imp (Location (Body resp)))) ;;
          onData (tagsFlattenAndSet imp (Tags (Body resp)))
      end
  end.

(** Lines 505-516 and the like in the other resources: the check made
    before a new object is created.  A failure of the lookup other than
    "not found" ends the handler, and so does an object that has an ID. *)
Definition checkExisting (resourceName : string) (existing : Response Group)
    : option error :=
  match match Err existing with
        | Some err =>
            if negb (ResponseWasNotFound existing)
            then Some (Wrapf "Error checking for presence of existing resource group: %+v"
                         [] err)
            else None
        | None => None
        end with
  | Some err => Some err
  | None =>
      match GroupID (Body existing) with
      | Some id =>
          if negb (String.eqb id "") then Some (ImportAsExistsError resourceName id)
          else None
      | None => None
      end
  end.

(** Lines 496-535. *)
Definition resourceResourceGroupCreateUpdate : M W apicall unit :=
  d <- getData ;;
  let ctx := timeouts.ForCreateUpdate d in
  let name := GetString d "name" in
  let location := locationNormalize imp (GetString d "location") in
  let t := GetMap d "tags" in
  (if IsNewResource d then
     existing <- clientGet ctx name ;;
     match checkExisting "azurerm_resource_group" existing with
     | Some err => fail err
     | None => ret tt
     end
   else ret tt) ;;
  let parameters := mkGroup None None (Some location) (Some (tagsExpand imp t)) in
  err <- clientCreateOrUpdate ctx name parameters ;;
  match err with
  | Some err => fail (Wrapf "Error creating Resource Group %q: %+v" [name] err)
  | None =>
      resp <- clientGet ctx name ;;
      match Err resp with
      | Some err => fail (Wrapf "Error retrieving Resource Group %q: %+v" [name] err)
      | None =>
          respID <- deref (GroupID (Body resp)) ;;
          SetId respID ;;
          resourceResourceGroupRead
      end
  end.

End Handlers.

End ResourceGroup.

(** ** package compute, src/unnamed/part_003: the extension of a virtual
    machine scale set *)

Module VirtualMachineScaleSetExtension.

Section Types.

(** A decoded JSON object, [map[string]interface{}]. *)
Variable json : Type.

(** An [interface{}] field of the SDK that holds JSON. *)
Inductive any : Type :=
  | AnyMap (m : json)
  | AnyOther.

Record VirtualMachineScaleSetExtensionProperties : Type := mkExtensionProperties {
  ForceUpdateTag : option string;
  Publisher : option string;
  Type_ : option string;
  TypeHandlerVersion : option string;
  AutoUpgradeMinorVersion : option bool;
  Settings : option any;
  ProtectedSettings : option any;
  ProvisionAfterExtensions : option (list string)
}.

Record VirtualMachineScaleSetExtension : Type := mkExtension {
  ExtensionID : option string;
  ExtensionName_ : option string;
  ExtensionProperties : option VirtualMachineScaleSetExtensionProperties
}.

Record VirtualMachineScaleSet : Type := mkScaleSet {
  ScaleSetID : option string
}.

(** [parse.VirtualMachineScaleSetId] and
    [parse.VirtualMachineScaleSetExtensionId], as far as they are read. *)
Record VirtualMachineScaleSetId : Type := mkScaleSetId {
  ScaleSetResourceGroup : string;
  ScaleSetName : string
}.

Record VirtualMachineScaleSetExtensionId : Type := mkExtensionId {
  ResourceGroup : string;
  VirtualMachineScaleSetName : string;
  ExtensionName : string
}.

(** Package compute/parse and the JSON helpers of pluginsdk are not among
    the sources. *)
Record imports : Type := mkImports {
  parseVirtualMachineScaleSetID : string -> error + VirtualMachineScaleSetId;
  parseVirtualMachineScaleSetExtensionID : string -> error + VirtualMachineScaleSetExtensionId;
  ExpandJsonFromString : string -> error + json;
  FlattenJsonToString : json -> error + string;
  emptyJson : json
}.

Inductive apicall : Type :=
  | ExtensionsGet (ctx : context) (resourceGroup vmScaleSetName name expand : string)
      (result : Response VirtualMachineScaleSetExtension)
  | ExtensionsCreateOrUpdate (ctx : context) (resourceGroup vmScaleSetName name : string)
      (parameters : VirtualMachineScaleSetExtension) (err : option error)
  | WaitForCompletionRef (ctx : context) (err : option error)
  | ScaleSetsGet (ctx : context) (resourceGroup vmScaleSetName : string)
      (result : Response VirtualMachineScaleSet).

(** The [Compute.VMScaleSetExtensionsClient] and [Compute.VMScaleSetClient]
    held by [meta]. *)
Record Clients (W : Type) : Type := mkClients {
  Get : context -> string -> string -> string -> string -> W ->
        Response VirtualMachineScaleSetExtension * W;
  CreateOrUpdate : context -> string -> string -> string ->
                   VirtualMachineScaleSetExtension -> W -> option error * W;
  FutureWaitForCompletionRef : context -> W -> option error * W;
  vmssGet : context -> string -> string -> W -> Response VirtualMachineScaleSet * W
}.

Variable W : Type.
Variable imp : imports.
Variable clients : Clients W.

Definition clientGet (ctx : context) (resourceGroup vmScaleSetName name expand : string)
    : M W apicall (Response VirtualMachineScaleSetExtension) :=
  call (ExtensionsGet ctx resourceGroup vmScaleSetName name expand)
       (Get clients ctx resourceGroup vmScaleSetName name expand).

Definition clientCreateOrUpdate (ctx : context) (resourceGroup vmScaleSetName name : string)
    (parameters : VirtualMachineScaleSetExtension) : M W apicall (option error) :=
  call (ExtensionsCreateOrUpdate ctx resourceGroup vmScaleSetName name parameters)
       (CreateOrUpdate clients ctx resourceGroup vmScaleSetName name parameters).

Definition futureWaitForCompletionRef (ctx : context) : M W apicall (option error) :=
  call (WaitForCompletionRef ctx) (FutureWaitForCompletionRef clients ctx).

Definition vmssClientGet (ctx : context) (resourceGroup vmScaleSetName : string)
    : M W apicall (Response VirtualMachineScaleSet) :=
  call (ScaleSetsGet ctx resourceGroup vmScaleSetName)
       (vmssGet clients ctx resourceGroup vmScaleSetName).

(** [utils.FlattenStringSlice]: nil gives the empty list. *)
Definition FlattenStringSlice (input : option (list string)) : list string :=
  match input with
  | Some l => l
  | None => []
  end.

(** Lines 271-330. *)
Definition resourceVirtualMachineScaleSetExtensionRead : M W apicall unit :=
  d <- getData ;;
  let ctx := timeouts.ForRead d in
  match parseVirtualMachineScaleSetExtensionID imp (Id d) with
  | inl err => fail err
  | inr id =>
      vmss <- vmssClientGet ctx (ResourceGroup id) (VirtualMachineScaleSetName id) ;;
      match Err vmss with
      | Some err =>
          if ResponseWasNotFound vmss then SetId ""
          else fail (Wrapf "Error retrieving Virtual Machine Scale Set %q (Resource Group %q): %+v"
                       [VirtualMachineScaleSetName id; ResourceGroup id] err)
      | None =>
          resp <- clientGet ctx (ResourceGroup id) (VirtualMachineScaleSetName id)
                    (ExtensionName id) "" ;;
          match Err resp with
          | Some err =>
              if ResponseWasNotFound resp then SetId ""
              else fail (Wrapf "Error retrieving Extension %q (Virtual Machine Scale Set %q / Resource Group %q): %+v"
                           [ExtensionName id; VirtualMachineScaleSetName id; ResourceGroup id]
                           err)
          | None =>
              Set_ "name" (VString (ExtensionName id)) ;;
              Set_ "virtual_machine_scale_set_id" (VStringPtr (ScaleSetID (Body vmss))) ;;
              match ExtensionProperties (Body resp) with
              | Some props =>
                  Set_ "auto_upgrade_minor_version" (VBoolPtr (AutoUpgradeMinorVersion props)) ;;
                  Set_ "force_update_tag" (VStringPtr (ForceUpdateTag props)) ;;
                  Set_ "provision_after_extensions"
                    (VStrings (FlattenStringSlice (ProvisionAfterExtensions props))) ;;
                  Set_ "publisher" (VStringPtr (Publisher props)) ;;
                  Set_ "type" (VStringPtr (Type_ props)) ;;
                  Set_ "type_handler_version" (VStringPtr (TypeHandlerVersion props)) ;;
                  match match Settings props with
                        | Some (AnyMap settingsVal) =>
                            match FlattenJsonToString imp settingsVal with
                            | inl err =>
                                inl (Wrapf "unable to parse settings from response: %s" [] err)
                            | inr settingsJson => inr settingsJson
                            end
                        | _ => inr ""
                        end with
                  | inl err => fail err
                  | inr settings => Set_ "settings" (VString settings)
                  end
              | None => ret tt
              end
          end
      end
  end.

(** Lines 137-143 and 149-155 of Create: a JSON attribute, the empty object
    when the attribute is not set. *)
Definition expandJson (attribute : string) (jsonString : string) : error + json :=
  if negb (String.eqb jsonString "") then
    match ExpandJsonFromString imp jsonString with
    | inl err => inl (Wrapf ("unable to parse `" ++ attribute ++ "`: %s") [] err)
    | inr s => inr s
    end
  else inr (emptyJson imp).

(** Lines 113-190. *)
Definition resourceVirtualMachineScaleSetExtensionCreate : M W apicall unit :=
  d <- getData ;;
  let ctx := timeouts.ForCreate d in
  let name := GetString d "name" in
  match parseVirtualMachineScaleSetID imp (GetString d "virtual_machine_scale_set_id") with
  | inl err => fail err
  | inr virtualMachineScaleSetId =>
      let resourceGroup := ScaleSetResourceGroup virtualMachineScaleSetId in
      let vmssName := ScaleSetName virtualMachineScaleSetId in
      resp <- clientGet ctx resourceGroup vmssName name "" ;;
      match match Err resp with
            | Some err =>
                if negb (ResponseWasNotFound resp)
                then Some (Wrapf "Error checking for existing Extension %q (Virtual Machine Scale Set %q / Resource Group %q): %+v"
                             [name; vmssName; resourceGroup] err)
                else None
            | None => None
            end with
      | Some err => fail err
      | None =>
          (if negb (ResponseWasNotFound resp) then
             respID <- deref (ExtensionID (Body resp)) ;;
             fail (ImportAsExistsError "azurerm_virtual_machine_scale_set_extension" respID)
           else ret tt) ;;
          match expandJson "settings" (GetString d "settings") with
          | inl err => fail err
          | inr settings =>
              let provisionAfterExtensions := Some (GetStrings d "provision_after_extensions") in
              match expandJson "protected_settings" (GetString d "protected_settings") with
              | inl err => fail err
              | inr protectedSettings =>
                  let props :=
                    mkExtension None (Some name)
                      (Some (mkExtensionProperties
                               (GetOkString d "force_update_tag")
                               (Some (GetString d "publisher"))
                               (Some (GetString d "type"))
                               (Some (GetString d "type_handler_version"))
                               (Some (GetBool d "auto_upgrade_minor_version"))
                               (Some (AnyMap settings))
                               (Some (AnyMap protectedSettings))
                               provisionAfterExtensions)) in
                  err <- clientCreateOrUpdate ctx resourceGroup vmssName name props ;;
                  match err with
                  | Some err =>
                      fail (Wrapf "Error creating Extension %q (Virtual Machine Scale Set %q / Resource Group %q): %+v"
                              [name; vmssName; resourceGroup] err)
                  | None =>
                      err <- futureWaitForCompletionRef ctx ;;
                      match err with
                      | Some err =>
                          fail (Wrapf "Error waiting for creation of Extension %q (Virtual Machine Scale Set %q / Resource Group %q): %+v"
                                  [name; vmssName; resourceGroup] err)
                      | None =>
                          resp <- clientGet ctx resourceGroup vmssName name "" ;;
                          match Err resp with
                          | Some err =>
                              fail (Wrapf "Error retrieving Extension %q (Virtual Machine Scale Set %q / Resource Group %q): %+v"
                                      [name; vmssName; resourceGroup] err)
                          | None =>
                              respID <- deref (ExtensionID (Body resp)) ;;
                              SetId respID ;;
                              resourceVirtualMachineScaleSetExtensionRead
                          end
                      end
                  end
              end
          end
      end
  end.

End Types.

End VirtualMachineScaleSetExtension.

(** ** package recoveryservices, src/unnamed/part_002: the backup protection
    container of a storage account *)

Module BackupProtectionContainerStorageAccount.

Record AzureStorageContainer : Type := mkAzureStorageContainer {
  SourceResourceID : option string;
  FriendlyName : option string;
  BackupManagementType : string;
  ContainerType : string
}.

(** [backup.BasicProtectionContainer], an interface: the storage container
    and the other kinds. *)
Inductive BasicProtectionContainer : Type :=
  | StorageContainer (c : AzureStorageContainer)
  | OtherContainer.

Record ProtectionContainerResource : Type := mkProtectionContainerResource {
  ContainerID : option string;
  Properties : option BasicProtectionContainer
}.

(** What [client.Register] and [resp.Response.Location()] give: the
    response, and the path of the URL in its Location header if there is
    one. *)
Record Registration : Type := mkRegistration {
  Registered : Response ProtectionContainerResource;
  LocationPath : option string
}.

Record ErrorDetail : Type := mkErrorDetail {
  Message : option string
}.

Record OperationStatus : Type := mkOperationStatus {
  Status : string;
  OperationError : option ErrorDetail
}.

Definition Second : Z := 1000000000.

(** Lines 28-33: the timeouts of the resource. *)
Definition resourceTimeouts : ResourceTimeout :=
  mkResourceTimeout (30 * Minute) (5 * Minute) (30 * Minute) (30 * Minute).

(** Package helpers/azure and [handleAzureSdkForGoBug2824] of package
    recoveryservices are not among the sources. *)
Record imports : Type := mkImports {
  ParseAzureResourceID : string -> error + azure.ResourceID;
  handleAzureSdkForGoBug2824 : string -> string
}.

Section Handlers.

Variable W : Type.

(** [pluginsdk.StateChangeConf]. *)
Record StateChangeConf : Type := mkStateChangeConf {
  MinTimeout : Z;
  Delay : Z;
  Pending : list string;
  Target : list string;
  Refresh : W -> (OperationStatus * string * option error) * W;
  ContinuousTargetOccurence : Z;
  Timeout : Z
}.

Inductive apicall : Type :=
  | ContainersGet (ctx : context) (vaultName resourceGroupName fabricName containerName : string)
      (result : Response ProtectionContainerResource)
  | ContainersRegister (ctx : context)
      (vaultName resourceGroupName fabricName containerName : string)
      (parameters : ProtectionContainerResource) (result : Registration)
  | WaitForStateContext (ctx : context) (timeout : Z)
      (result : option OperationStatus * option error).

(** The [RecoveryServices.BackupProtectionContainersClient] and
    [RecoveryServices.BackupOperationStatusesClient] held by [meta], and the
    poller of the plugin SDK. *)
Record Clients : Type := mkClients {
  Get : context -> string -> string -> string -> string -> W ->
        Response ProtectionContainerResource * W;
  Register : context -> string -> string -> string -> string ->
             ProtectionContainerResource -> W -> Registration * W;
  opStatusGet : context -> string -> string -> string -> W -> Response OperationStatus * W;
  stateWaitForStateContext : context -> StateChangeConf -> W ->
                             (option OperationStatus * option error) * W
}.

Variable imp : imports.
Variable clients : Clients.

Definition clientGet (ctx : context) (vaultName resourceGroupName fabricName containerName : string)
    : M W apicall (Response ProtectionContainerResource) :=
  call (ContainersGet ctx vaultName resourceGroupName fabricName containerName)
       (Get clients ctx vaultName resourceGroupName fabricName containerName).

Definition clientRegister (ctx : context)
    (vaultName resourceGroupName fabricName containerName : string)
    (parameters : ProtectionContainerResource) : M W apicall Registration :=
  call (ContainersRegister ctx vaultName resourceGroupName fabricName containerName parameters)
       (Register clients ctx vaultName resourceGroupName fabricName containerName parameters).

(** Lines 229-247: one look at the operation. *)
Definition resourceBackupProtectionContainerStorageAccountCheckOperation (ctx : context)
    (vaultName resourceGroup operationID : string)
    : W -> (OperationStatus * string * option error) * W :=
  fun w =>
    let (resp, w') := opStatusGet clients ctx vaultName resourceGroup operationID w in
    match Err resp with
    | Some err =>
        ((Body resp, "Error",
          Some (Wrapf "Error making Read request on Recovery Service Protection Container operation %q (Vault %q in Resource Group %q): %+v"
                  [operationID; vaultName; resourceGroup] err)), w')
    | None =>
        let err :=
          match OperationError (Body resp) with
          | Some opErr =>
              let errMsg :=
                match Message opErr with
                | Some m => m
                | None => "No upstream error message"
                end in
              Some (Errorf "Recovery Service Protection Container operation status failed with status %q (Vault %q Resource Group %q Operation ID %q): %+v"
                      [Status (Body resp); vaultName; resourceGroup; operationID; errMsg])
          | None => None
          end in
        ((Body resp, Status (Body resp), err), w')
    end.

(** Lines 205-227.  The poller hands back an [interface{}]; asserting it to
    [backup.OperationStatus] panics when it is nil. *)
Definition resourceBackupProtectionContainerStorageAccountWaitForOperation (ctx : context)
    (vaultName resourceGroup operationID : string) (d : ResourceData)
    : M W apicall OperationStatus :=
  let state :=
    mkStateChangeConf (10 * Second) (10 * Second) ["InProgress"] ["Succeeded"]
      (resourceBackupProtectionContainerStorageAccountCheckOperation ctx vaultName
         resourceGroup operationID)
      5
      (if IsNewResource d then TimeoutCreate (Timeouts d) else TimeoutUpdate (Timeouts d)) in
  r <- call (WaitForStateContext ctx (Timeout state))
         (stateWaitForStateContext clients ctx state) ;;
  match snd r with
  | Some err => resp <- deref (fst r) ;; fail err
  | None => deref (fst r)
  end.

(** Lines 129-161. *)
Definition resourceBackupProtectionContainerStorageAccountRead : M W apicall unit :=
  d <- getData ;;
  match ParseAzureResourceID imp (Id d) with
  | inl err => fail err
  | inr id =>
      let resGroup := azure.ResourceGroup id in
      let vaultName := azure.PathAt id "vaults" in
      let fabricName := azure.PathAt id "backupFabrics" in
      let containerName := azure.PathAt id "protectionContainers" in
      let ctx := timeouts.ForRead d in
      resp <- clientGet ctx vaultName resGroup fabricName containerName ;;
      match Err resp with
      | Some err =>
          if ResponseWasNotFound resp then SetId ""
          else fail (Wrapf "Error making Read request on backup protection container %s (Vault %s): %+v"
                       [containerName; vaultName] err)
      | None =>
          Set_ "resource_group_name" (VString resGroup) ;;
          Set_ "recovery_vault_name" (VString vaultName) ;;
          properties <- deref (Properties (Body resp)) ;;
          match properties with
          | StorageContainer properties =>
              Set_ "storage_account_id" (VStringPtr (SourceResourceID properties))
          | OtherContainer => ret tt
          end
      end
  end.

(** Lines 54-127. *)
Definition resourceBackupProtectionContainerStorageAccountCreate : M W apicall unit :=
  d <- getData ;;
  let ctx := timeouts.ForRead d in
  let resGroup := GetString d "resource_group_name" in
  let vaultName := GetString d "recovery_vault_name" in
  let storageAccountID := GetString d "storage_account_id" in
  match ParseAzureResourceID imp storageAccountID with
  | inl err =>
      fail (Wrapf "[ERROR] Unable to parse storage_account_id '%s': %+v" [storageAccountID] err)
  | inr parsedStorageAccountID =>
      match lookup "storageAccounts" (azure.Path parsedStorageAccountID) with
      | None =>
          fail (Errorf "[ERROR] parsed storage_account_id '%s' doesn't contain 'storageAccounts'"
                  [storageAccountID])
      | Some accountName =>
          let containerName :=
            ("StorageContainer;storage;" ++ azure.ResourceGroup parsedStorageAccountID
               ++ ";" ++ accountName)%string in
          (if IsNewResource d then
             existing <- clientGet ctx vaultName resGroup "Azure" containerName ;;
             match match Err existing with
                   | Some err =>
                       if negb (ResponseWasNotFound existing)
                       then Some (Wrapf "Error checking for presence of existing recovery services protection container %s (Vault %s): %+v"
                                    [containerName; vaultName] err)
                       else None
                   | None => None
                   end with
             | Some err => fail err
             | None =>
                 match ContainerID (Body existing) with
                 | Some id =>
                     if negb (String.eqb id "")
                     then fail (ImportAsExistsError "azurerm_backup_protection_container_storage"
                                  (handleAzureSdkForGoBug2824 imp id))
                     else ret tt
                 | None => ret tt
                 end
             end
           else ret tt) ;;
          let parameters :=
            mkProtectionContainerResource None
              (Some (StorageContainer
                       (mkAzureStorageContainer (Some storageAccountID) (Some accountName)
                          "AzureStorage" "StorageContainer"))) in
          resp <- clientRegister ctx vaultName resGroup "Azure" containerName parameters ;;
          match Err (Registered resp) with
          | Some err =>
              fail (Wrapf "Error registering backup protection container %s (Vault %s): %+v"
                      [containerName; vaultName] err)
          | None =>
              match LocationPath resp with
              | None =>
                  fail (Errorf "Unable to determine operation URL for protection container registration status for %s. (Vault %s): Location header missing or empty"
                          [containerName; vaultName])
              | Some locationPath =>
                  let opResourceID := handleAzureSdkForGoBug2824 imp locationPath in
                  match ParseAzureResourceID imp opResourceID with
                  | inl err => fail err
                  | inr parsedLocation =>
                      let operationID := azure.PathAt parsedLocation "operationResults" in
                      _ <- resourceBackupProtectionContainerStorageAccountWaitForOperation
                             ctx vaultName resGroup operationID d ;;
                      resp <- clientGet ctx vaultName resGroup "Azure" containerName ;;
                      match Err resp with
                      | Some err =>
                          fail (Wrapf "Error retrieving site recovery protection container %s (Vault %s): %+v"
                                  [containerName; vaultName] err)
                      | None =>
                          respID <- deref (ContainerID (Body resp)) ;;
                          SetId (handleAzureSdkForGoBug2824 imp respID) ;;
                          resourceBackupProtectionContainerStorageAccountRead
                      end
                  end
              end
          end
      end
  end.

End Handlers.

End BackupProtectionContainerStorageAccount.

(** ** Observations on a run *)

(** The fetch came back with an error and a "not found" status. *)
Definition NotFound {A : Type} (resp : Response A) : Prop :=
  Err resp <> None /\ ResponseWasNotFound resp = true.

(** The result of a handler and the state it leaves. *)
Definition result {W C A : Type} (r : outcome A * state W C) : outcome A := fst r.
Definition final {W C A : Type} (r : outcome A * state W C) : state W C := snd r.

Module Observe.

Import NetworkInterfaceBackendAddressPoolAssociation.

Definition hasID (pool : BackendAddressPool) : bool :=
  match PoolID pool with
  | Some _ => true
  | None => false
  end.

Definition isPool (backendAddressPoolId : string) (pool : BackendAddressPool) : bool :=
  match PoolID pool with
  | Some id => String.eqb id backendAddressPoolId
  | None => false
  end.

(** The network interfaces handed to [CreateOrUpdate], in order. *)
Fixpoint submittedInterfaces (cs : list apicall) : list Interface :=
  match cs with
  | [] => []
  | InterfacesCreateOrUpdate _ _ _ parameters _ :: cs' =>
      parameters :: submittedInterfaces cs'
  | _ :: cs' => submittedInterfaces cs'
  end.

Import IotHubRoute.

Definition hasName (route : RouteProperties) : bool :=
  match RouteName route with
  | Some _ => true
  | None => false
  end.

Definition isRoute (imp : IotHubRoute.imports) (routeName : string) (route : RouteProperties)
    : bool :=
  match RouteName route with
  | Some name => EqualFold imp name routeName
  | None => false
  end.

(** The hubs handed to [CreateOrUpdate], in order. *)
Fixpoint submittedHubs (cs : list IotHubRoute.apicall) : list IotHubDescription :=
  match cs with
  | [] => []
  | ResourceCreateOrUpdate _ _ _ iothub _ _ :: cs' => iothub :: submittedHubs cs'
  | _ :: cs' => submittedHubs cs'
  end.

(** The routes of a hub, when it has a routing block with routes. *)
Definition routesOf (iothub : IotHubDescription) : option (list RouteProperties) :=
  match Properties iothub with
  | Some properties =>
      match Routing properties with
      | Some routing => Routes routing
      | None => None
      end
  | None => None
  end.


Import SubnetNatGatewayAssociation.

Fixpoint submittedSubnets (cs : list SubnetNatGatewayAssociation.apicall) : list Subnet :=
  match cs with
  | [] => []
  | SubnetsCreateOrUpdate _ _ _ _ parameters _ :: cs' => parameters :: submittedSubnets cs'
  | _ :: cs' => submittedSubnets cs'
  end.

Import ResourceGroup.

Fixpoint submittedGroups (cs : list ResourceGroup.apicall) : list Group :=
  match cs with
  | [] => []
  | GroupsCreateOrUpdate _ _ parameters _ :: cs' => parameters :: submittedGroups cs'
  | _ :: cs' => submittedGroups cs'
  end.

Import VirtualMachineScaleSetExtension.

Fixpoint submittedExtensions (json : Type)
    (cs : list (VirtualMachineScaleSetExtension.apicall json))
    : list (VirtualMachineScaleSetExtension json) :=
  match cs with
  | [] => []
  | ExtensionsCreateOrUpdate _ _ _ _ parameters _ :: cs' =>
      parameters :: submittedExtensions cs'
  | _ :: cs' => submittedExtensions cs'
  end.

Import BackupProtectionContainerStorageAccount.

Definition backupCallContext (c : BackupProtectionContainerStorageAccount.apicall) : context :=
  match c with
  | ContainersGet ctx _ _ _ _ _ => ctx
  | ContainersRegister ctx _ _ _ _ _ _ => ctx
  | WaitForStateContext ctx _ _ => ctx
  end.

End Observe.

(** ** An in-memory remote side

    Stand-ins for the parts the handlers are parametric in, used to run the
    handlers on concrete inputs: an identifier parser that takes the
    segments of the path in pairs, the helpers of package network by name,
    and clients that keep one remote object, or none, in memory. *)

Module InMemory.

Definition slash : ascii := "/"%char.

Fixpoint pairs (segments : list string) : option (list (string * string)) :=
  match segments with
  | [] => Some []
  | [_] => None
  | key :: v :: rest =>
      match pairs rest with
      | Some kvs => Some ((key, v) :: kvs)
      | None => None
      end
  end.

Definition at_ (key : string) (kvs : list (string * string)) : string :=
  match lookup key kvs with
  | Some v => v
  | None => ""
  end.

Definition parseResourceID (id : string) : error + azure.ResourceID :=
  match strings.Split id slash with
  | EmptyString :: segments =>
      match pairs segments with
      | Some kvs =>
          inr (azure.mkResourceID (at_ "subscriptions" kvs) (at_ "resourceGroups" kvs)
                 (at_ "providers" kvs) kvs)
      | None => inl (ClientError "The number of path segments is not divisible by 2")
      end
  | _ => inl (ClientError "Cannot parse Azure ID")
  end.

Definition notFoundError : error := ClientError "StatusCode=404".

(** A client call on a remote side that holds one object or none. *)
Definition fetch {A : Type} (zero : A) (w : option A) : Response A * option A :=
  match w with
  | Some a => (mkResponse a StatusOK None, w)
  | None => (mkResponse zero StatusNotFound (Some notFoundError), w)
  end.

Definition timeouts30 : ResourceTimeout :=
  mkResourceTimeout (30 * Minute) (5 * Minute) (30 * Minute) (30 * Minute).

Module Nic.

Import NetworkInterfaceBackendAddressPoolAssociation.

Definition named (name : string) (config : InterfaceIPConfiguration) : bool :=
  match IPConfigurationName config with
  | Some n => String.eqb n name
  | None => false
  end.

Definition findByName (input : option (list InterfaceIPConfiguration)) (name : string)
    : option InterfaceIPConfiguration :=
  match input with
  | Some configs => find (named name) configs
  | None => None
  end.

Definition updateByName (config : InterfaceIPConfiguration)
    (configs : option (list InterfaceIPConfiguration))
    : option (list InterfaceIPConfiguration) :=
  match configs, IPConfigurationName config with
  | Some l, Some name => Some (map (fun v => if named name v then config else v) l)
  | _, _ => configs
  end.

Definition imp : imports :=
  mkImports parseResourceID findByName updateByName "azurerm_network_interface".

Definition client : InterfacesClient (option Interface) :=
  mkInterfacesClient
    (fun _ _ _ _ w => fetch zeroInterface w)
    (fun _ _ _ parameters _ => (None, Some parameters))
    (fun _ w => (None, w)).

Definition nicId : string :=
  "/subscriptions/sub/resourceGroups/rg/providers/Microsoft.Network/networkInterfaces/nic1".

Definition parsedNicId : azure.ResourceID :=
  azure.mkResourceID "sub" "rg" "Microsoft.Network"
    [("subscriptions", "sub"); ("resourceGroups", "rg");
     ("providers", "Microsoft.Network"); ("networkInterfaces", "nic1")].

(** What the parser makes of the first segment of an association's
    identifier. *)
Definition parsedAssociationId : azure.ResourceID :=
  azure.mkResourceID "sub" "rg" "Microsoft.Network"
    [("subscriptions", "sub"); ("resourceGroups", "rg");
     ("providers", "Microsoft.Network"); ("networkInterfaces", "nic1");
     ("ipConfigurations", "internal")].

Definition poolId (name : string) : string :=
  ("/subscriptions/sub/resourceGroups/rg/providers/Microsoft.Network/loadBalancers/lb/backendAddressPools/"
   ++ name)%string.

Definition pool (name : string) : BackendAddressPool :=
  mkBackendAddressPool (Some (poolId name)) (Some name) (Some "W/1").

(** An entry the API returned without an ID. *)
Definition orphan : BackendAddressPool :=
  mkBackendAddressPool None (Some "orphan") (Some "W/1").

(** A network interface whose IP configuration [ipConfigurationName] has
    the pools [pools]. *)
Definition nic (ipConfigurationName : string) (pools : list BackendAddressPool) : Interface :=
  mkInterface (Some nicId)
    (Some (mkInterfaceProperties
             (Some [mkInterfaceIPConfiguration
                      (Some (nicId ++ "/ipConfigurations/" ++ ipConfigurationName)%string)
                      (Some ipConfigurationName)
                      (Some (mkIPConfigurationProperties (Some pools) (Some "10.0.0.4")))])
             (Some false))).

(** The pools of the first IP configuration of an interface. *)
Definition poolsOf (read : Interface) : option (list BackendAddressPool) :=
  match InterfaceProperties read with
  | Some props =>
      match IPConfigurations props with
      | Some (config :: _) =>
          match IPConfigurationProperties config with
          | Some p => LoadBalancerBackendAddressPools p
          | None => None
          end
      | _ => None
      end
  | None => None
  end.

(** The resource data of an association that is being created. *)
Definition creating (ipConfigurationName backendAddressPoolId : string) : ResourceData :=
  mkResourceData ""
    [("network_interface_id", VString nicId);
     ("ip_configuration_name", VString ipConfigurationName);
     ("backend_address_pool_id", VString backendAddressPoolId)]
    [] true timeouts30.

(** The resource data of an association that exists. *)
Definition existing (ipConfigurationName backendAddressPoolId : string) : ResourceData :=
  mkResourceData (resourceId nicId ipConfigurationName backendAddressPoolId)
    [("network_interface_id", VString nicId);
     ("ip_configuration_name", VString ipConfigurationName);
     ("backend_address_pool_id", VString backendAddressPoolId)]
    [] false timeouts30.

End Nic.

Module Hub.

Import IotHubRoute.

Definition imp : imports :=
  mkImports parseResourceID strings.asciiEqualFold "azurerm_iothub".

Definition zeroHub : IotHubDescription := mkIotHubDescription None None.

Definition client : ResourceClient (option IotHubDescription) :=
  mkResourceClient
    (fun _ _ _ w => fetch zeroHub w)
    (fun _ _ _ iothub _ _ => (None, Some iothub))
    (fun _ w => (None, w)).

Definition hubId : string :=
  "/subscriptions/sub/resourceGroups/rg/providers/Microsoft.Devices/IotHubs/hub1".

Definition parsedRouteId (name : string) : azure.ResourceID :=
  azure.mkResourceID "sub" "rg" "Microsoft.Devices"
    [("subscriptions", "sub"); ("resourceGroups", "rg");
     ("providers", "Microsoft.Devices"); ("IotHubs", "hub1"); ("Routes", name)].

Definition route (name : string) : RouteProperties :=
  mkRouteProperties (Some name) "DeviceMessages" (Some "true") (Some ["events"]) (Some true).

Definition hub (routes : list RouteProperties) : IotHubDescription :=
  mkIotHubDescription (Some hubId)
    (Some (mkIotHubProperties (Some (mkRoutingProperties (Some routes) None))
             (Some "hub1.azure-devices.net"))).

Definition creating (name : string) : ResourceData :=
  mkResourceData ""
    [("name", VString name); ("resource_group_name", VString "rg");
     ("iothub_name", VString "hub1"); ("source", VString "DeviceMessages");
     ("condition", VString "true"); ("endpoint_names", VStrings ["events"]);
     ("enabled", VBool true)]
    [] true timeouts30.

Definition existing (name : string) : ResourceData :=
  mkResourceData (hubId ++ "/Routes/" ++ name)%string
    [("name", VString name); ("resource_group_name", VString "rg");
     ("iothub_name", VString "hub1"); ("source", VString "DeviceMessages");
     ("condition", VString "true"); ("endpoint_names", VStrings ["events"]);
     ("enabled", VBool true)]
    [] false timeouts30.

End Hub.

Module Nat.

Import SubnetNatGatewayAssociation.

Definition parseSubnet (id : string) : error + SubnetId :=
  match parseResourceID id with
  | inl err => inl err
  | inr parsed =>
      inr (mkSubnetId (azure.ResourceGroup parsed) (azure.PathAt parsed "virtualNetworks")
             (azure.PathAt parsed "subnets"))
  end.

Definition parseNatGateway (id : string) : error + NatGatewayId :=
  match parseResourceID id with
  | inl err => inl err
  | inr parsed => inr (mkNatGatewayId (azure.PathAt parsed "natGateways"))
  end.

Definition imp : imports :=
  mkImports parseSubnet parseNatGateway parseResourceID
    "azurerm_nat_gateway" "azurerm_virtual_network" "azurerm_subnet".

Definition zeroSubnet : Subnet := mkSubnet None None.

Definition client : SubnetsClient (option Subnet) :=
  mkSubnetsClient
    (fun _ _ _ _ _ w => fetch zeroSubnet w)
    (fun _ _ _ _ parameters _ => (None, Some parameters))
    (fun _ w => (None, w)).

Definition subnetId : string :=
  "/subscriptions/sub/resourceGroups/rg/providers/Microsoft.Network/virtualNetworks/vnet1/subnets/subnet1".

Definition gatewayId : string :=
  "/subscriptions/sub/resourceGroups/rg/providers/Microsoft.Network/natGateways/gw1".

Definition parsedGatewayId : azure.ResourceID :=
  azure.mkResourceID "sub" "rg" "Microsoft.Network"
    [("subscriptions", "sub"); ("resourceGroups", "rg");
     ("providers", "Microsoft.Network"); ("natGateways", "gw1")].

Definition creating : ResourceData :=
  mkResourceData ""
    [("subnet_id", VString subnetId); ("nat_gateway_id", VString gatewayId)]
    [] true timeouts30.

Definition existing : ResourceData :=
  mkResourceData subnetId
    [("subnet_id", VString subnetId); ("nat_gateway_id", VString gatewayId)]
    [] false timeouts30.


Definition associated : Subnet :=
  mkSubnet (Some subnetId)
    (Some (mkSubnetProperties (Some (mkSubResource (Some gatewayId))) (Some "10.0.1.0/24"))).

End Nat.

Module Rg.

Import ResourceGroup.

Definition parseGroup (id : string) : error + ResourceGroupId :=
  match parseResourceID id with
  | inl err => inl err
  | inr parsed => inr (mkResourceGroupId (azure.ResourceGroup parsed))
  end.

Definition imp : imports :=
  mkImports parseGroup (fun l => l)
    (fun l => match l with Some s => s | None => "" end)
    (map (fun kv => (fst kv, Some (snd kv))))
    (fun _ d => inr d).

Definition zeroGroup : Group := mkGroup None None None None.

Definition client : GroupsClient (option Group) :=
  mkGroupsClient
    (fun _ _ w => fetch zeroGroup w)
    (fun _ name parameters _ =>
       (None, Some (mkGroup (Some ("/subscriptions/sub/resourceGroups/" ++ name)%string)
                      (Some name) (Location parameters) (Tags parameters)))).

Definition creating (name : string) : ResourceData :=
  mkResourceData ""
    [("name", VString name); ("location", VString "westeurope")]
    [] true
    (mkResourceTimeout (90 * Minute) (5 * Minute) (90 * Minute) (90 * Minute)).

Definition group (name : string) : Group :=
  mkGroup (Some ("/subscriptions/sub/resourceGroups/" ++ name)%string) (Some name)
    (Some "westeurope") None.

End Rg.

Module Vmss.

Import VirtualMachineScaleSetExtension.

Definition parseScaleSet (id : string) : error + VirtualMachineScaleSetId :=
  match parseResourceID id with
  | inl err => inl err
  | inr parsed =>
      inr (mkScaleSetId (azure.ResourceGroup parsed)
             (azure.PathAt parsed "virtualMachineScaleSets"))
  end.

Definition parseExtension (id : string) : error + VirtualMachineScaleSetExtensionId :=
  match parseResourceID id with
  | inl err => inl err
  | inr parsed =>
      inr (mkExtensionId (azure.ResourceGroup parsed)
             (azure.PathAt parsed "virtualMachineScaleSets")
             (azure.PathAt parsed "extensions"))
  end.

(** JSON objects are kept as their text. *)
Definition imp : imports string :=
  mkImports parseScaleSet parseExtension (fun s => inr s) (fun s => inr s) "{}".

Definition zeroExtension : VirtualMachineScaleSetExtension string := mkExtension None None None.

Definition scaleSetId : string :=
  "/subscriptions/sub/resourceGroups/rg/providers/Microsoft.Compute/virtualMachineScaleSets/vmss1".

Definition client : Clients string (option (VirtualMachineScaleSetExtension string)) :=
  mkClients
    (fun _ _ _ _ _ w => fetch zeroExtension w)
    (fun _ _ _ _ parameters _ => (None, Some parameters))
    (fun _ w => (None, w))
    (fun _ _ _ w => (mkResponse (mkScaleSet (Some scaleSetId)) StatusOK None, w)).

Definition creating (name : string) : ResourceData :=
  mkResourceData ""
    [("name", VString name); ("virtual_machine_scale_set_id", VString scaleSetId);
     ("publisher", VString "Microsoft.Azure.Extensions"); ("type", VString "CustomScript");
     ("type_handler_version", VString "2.0")]
    [] true
    (mkResourceTimeout (30 * Minute) (5 * Minute) (30 * Minute) (30 * Minute)).

Definition extension (name : string) : VirtualMachineScaleSetExtension string :=
  mkExtension (Some (scaleSetId ++ "/extensions/" ++ name)%string) (Some name) None.

End Vmss.

Module Backup.

Import BackupProtectionContainerStorageAccount.

Definition imp : imports := mkImports parseResourceID (fun s => s).

Definition zeroContainer : ProtectionContainerResource :=
  mkProtectionContainerResource None None.

Definition storageAccountId : string :=
  "/subscriptions/sub/resourceGroups/rg/providers/Microsoft.Storage/storageAccounts/account1".

Definition containerId : string :=
  "/subscriptions/sub/resourceGroups/rg/providers/Microsoft.RecoveryServices/vaults/vault1/backupFabrics/Azure/protectionContainers/StorageContainer;storage;rg;account1".

Definition operationPath : string :=
  "/subscriptions/sub/resourceGroups/rg/providers/Microsoft.RecoveryServices/vaults/vault1/backupFabrics/Azure/protectionContainers/container1/operationResults/op1".

(** A vault that registers the container at once and reports the operation
    as succeeded. *)
Definition clients : Clients (option ProtectionContainerResource) :=
  mkClients
    (fun _ _ _ _ _ w => fetch zeroContainer w)
    (fun _ _ _ _ _ parameters _ =>
       (mkRegistration (mkResponse zeroContainer 202 None) (Some operationPath),
        Some (mkProtectionContainerResource (Some containerId) (Properties parameters))))
    (fun _ _ _ _ w => (mkResponse (mkOperationStatus "Succeeded" None) StatusOK None, w))
    (fun _ _ w => ((Some (mkOperationStatus "Succeeded" None), None), w)).

Definition creating : ResourceData :=
  mkResourceData ""
    [("resource_group_name", VString "rg"); ("recovery_vault_name", VString "vault1");
     ("storage_account_id", VString storageAccountId)]
    [] true resourceTimeouts.

End Backup.

End InMemory.

(** ** The discipline of the named locks *)

Module Locking.

(** A lock of [locks.ByName]: the name and the kind of the resource. *)
Definition lock : Type := (string * string)%type.

Definition holds (name kind : string) (held : list lock) : bool :=
  existsb (fun l => String.eqb (fst l) name && String.eqb (snd l) kind) held.

(** A trace keeps the discipline when every release is of the lock taken
    last, every call is [allowed] under the locks held when it is made, and
    no lock is held at the end.  [held] has the lock taken last in front. *)
Fixpoint disciplined {C : Type} (allowed : C -> list lock -> bool)
    (t : list (event C)) (held : list lock) : bool :=
  match t with
  | [] =>
      match held with
      | [] => true
      | _ :: _ => false
      end
  | Lock name kind :: t' => disciplined allowed t' ((name, kind) :: held)
  | Unlock name kind :: t' =>
      match held with
      | (name', kind') :: rest =>
          String.eqb name name' && String.eqb kind kind' && disciplined allowed t' rest
      | [] => false
      end
  | Api c :: t' => allowed c held && disciplined allowed t' held
  end.

(** A network interface is written only under the lock that bears its
    name. *)
Definition interfaceWriteLocked (imp : NetworkInterfaceBackendAddressPoolAssociation.imports)
    (c : NetworkInterfaceBackendAddressPoolAssociation.apicall) (held : list lock) : bool :=
  match c with
  | NetworkInterfaceBackendAddressPoolAssociation.InterfacesCreateOrUpdate _ _ name _ _ =>
      holds name (NetworkInterfaceBackendAddressPoolAssociation.networkInterfaceResourceName imp)
        held
  | _ => true
  end.

(** A hub is written only under the lock that bears its name. *)
Definition hubWriteLocked (imp : IotHubRoute.imports) (c : IotHubRoute.apicall)
    (held : list lock) : bool :=
  match c with
  | IotHubRoute.ResourceCreateOrUpdate _ _ name _ _ _ =>
      holds name (IotHubRoute.IothubResourceName imp) held
  | _ => true
  end.

(** A subnet is written only under the lock of its virtual network and a
    lock of a NAT gateway. *)
Definition subnetWriteLocked (imp : SubnetNatGatewayAssociation.imports)
    (c : SubnetNatGatewayAssociation.apicall) (held : list lock) : bool :=
  match c with
  | SubnetNatGatewayAssociation.SubnetsCreateOrUpdate _ _ virtualNetworkName _ _ _ =>
      holds virtualNetworkName (SubnetNatGatewayAssociation.VirtualNetworkResourceName imp) held
      && existsb (fun l => String.eqb (snd l)
                             (SubnetNatGatewayAssociation.natGatewayResourceName imp))
           held
  | _ => true
  end.

End Locking.

(** ** Traces that only fetch *)

Module Fetches.

(** No lock is taken or released, and every call is a [Get]. *)
Definition only {C : Type} (isGet : C -> bool) (t : list (event C)) : bool :=
  forallb (fun e => match e with
                    | Api c => isGet c
                    | _ => false
                    end) t.

Definition interfaceGet (c : NetworkInterfaceBackendAddressPoolAssociation.apicall) : bool :=
  match c with
  | NetworkInterfaceBackendAddressPoolAssociation.InterfacesGet _ _ _ _ _ => true
  | _ => false
  end.

Definition hubGet (c : IotHubRoute.apicall) : bool :=
  match c with
  | IotHubRoute.ResourceGet _ _ _ _ => true
  | _ => false
  end.

Definition subnetGet (c : SubnetNatGatewayAssociation.apicall) : bool :=
  match c with
  | SubnetNatGatewayAssociation.SubnetsGet _ _ _ _ _ _ => true
  | _ => false
  end.

Definition groupGet (c : ResourceGroup.apicall) : bool :=
  match c with
  | ResourceGroup.GroupsGet _ _ _ => true
  | _ => false
  end.

Definition extensionGet (json : Type) (c : VirtualMachineScaleSetExtension.apicall json)
    : bool :=
  match c with
  | VirtualMachineScaleSetExtension.ExtensionsGet _ _ _ _ _ _ => true
  | VirtualMachineScaleSetExtension.ScaleSetsGet _ _ _ _ _ => true
  | _ => false
  end.

Definition containerGet (c : BackupProtectionContainerStorageAccount.apicall) : bool :=
  match c with
  | BackupProtectionContainerStorageAccount.ContainersGet _ _ _ _ _ _ => true
  | _ => false
  end.

End Fetches.

(** ** What the parent still carries *)

Module Association.

(** Does the fetched network interface have, on the IP configuration of
    that name, a backend pool with that ID? *)
Definition poolAssociated (imp : NetworkInterfaceBackendAddressPoolAssociation.imports)
    (read : NetworkInterfaceBackendAddressPoolAssociation.Interface)
    (ipConfigurationName backendAddressPoolId : string) : bool :=
  match NetworkInterfaceBackendAddressPoolAssociation.InterfaceProperties read with
  | Some nicProps =>
      match NetworkInterfaceBackendAddressPoolAssociation.FindNetworkInterfaceIPConfiguration
              imp (NetworkInterfaceBackendAddressPoolAssociation.IPConfigurations nicProps)
              ipConfigurationName with
      | Some config =>
          match NetworkInterfaceBackendAddressPoolAssociation.IPConfigurationProperties
                  config with
          | Some props =>
              match NetworkInterfaceBackendAddressPoolAssociation.LoadBalancerBackendAddressPools
                      props with
              | Some backendPools =>
                  existsb (Observe.isPool backendAddressPoolId) backendPools
              | None => false
              end
          | None => false
          end
      | None => false
      end
  | None => false
  end.

(** Does the fetched subnet have a NAT gateway? *)
Definition gatewayAssociated (subnet : SubnetNatGatewayAssociation.Subnet) : bool :=
  match SubnetNatGatewayAssociation.SubnetProperties subnet with
  | Some props =>
      match SubnetNatGatewayAssociation.NatGateway props with
      | Some _ => true
      | None => false
      end
  | None => false
  end.

End Association.

(** ** The deadline of a call *)

Module Deadlines.

Definition interfaceCallContext (c : NetworkInterfaceBackendAddressPoolAssociation.apicall)
    : context :=
  match c with
  | NetworkInterfaceBackendAddressPoolAssociation.InterfacesGet ctx _ _ _ _ => ctx
  | NetworkInterfaceBackendAddressPoolAssociation.InterfacesCreateOrUpdate ctx _ _ _ _ => ctx
  | NetworkInterfaceBackendAddressPoolAssociation.WaitForCompletionRef ctx _ => ctx
  end.

Definition hubCallContext (c : IotHubRoute.apicall) : context :=
  match c with
  | IotHubRoute.ResourceGet ctx _ _ _ => ctx
  | IotHubRoute.ResourceCreateOrUpdate ctx _ _ _ _ _ => ctx
  | IotHubRoute.WaitForCompletionRef ctx _ => ctx
  end.

Definition subnetCallContext (c : SubnetNatGatewayAssociation.apicall) : context :=
  match c with
  | SubnetNatGatewayAssociation.SubnetsGet ctx _ _ _ _ _ => ctx
  | SubnetNatGatewayAssociation.SubnetsCreateOrUpdate ctx _ _ _ _ _ => ctx
  | SubnetNatGatewayAssociation.WaitForCompletionRef ctx _ => ctx
  end.

Definition groupCallContext (c : ResourceGroup.apicall) : context :=
  match c with
  | ResourceGroup.GroupsGet ctx _ _ => ctx
  | ResourceGroup.GroupsCreateOrUpdate ctx _ _ _ => ctx
  end.

Definition extensionCallContext (json : Type)
    (c : VirtualMachineScaleSetExtension.apicall json) : context :=
  match c with
  | VirtualMachineScaleSetExtension.ExtensionsGet ctx _ _ _ _ _ => ctx
  | VirtualMachineScaleSetExtension.ExtensionsCreateOrUpdate ctx _ _ _ _ _ => ctx
  | VirtualMachineScaleSetExtension.WaitForCompletionRef _ ctx _ => ctx
  | VirtualMachineScaleSetExtension.ScaleSetsGet _ ctx _ _ _ => ctx
  end.

End Deadlines.

(** ** The route a configuration describes *)

Module Routes.

(** Lines 114-128 of CreateUpdate: the route built from the configuration. *)
Definition configured (d : ResourceData) : IotHubRoute.RouteProperties :=
  IotHubRoute.mkRouteProperties (Some (GetString d "name")) (GetString d "source")
    (Some (GetString d "condition")) (Some (GetStrings d "endpoint_names"))
    (Some (GetBool d "enabled")).

(** The routes of a fetched hub as CreateUpdate walks them: none when the
    routing block or its routes are nil. *)
Definition existing (iothub : IotHubRoute.IotHubDescription)
    : list IotHubRoute.RouteProperties :=
  match Observe.routesOf iothub with
  | Some routes => routes
  | None => []
  end.

(** [route] in the place of every route of that name. *)
Definition replaced (imp : IotHubRoute.imports) (routeName : string)
    (route : IotHubRoute.RouteProperties) (routes : list IotHubRoute.RouteProperties)
    : list IotHubRoute.RouteProperties :=
  map (fun existingRoute =>
         if Observe.isRoute imp routeName existingRoute then route else existingRoute)
      routes.

End Routes.

(** ** A subnet that already has a gateway *)

Module Gateway.

(** Lines 90-96 of Create: the subnet counts as associated already when its
    NAT gateway has an ID and the subnet has one too; the ID of the subnet
    is what the import error reports. *)
Definition existing (subnet : SubnetNatGatewayAssociation.Subnet) : option string :=
  match SubnetNatGatewayAssociation.SubnetProperties subnet with
  | Some props =>
      match SubnetNatGatewayAssociation.NatGateway props with
      | Some gateway =>
          match SubnetNatGatewayAssociation.SubResourceID gateway,
                SubnetNatGatewayAssociation.SubnetID subnet with
          | Some _, Some subnetID => Some subnetID
          | _, _ => None
          end
      | None => None
      end
  | None => None
  end.

(** Line 188 of Delete: the ID of the NAT gateway of the subnet, if it has
    a gateway and the gateway an ID. *)
Definition identified (props : SubnetNatGatewayAssociation.SubnetPropertiesFormat)
    : option string :=
  match SubnetNatGatewayAssociation.NatGateway props with
  | Some gateway => SubnetNatGatewayAssociation.SubResourceID gateway
  | None => None
  end.

End Gateway.

(** ** More stand-ins for the remote side *)

Module Doubles.

(** A client whose subnet comes back without its properties after the
    first fetch. *)
Definition stripping
    : SubnetNatGatewayAssociation.SubnetsClient (bool * SubnetNatGatewayAssociation.Subnet) :=
  SubnetNatGatewayAssociation.mkSubnetsClient
    (fun _ _ _ _ _ (w : bool * SubnetNatGatewayAssociation.Subnet) =>
       if fst w
       then (mkResponse
               (SubnetNatGatewayAssociation.mkSubnet
                  (SubnetNatGatewayAssociation.SubnetID (snd w)) None)
               StatusOK None, w)
       else (mkResponse (snd w) StatusOK None, (true, snd w)))
    (fun _ _ _ _ parameters (w : bool * SubnetNatGatewayAssociation.Subnet) =>
       (None, (fst w, parameters)))
    (fun _ w => (None, w)).

End Doubles.

(** ** package resource, src/unnamed/part_008: the Delete of the resource
    group *)

Module ResourceGroupDelete.

Section Handlers.

Variable W : Type.

(** [resources.GroupsDeleteFuture], the handle on the deletion that
    [client.Delete] returns and [WaitForCompletionRef] brings up to date. *)
Variable Future : Type.

Variable imp : ResourceGroup.imports.

(** [response.WasNotFound(deleteFuture.Response())]: package response of
    go-azure-helpers is not among the sources. *)
Variable WasNotFound : Future -> bool.

Inductive apicall : Type :=
  | GroupsDelete (ctx : context) (resourceGroupName forceDeletionTypes : string)
      (future : Future) (err : option error)
  | WaitForCompletionRef (ctx : context) (future : Future) (err : option error).

(** The [Resource.GroupsClient] held by [meta], as far as Delete uses it. *)
Record GroupsClient : Type := mkGroupsClient {
  Delete : context -> string -> string -> W -> (Future * option error) * W;
  FutureWaitForCompletionRef : context -> Future -> W -> (Future * option error) * W
}.

Variable client : GroupsClient.

Definition clientDelete (ctx : context) (resourceGroupName forceDeletionTypes : string)
    : M W apicall (Future * option error) :=
  call (fun r => GroupsDelete ctx resourceGroupName forceDeletionTypes (fst r) (snd r))
       (Delete client ctx resourceGroupName forceDeletionTypes).

Definition futureWaitForCompletionRef (ctx : context) (future : Future)
    : M W apicall (Future * option error) :=
  call (fun r => WaitForCompletionRef ctx (fst r) (snd r))
       (FutureWaitForCompletionRef client ctx future).

(** Lines 563-591. *)
Definition resourceResourceGroupDelete : M W apicall unit :=
  d <- getData ;;
  let ctx := timeouts.ForDelete d in
  match ResourceGroup.parseResourceGroupID imp (Id d) with
  | inl err => fail err
  | inr id =>
      deleted <- clientDelete ctx (ResourceGroup.ResourceGroupName id) "" ;;
      match snd deleted with
      | Some err =>
          if WasNotFound (fst deleted) then ret tt
          else fail (Wrapf "Error deleting Resource Group %q: %+v"
                       [ResourceGroup.ResourceGroupName id] err)
      | None =>
          waited <- futureWaitForCompletionRef ctx (fst deleted) ;;
          match snd waited with
          | Some err =>
              if WasNotFound (fst waited) then ret tt
              else fail (Wrapf "Error deleting Resource Group %q: %+v"
                           [ResourceGroup.ResourceGroupName id] err)
          | None => ret tt
          end
      end
  end.

End Handlers.

End ResourceGroupDelete.

(** ** package compute, src/unnamed/part_003: the Update and the Delete of
    the extension of a virtual machine scale set *)

Module VirtualMachineScaleSetExtensionUpdate.

Import VirtualMachineScaleSetExtension.

Section Handlers.

Variable json : Type.
Variable W : Type.
Variable imp : imports json.
Variable clients : Clients json W.

(** [d.HasChange] of the plugin SDK: the resource data of the model does
    not keep the prior state. *)
Variable HasChange : ResourceData -> string -> bool.

(** Lines 202-246: the properties an Update sends. *)
Definition changedProperties (d : ResourceData)
    : error + VirtualMachineScaleSetExtensionProperties json :=
  let forceUpdateTag :=
    if HasChange d "force_update_tag" then Some (GetString d "force_update_tag")
    else None in
  match (if HasChange d "protected_settings"
         then match expandJson imp "protected_settings" (GetString d "protected_settings") with
              | inl err => inl err
              | inr protectedSettings => inr (Some (AnyMap protectedSettings))
              end
         else inr None) with
  | inl err => inl err
  | inr protectedSettings =>
      let provisionAfterExtensions :=
        if HasChange d "provision_after_extensions"
        then Some (GetStrings d "provision_after_extensions")
        else None in
      let publisher :=
        if HasChange d "publisher" then Some (GetString d "publisher") else None in
      match (if HasChange d "settings"
             then match expandJson imp "settings" (GetString d "settings") with
                  | inl err => inl err
                  | inr settings => inr (Some (AnyMap settings))
                  end
             else inr None) with
      | inl err => inl err
      | inr settings =>
          let type_ := if HasChange d "type" then Some (GetString d "type") else None in
          let typeHandlerVersion :=
            if HasChange d "type_handler_version"
            then Some (GetString d "type_handler_version")
            else None in
          inr (mkExtensionProperties forceUpdateTag publisher type_ typeHandlerVersion
                 (Some (GetBool d "auto_upgrade_minor_version"))
                 settings protectedSettings provisionAfterExtensions)
      end
  end.

(** Lines 192-269. *)
Definition resourceVirtualMachineScaleSetExtensionUpdate : M W (apicall json) unit :=
  d <- getData ;;
  let ctx := timeouts.ForUpdate d in
  match parseVirtualMachineScaleSetExtensionID imp (Id d) with
  | inl err => fail err
  | inr id =>
      match changedProperties d with
      | inl err => fail err
      | inr props =>
          let extension := mkExtension None (Some (ExtensionName id)) (Some props) in
          err <- clientCreateOrUpdate clients ctx (ResourceGroup id)
                   (VirtualMachineScaleSetName id) (ExtensionName id) extension ;;
          match err with
          | Some err =>
              fail (Wrapf "Error updating Extension %q (Virtual Machine Scale Set %q / Resource Group %q): %+v"
                      [ExtensionName id; VirtualMachineScaleSetName id; ResourceGroup id] err)
          | None =>
              err <- futureWaitForCompletionRef clients ctx ;;
              match err with
              | Some err =>
                  fail (Wrapf "Error waiting for update of Extension %q (Virtual Machine Scale Set %q / Resource Group %q): %+v"
                          [ExtensionName id; VirtualMachineScaleSetName id; ResourceGroup id]
                          err)
              | None => resourceVirtualMachineScaleSetExtensionRead imp clients
              end
          end
      end
  end.

End Handlers.

End VirtualMachineScaleSetExtensionUpdate.

Module VirtualMachineScaleSetExtensionDelete.

Section Handlers.

Variable json : Type.
Variable W : Type.

(** [compute.VirtualMachineScaleSetExtensionsDeleteFuture]. *)
Variable Future : Type.

Variable imp : VirtualMachineScaleSetExtension.imports json.

(** [response.WasNotFound(future.Response())]: package response of
    go-azure-helpers is not among the sources. *)
Variable WasNotFound : Future -> bool.

Inductive apicall : Type :=
  | ExtensionsDelete (ctx : context) (resourceGroup vmScaleSetName name : string)
      (future : Future) (err : option error)
  | WaitForCompletionRef (ctx : context) (err : option error).

(** The [Compute.VMScaleSetExtensionsClient] held by [meta], as far as
    Delete uses it. *)
Record ExtensionsClient : Type := mkExtensionsClient {
  Delete : context -> string -> string -> string -> W -> (Future * option error) * W;
  FutureWaitForCompletionRef : context -> Future -> W -> option error * W
}.

Variable client : ExtensionsClient.

Definition clientDelete (ctx : context) (resourceGroup vmScaleSetName name : string)
    : M W apicall (Future * option error) :=
  call (fun r => ExtensionsDelete ctx resourceGroup vmScaleSetName name (fst r) (snd r))
       (Delete client ctx resourceGroup vmScaleSetName name).

Definition futureWaitForCompletionRef (ctx : context) (future : Future)
    : M W apicall (option error) :=
  call (WaitForCompletionRef ctx) (FutureWaitForCompletionRef client ctx future).

(** Lines 332-356. *)
Definition resourceVirtualMachineScaleSetExtensionDelete : M W apicall unit :=
  d <- getData ;;
  let ctx := timeouts.ForDelete d in
  match VirtualMachineScaleSetExtension.parseVirtualMachineScaleSetExtensionID imp (Id d) with
  | inl err => fail err
  | inr id =>
      let resourceGroup := VirtualMachineScaleSetExtension.ResourceGroup id in
      let vmScaleSetName := VirtualMachineScaleSetExtension.VirtualMachineScaleSetName id in
      let extensionName := VirtualMachineScaleSetExtension.ExtensionName id in
      deleted <- clientDelete ctx resourceGroup vmScaleSetName extensionName ;;
      match snd deleted with
      | Some err =>
          if WasNotFound (fst deleted) then ret tt
          else fail (Wrapf "Error deleting Extension %q (Virtual Machine Scale Set %q / Resource Group %q): %+v"
                       [extensionName; vmScaleSetName; resourceGroup] err)
      | None =>
          err <- futureWaitForCompletionRef ctx (fst deleted) ;;
          match err with
          | Some err =>
              fail (Wrapf "Error waiting for deletion of Extension %q (Virtual Machine Scale Set %q / Resource Group %q): %+v"
                      [extensionName; vmScaleSetName; resourceGroup] err)
          | None => ret tt
          end
      end
  end.

End Handlers.

End VirtualMachineScaleSetExtensionDelete.

(** ** package automation, src/unnamed/part_008: the automation schedule *)

Module AutomationSchedule.

(** What the CustomizeDiff reads of the diff (lines 176-192):
    [diff.Get("frequency")], the value of [diff.GetOk("interval")], an int
    that is 0 when the interval is not set, and whether [diff.GetOk] finds
    [week_days], [month_days] and [monthly_occurrence] set. *)
Record ScheduleDiff : Type := mkScheduleDiff {
  frequency : string;
  interval : Z;
  hasWeekDays : bool;
  hasMonthDays : bool;
  hasMonthlyOccurrences : bool
}.

Section CustomizeDiff.

(** Go's [strings.ToLower]. *)
Variable ToLower : string -> string.

(** Lines 175-196. *)
Definition CustomizeDiff (diff : ScheduleDiff) : option error :=
  let frequency := ToLower (frequency diff) in
  if String.eqb frequency "onetime" && (interval diff >? 0)%Z
  then Some (Errorf "`interval` cannot be set when frequency is `OneTime`" [])
  else if hasWeekDays diff && negb (String.eqb frequency "week")
  then Some (Errorf "`week_days` can only be set when frequency is `Week`" [])
  else if hasMonthDays diff && negb (String.eqb frequency "month")
  then Some (Errorf "`month_days` can only be set when frequency is `Month`" [])
  else if hasMonthlyOccurrences diff && negb (String.eqb frequency "month")
  then Some (Errorf "`monthly_occurrence` can only be set when frequency is `Month`" [])
  else None.

End CustomizeDiff.

(** [automation.AdvancedSchedule] of the SDK; [int32] values are kept as
    integers within the range of the type. *)
Record AdvancedScheduleMonthlyOccurrence : Type := mkMonthlyOccurrence {
  Occurrence : option Z;
  Day : string
}.

Record AdvancedSchedule : Type := mkAdvancedSchedule {
  WeekDays : option (list string);
  MonthDays : option (list Z);
  MonthlyOccurrences : option (list AdvancedScheduleMonthlyOccurrence)
}.

(** Go's conversion [int32(v)] of an [int]: the low 32 bits, signed. *)
Definition int32 (v : Z) : Z := ((v + 2 ^ 31) mod 2 ^ 32 - 2 ^ 31)%Z.

(** What [expandArmAutomationScheduleAdvanced] reads of [d]: the list of
    the set [week_days] and of the set [month_days] when [d.GetOk] finds
    them set, and the [day] and the [occurrence] of each block of
    [d.Get("monthly_occurrence")]. *)
Record AdvancedConfig : Type := mkAdvancedConfig {
  week_days : option (list string);
  month_days : option (list Z);
  monthly_occurrence : list (string * Z)
}.

(** Lines 372-414. *)
Definition expandArmAutomationScheduleAdvanced (d : AdvancedConfig) (isUpdate : bool)
    : AdvancedSchedule :=
  let weekDays :=
    match week_days d with
    | Some weekDays => Some weekDays
    | None => if isUpdate then Some [] else None
    end in
  let monthDays :=
    match month_days d with
    | Some monthDays => Some (map int32 monthDays)
    | None => if isUpdate then Some [] else None
    end in
  let expandedMonthlyOccurrences :=
    map (fun m => mkMonthlyOccurrence (Some (int32 (snd m))) (fst m))
        (monthly_occurrence d) in
  mkAdvancedSchedule weekDays monthDays (Some expandedMonthlyOccurrences).

(** Lines 436-447.  [*v.Occurrence] panics on an occurrence that is nil:
    the result is [None] then. *)
Fixpoint flattenMonthlyOccurrences (monthlyOccurrences : list AdvancedScheduleMonthlyOccurrence)
    (flattened : list (string * Z)) : option (list (string * Z)) :=
  match monthlyOccurrences with
  | [] => Some flattened
  | v :: rest =>
      match Occurrence v with
      | Some occurrence => flattenMonthlyOccurrences rest (flattened ++ [(Day v, occurrence)])
      | None => None
      end
  end.

Definition flattenArmAutomationScheduleAdvancedMonthlyOccurrences (s : AdvancedSchedule)
    : option (list (string * Z)) :=
  match MonthlyOccurrences s with
  | Some monthlyOccurrences => flattenMonthlyOccurrences monthlyOccurrences []
  | None => Some []
  end.

Section Handlers.

Variable W : Type.

(** Package helpers/azure is not among the sources. *)
Variable ParseAzureResourceID : string -> error + azure.ResourceID.

Inductive apicall : Type :=
  | ScheduleDelete (ctx : context) (resourceGroupName automationAccountName scheduleName : string)
      (result : Response unit).

(** The [Automation.ScheduleClient] held by [meta], as far as Delete uses
    it. *)
Record ScheduleClient : Type := mkScheduleClient {
  Delete : context -> string -> string -> string -> W -> Response unit * W
}.

Variable client : ScheduleClient.

(** Lines 348-370. *)
Definition resourceAutomationScheduleDelete : M W apicall unit :=
  d <- getData ;;
  let ctx := timeouts.ForDelete d in
  match ParseAzureResourceID (Id d) with
  | inl err => fail err
  | inr id =>
      let name := azure.PathAt id "schedules" in
      let resGroup := azure.ResourceGroup id in
      let accountName := azure.PathAt id "automationAccounts" in
      resp <- call (ScheduleDelete ctx resGroup accountName name)
                (Delete client ctx resGroup accountName name) ;;
      match Err resp with
      | Some err =>
          if negb (ResponseWasNotFound resp)
          then fail (Wrapf "Error issuing AzureRM delete request for Automation Schedule '%s': %+v"
                       [name] err)
          else ret tt
      | None => ret tt
      end
  end.

End Handlers.

End AutomationSchedule.

(** ** package recoveryservices, src/unnamed/part_002: the site recovery
    protection container *)

Module SiteRecoveryProtectionContainer.

(** [siterecovery.ProtectionContainer], as far as the handlers read it. *)
Record ProtectionContainer : Type := mkProtectionContainer {
  ContainerID : option string;
  ContainerName : option string
}.

(** [siterecovery.CreateProtectionContainerInput]: Create sends properties
    that are there and empty. *)
Record CreateProtectionContainerInput : Type := mkCreateProtectionContainerInput {
  InputProperties : option unit
}.

(** Package helpers/azure and [handleAzureSdkForGoBug2824] of package
    recoveryservices are not among the sources. *)
Record imports : Type := mkImports {
  ParseAzureResourceID : string -> error + azure.ResourceID;
  handleAzureSdkForGoBug2824 : string -> string
}.

(** The calls of the client that [ProtectionContainerClient(resGroup,
    vaultName)] makes for a vault: each carries the resource group and the
    vault it was made for. *)
Inductive apicall : Type :=
  | ContainerGet (ctx : context) (resGroup vaultName fabricName name : string)
      (result : Response ProtectionContainer)
  | ContainerCreate (ctx : context) (resGroup vaultName fabricName name : string)
      (parameters : CreateProtectionContainerInput) (err : option error)
  | ContainerDelete (ctx : context) (resGroup vaultName fabricName name : string)
      (err : option error)
  | WaitForCompletionRef (ctx : context) (err : option error).

Record ProtectionContainerClient (W : Type) : Type := mkProtectionContainerClient {
  Get : string -> string -> context -> string -> string -> W ->
        Response ProtectionContainer * W;
  Create : string -> string -> context -> string -> string ->
           CreateProtectionContainerInput -> W -> option error * W;
  Delete : string -> string -> context -> string -> string -> W -> option error * W;
  FutureWaitForCompletionRef : string -> string -> context -> W -> option error * W
}.

Section Handlers.

Variable W : Type.
Variable imp : imports.
Variable client : ProtectionContainerClient W.

Definition clientGet (resGroup vaultName : string) (ctx : context) (fabricName name : string)
    : M W apicall (Response ProtectionContainer) :=
  call (ContainerGet ctx resGroup vaultName fabricName name)
       (Get client resGroup vaultName ctx fabricName name).

Definition clientCreate (resGroup vaultName : string) (ctx : context)
    (fabricName name : string) (parameters : CreateProtectionContainerInput)
    : M W apicall (option error) :=
  call (ContainerCreate ctx resGroup vaultName fabricName name parameters)
       (Create client resGroup vaultName ctx fabricName name parameters).

Definition clientDelete (resGroup vaultName : string) (ctx : context)
    (fabricName name : string) : M W apicall (option error) :=
  call (ContainerDelete ctx resGroup vaultName fabricName name)
       (Delete client resGroup vaultName ctx fabricName name).

Definition futureWaitForCompletionRef (resGroup vaultName : string) (ctx : context)
    : M W apicall (option error) :=
  call (WaitForCompletionRef ctx) (FutureWaitForCompletionRef client resGroup vaultName ctx).

(** Lines 350-379. *)
Definition resourceSiteRecoveryProtectionContainerRead : M W apicall unit :=
  d <- getData ;;
  match ParseAzureResourceID imp (Id d) with
  | inl err => fail err
  | inr id =>
      let resGroup := azure.ResourceGroup id in
      let vaultName := azure.PathAt id "vaults" in
      let fabricName := azure.PathAt id "replicationFabrics" in
      let name := azure.PathAt id "replicationProtectionContainers" in
      let ctx := timeouts.ForRead d in
      resp <- clientGet resGroup vaultName ctx fabricName name ;;
      match Err resp with
      | Some err =>
          if ResponseWasNotFound resp then SetId ""
          else fail (Wrapf "Error making Read request on site recovery protection container %s (fabric %s): %+v"
                       [name; fabricName] err)
      | None =>
          Set_ "name" (VStringPtr (ContainerName (Body resp))) ;;
          Set_ "resource_group_name" (VString resGroup) ;;
          Set_ "recovery_vault_name" (VString vaultName) ;;
          Set_ "recovery_fabric_name" (VString fabricName)
      end
  end.

(** Lines 305-348. *)
Definition resourceSiteRecoveryProtectionContainerCreate : M W apicall unit :=
  d <- getData ;;
  let resGroup := GetString d "resource_group_name" in
  let vaultName := GetString d "recovery_vault_name" in
  let fabricName := GetString d "recovery_fabric_name" in
  let name := GetString d "name" in
  let ctx := timeouts.ForCreate d in
  (if IsNewResource d then
     existing <- clientGet resGroup vaultName ctx fabricName name ;;
     match match Err existing with
           | Some err =>
               if negb (ResponseWasNotFound existing)
               then Some (Wrapf "Error checking for presence of existing site recovery protection container %s (fabric %s): %+v"
                            [name; fabricName] err)
               else None
           | None => None
           end with
     | Some err => fail err
     | None =>
         match ContainerID (Body existing) with
         | Some id =>
             if negb (String.eqb id "")
             then fail (ImportAsExistsError "azurerm_site_recovery_protection_container"
                          (handleAzureSdkForGoBug2824 imp id))
             else ret tt
         | None => ret tt
         end
     end
   else ret tt) ;;
  let parameters := mkCreateProtectionContainerInput (Some tt) in
  err <- clientCreate resGroup vaultName ctx fabricName name parameters ;;
  match err with
  | Some err =>
      fail (Wrapf "Error creating site recovery protection container %s (fabric %s): %+v"
              [name; fabricName] err)
  | None =>
      err <- futureWaitForCompletionRef resGroup vaultName ctx ;;
      match err with
      | Some err =>
          fail (Wrapf "Error creating site recovery protection container %s (fabric %s): %+v"
                  [name; fabricName] err)
      | None =>
          resp <- clientGet resGroup vaultName ctx fabricName name ;;
          match Err resp with
          | Some err =>
              fail (Wrapf "Error retrieving site recovery protection container %s (fabric %s): %+v"
                      [name; fabricName] err)
          | None =>
              respID <- deref (ContainerID (Body resp)) ;;
              SetId (handleAzureSdkForGoBug2824 imp respID) ;;
              resourceSiteRecoveryProtectionContainerRead
          end
      end
  end.

(** Lines 381-406. *)
Definition resourceSiteRecoveryProtectionContainerDelete : M W apicall unit :=
  d <- getData ;;
  match ParseAzureResourceID imp (Id d) with
  | inl err => fail err
  | inr id =>
      let resGroup := azure.ResourceGroup id in
      let vaultName := azure.PathAt id "vaults" in
      let fabricName := azure.PathAt id "replicationFabrics" in
      let name := azure.PathAt id "replicationProtectionContainers" in
      let ctx := timeouts.ForDelete d in
      err <- clientDelete resGroup vaultName ctx fabricName name ;;
      match err with
      | Some err =>
          fail (Wrapf "Error deleting site recovery protection container %s (fabric %s): %+v"
                  [name; fabricName] err)
      | None =>
          err <- futureWaitForCompletionRef resGroup vaultName ctx ;;
          match err with
          | Some err =>
              fail (Wrapf "Error waiting for deletion of site recovery protection container %s (fabric %s): %+v"
                      [name; fabricName] err)
          | None => ret tt
          end
      end
  end.

End Handlers.

End SiteRecoveryProtectionContainer.

(** ** package recoveryservices, src/unnamed/part_002: the Delete of the
    backup protection container *)

(** A computation over the calls [C] run where the calls are [C']: what it
    appends to the trace is carried over by [inject]. *)
Definition mapEvent {C C' : Type} (inject : C -> C') (e : event C) : event C' :=
  match e with
  | Lock name kind => Lock name kind
  | Unlock name kind => Unlock name kind
  | Api c => Api (inject c)
  end.

Definition lift {W C C' A : Type} (inject : C -> C') (m : M W C A) : M W C' A :=
  fun s =>
    let (r, s') := m (mkState (data s) (world s) []) in
    (r, mkState (data s') (world s') (trace s ++ map (mapEvent inject) (trace s'))).

Module BackupProtectionContainerStorageAccountDelete.

Import BackupProtectionContainerStorageAccount.

(** What [client.Unregister] and [resp.Response.Location()] give: the
    [err], and the path of the URL in the Location header of the response
    if there is one. *)
Record Unregistration : Type := mkUnregistration {
  UnregisterErr : option error;
  LocationPath : option string
}.

(** The calls of Delete: the deregistration, and the calls the file makes
    elsewhere. *)
Inductive apicall : Type :=
  | ContainersUnregister (ctx : context)
      (vaultName resourceGroupName fabricName containerName : string)
      (result : Unregistration)
  | Other (c : BackupProtectionContainerStorageAccount.apicall).

Section Handlers.

Variable W : Type.
Variable imp : imports.
Variable clients : Clients W.

(** [client.Unregister] of the
    [RecoveryServices.BackupProtectionContainersClient]. *)
Variable Unregister : context -> string -> string -> string -> string -> W ->
                      Unregistration * W.

(** Lines 163-202. *)
Definition resourceBackupProtectionContainerStorageAccountDelete : M W apicall unit :=
  d <- getData ;;
  match ParseAzureResourceID imp (Id d) with
  | inl err => fail err
  | inr id =>
      let resGroup := azure.ResourceGroup id in
      let vaultName := azure.PathAt id "vaults" in
      let fabricName := azure.PathAt id "backupFabrics" in
      let containerName := azure.PathAt id "protectionContainers" in
      let ctx := timeouts.ForDelete d in
      resp <- call (ContainersUnregister ctx vaultName resGroup fabricName containerName)
                (Unregister ctx vaultName resGroup fabricName containerName) ;;
      match UnregisterErr resp with
      | Some err =>
          fail (Wrapf "Error deregistering backup protection container %s (Vault %s): %+v"
                  [containerName; vaultName] err)
      | None =>
          match LocationPath resp with
          | None =>
              fail (Errorf "Error unregistering backup protection container %s (Vault %s): Location header missing or empty"
                      [containerName; vaultName])
          | Some locationPath =>
              let opResourceID := handleAzureSdkForGoBug2824 imp locationPath in
              match ParseAzureResourceID imp opResourceID with
              | inl err => fail err
              | inr parsedLocation =>
                  let operationID := azure.PathAt parsedLocation "backupOperationResults" in
                  _ <- lift Other
                         (resourceBackupProtectionContainerStorageAccountWaitForOperation
                            clients ctx vaultName resGroup operationID d) ;;
                  ret tt
              end
          end
      end
  end.

End Handlers.

End BackupProtectionContainerStorageAccountDelete.

Module Gone.

(** Stand-ins for a remote side on which the object is gone already.  A
    future is kept as the status code of its response. *)
Definition statusWasNotFound (status : Z) : bool := (status =? StatusNotFound)%Z.

(** The deletion is refused with 404. *)
Definition group : ResourceGroupDelete.GroupsClient unit Z :=
  ResourceGroupDelete.mkGroupsClient
    (fun _ _ _ w => ((StatusNotFound, Some InMemory.notFoundError), w))
    (fun _ future w => ((future, None), w)).

(** The deletion is accepted, and the group is found gone while waiting. *)
Definition groupWhileWaiting : ResourceGroupDelete.GroupsClient unit Z :=
  ResourceGroupDelete.mkGroupsClient
    (fun _ _ _ w => ((202%Z, None), w))
    (fun _ _ w => ((StatusNotFound, Some InMemory.notFoundError), w)).

Definition groupData : ResourceData :=
  mkResourceData "/subscriptions/sub/resourceGroups/rg1" [] [] false
    (mkResourceTimeout (90 * Minute) (5 * Minute) (90 * Minute) (90 * Minute)).

Definition extension : VirtualMachineScaleSetExtensionDelete.ExtensionsClient unit Z :=
  VirtualMachineScaleSetExtensionDelete.mkExtensionsClient
    (fun _ _ _ _ w => ((StatusNotFound, Some InMemory.notFoundError), w))
    (fun _ _ w => (None, w)).

Definition extensionWhileWaiting
    : VirtualMachineScaleSetExtensionDelete.ExtensionsClient unit Z :=
  VirtualMachineScaleSetExtensionDelete.mkExtensionsClient
    (fun _ _ _ _ w => ((202%Z, None), w))
    (fun _ _ w => (Some InMemory.notFoundError, w)).

Definition extensionData : ResourceData :=
  mkResourceData (InMemory.Vmss.scaleSetId ++ "/extensions/ext1") [] [] false
    InMemory.timeouts30.

Definition schedule : AutomationSchedule.ScheduleClient unit :=
  AutomationSchedule.mkScheduleClient
    (fun _ _ _ _ w => (mkResponse tt StatusNotFound (Some InMemory.notFoundError), w)).

Definition scheduleData : ResourceData :=
  mkResourceData
    "/subscriptions/sub/resourceGroups/rg/providers/Microsoft.Automation/automationAccounts/account1/schedules/schedule1"
    [] [] false InMemory.timeouts30.

Definition recoveryImp : SiteRecoveryProtectionContainer.imports :=
  SiteRecoveryProtectionContainer.mkImports InMemory.parseResourceID (fun s => s).

Definition container : SiteRecoveryProtectionContainer.ProtectionContainerClient unit :=
  SiteRecoveryProtectionContainer.mkProtectionContainerClient
    (fun _ _ _ _ _ w =>
       (mkResponse (SiteRecoveryProtectionContainer.mkProtectionContainer None None)
          StatusNotFound (Some InMemory.notFoundError), w))
    (fun _ _ _ _ _ _ w => (None, w))
    (fun _ _ _ _ _ w => (Some InMemory.notFoundError, w))
    (fun _ _ _ w => (None, w)).

Definition containerData : ResourceData :=
  mkResourceData
    "/subscriptions/sub/resourceGroups/rg/providers/Microsoft.RecoveryServices/vaults/vault1/replicationFabrics/fabric1/replicationProtectionContainers/container1"
    [] [] false InMemory.timeouts30.

Definition unregister (ctx : context) (vaultName resourceGroupName fabricName containerName : string)
    (w : option BackupProtectionContainerStorageAccount.ProtectionContainerResource)
    : BackupProtectionContainerStorageAccountDelete.Unregistration
      * option BackupProtectionContainerStorageAccount.ProtectionContainerResource :=
  (BackupProtectionContainerStorageAccountDelete.mkUnregistration
     (Some InMemory.notFoundError) None, w).

Definition backupData : ResourceData :=
  mkResourceData InMemory.Backup.containerId [] [] false
    BackupProtectionContainerStorageAccount.resourceTimeouts.

End Gone.

(** ** What an Update of the extension sends *)

Module Changes.

Import VirtualMachineScaleSetExtension.

Definition isSome {A : Type} (o : option A) : bool :=
  match o with
  | Some _ => true
  | None => false
  end.

(** The attributes an Update looks at with [d.HasChange]. *)
Definition tracked : list string :=
  ["force_update_tag"; "protected_settings"; "provision_after_extensions"; "publisher";
   "settings"; "type"; "type_handler_version"].

(** Is the field of the attribute [key] there in [props]? *)
Definition sent (json : Type) (props : VirtualMachineScaleSetExtensionProperties json)
    (key : string) : bool :=
  if String.eqb key "force_update_tag" then isSome (ForceUpdateTag props)
  else if String.eqb key "protected_settings" then isSome (ProtectedSettings props)
  else if String.eqb key "provision_after_extensions"
  then isSome (ProvisionAfterExtensions props)
  else if String.eqb key "publisher" then isSome (Publisher props)
  else if String.eqb key "settings" then isSome (Settings props)
  else if String.eqb key "type" then isSome (Type_ props)
  else if String.eqb key "type_handler_version" then isSome (TypeHandlerVersion props)
  else false.

(** An extension as an Update sends it: no ID, the name, and properties in
    which [auto_upgrade_minor_version] is always there and each tracked
    attribute is there exactly when it has changed. *)
Definition onlyChanges (json : Type) (HasChange : ResourceData -> string -> bool)
    (d : ResourceData) (name : string) (extension : VirtualMachineScaleSetExtension json)
    : Prop :=
  ExtensionID extension = None
  /\ ExtensionName_ extension = Some name
  /\ exists props,
       ExtensionProperties extension = Some props
       /\ AutoUpgradeMinorVersion props = Some (GetBool d "auto_upgrade_minor_version")
       /\ Forall (fun key => sent props key = HasChange d key) tracked.

Definition isSubmission (json : Type) (c : apicall json) : bool :=
  match c with
  | ExtensionsCreateOrUpdate _ _ _ _ _ _ => true
  | _ => false
  end.

End Changes.

Module MoreDeadlines.

Definition groupDeleteCallContext (Future : Type) (c : ResourceGroupDelete.apicall Future)
    : context :=
  match c with
  | ResourceGroupDelete.GroupsDelete ctx _ _ _ _ => ctx
  | ResourceGroupDelete.WaitForCompletionRef ctx _ _ => ctx
  end.

Definition extensionDeleteCallContext (Future : Type)
    (c : VirtualMachineScaleSetExtensionDelete.apicall Future) : context :=
  match c with
  | VirtualMachineScaleSetExtensionDelete.ExtensionsDelete ctx _ _ _ _ _ => ctx
  | VirtualMachineScaleSetExtensionDelete.WaitForCompletionRef _ ctx _ => ctx
  end.

Definition scheduleCallContext (c : AutomationSchedule.apicall) : context :=
  match c with
  | AutomationSchedule.ScheduleDelete ctx _ _ _ _ => ctx
  end.

Definition containerCallContext (c : SiteRecoveryProtectionContainer.apicall) : context :=
  match c with
  | SiteRecoveryProtectionContainer.ContainerGet ctx _ _ _ _ _ => ctx
  | SiteRecoveryProtectionContainer.ContainerCreate ctx _ _ _ _ _ _ => ctx
  | SiteRecoveryProtectionContainer.ContainerDelete ctx _ _ _ _ _ => ctx
  | SiteRecoveryProtectionContainer.WaitForCompletionRef ctx _ => ctx
  end.

Definition containerGet (c : SiteRecoveryProtectionContainer.apicall) : bool :=
  match c with
  | SiteRecoveryProtectionContainer.ContainerGet _ _ _ _ _ _ => true
  | _ => false
  end.

Definition backupDeleteCallContext (c : BackupProtectionContainerStorageAccountDelete.apicall)
    : context :=
  match c with
  | BackupProtectionContainerStorageAccountDelete.ContainersUnregister ctx _ _ _ _ _ => ctx
  | BackupProtectionContainerStorageAccountDelete.Other c => Observe.backupCallContext c
  end.

(** The timeout the poller of a call was given, for the calls that poll. *)
Definition pollerTimeout (c : BackupProtectionContainerStorageAccount.apicall) : option Z :=
  match c with
  | BackupProtectionContainerStorageAccount.WaitForStateContext _ timeout _ => Some timeout
  | _ => None
  end.

Definition deletePollerTimeout (c : BackupProtectionContainerStorageAccountDelete.apicall)
    : option Z :=
  match c with
  | BackupProtectionContainerStorageAccountDelete.Other c => pollerTimeout c
  | _ => None
  end.

End MoreDeadlines.

Module Present.

(** A vault that holds the site recovery protection container already. *)
Definition containerId : string :=
  "/subscriptions/sub/resourceGroups/rg/providers/Microsoft.RecoveryServices/vaults/vault1/replicationFabrics/fabric1/replicationProtectionContainers/container1".

Definition container : SiteRecoveryProtectionContainer.ProtectionContainerClient unit :=
  SiteRecoveryProtectionContainer.mkProtectionContainerClient
    (fun _ _ _ _ _ w =>
       (mkResponse (SiteRecoveryProtectionContainer.mkProtectionContainer
                      (Some containerId) (Some "container1"))
          StatusOK None, w))
    (fun _ _ _ _ _ _ w => (None, w))
    (fun _ _ _ _ _ w => (None, w))
    (fun _ _ _ w => (None, w)).

Definition creating : ResourceData :=
  mkResourceData ""
    [("name", VString "container1"); ("resource_group_name", VString "rg");
     ("recovery_vault_name", VString "vault1");
     ("recovery_fabric_name", VString "fabric1")]
    [] true InMemory.timeouts30.

End Present.

(** ** Writes that completed *)

Module Writes.

(** Is there, in [cs], a call of which [p] holds followed at once by one
    of which [q] holds? *)
Fixpoint adjacent {C : Type} (p q : C -> bool) (cs : list C) : bool :=
  match cs with
  | [] => false
  | c :: rest =>
      match rest with
      | [] => false
      | c' :: _ => (p c && q c') || adjacent p q rest
      end
  end.

Definition subnetSubmitted (c : SubnetNatGatewayAssociation.apicall) : bool :=
  match c with
  | SubnetNatGatewayAssociation.SubnetsCreateOrUpdate _ _ _ _ _ None => true
  | _ => false
  end.

Definition subnetCompleted (c : SubnetNatGatewayAssociation.apicall) : bool :=
  match c with
  | SubnetNatGatewayAssociation.WaitForCompletionRef _ None => true
  | _ => false
  end.

Definition hubSubmitted (c : IotHubRoute.apicall) : bool :=
  match c with
  | IotHubRoute.ResourceCreateOrUpdate _ _ _ _ _ None => true
  | _ => false
  end.

Definition hubCompleted (c : IotHubRoute.apicall) : bool :=
  match c with
  | IotHubRoute.WaitForCompletionRef _ None => true
  | _ => false
  end.

Definition groupSubmitted (c : ResourceGroup.apicall) : bool :=
  match c with
  | ResourceGroup.GroupsCreateOrUpdate _ _ _ None => true
  | _ => false
  end.

(** A fetch of the group that succeeded. *)
Definition groupFetched (c : ResourceGroup.apicall) : bool :=
  match c with
  | ResourceGroup.GroupsGet _ _ resp =>
      match Err resp with
      | None => true
      | Some _ => false
      end
  | _ => false
  end.

Definition extensionSubmitted (json : Type) (c : VirtualMachineScaleSetExtension.apicall json)
    : bool :=
  match c with
  | VirtualMachineScaleSetExtension.ExtensionsCreateOrUpdate _ _ _ _ _ None => true
  | _ => false
  end.

Definition extensionCompleted (json : Type) (c : VirtualMachineScaleSetExtension.apicall json)
    : bool :=
  match c with
  | VirtualMachineScaleSetExtension.WaitForCompletionRef _ _ None => true
  | _ => false
  end.

Definition containerSubmitted (c : SiteRecoveryProtectionContainer.apicall) : bool :=
  match c with
  | SiteRecoveryProtectionContainer.ContainerCreate _ _ _ _ _ _ None => true
  | _ => false
  end.

Definition containerCompleted (c : SiteRecoveryProtectionContainer.apicall) : bool :=
  match c with
  | SiteRecoveryProtectionContainer.WaitForCompletionRef _ None => true
  | _ => false
  end.

End Writes.

Module Lowercase.

(** [strings.ToLower] on a string of ASCII characters. *)
Fixpoint ToLower (s : string) : string :=
  match s with
  | EmptyString => EmptyString
  | String c rest => String (strings.lower c) (ToLower rest)
  end.

End Lowercase.

Module TimedOut.

(** A vault that accepts the registration and the deregistration, and whose
    operation the poller gives up on: it hands back an error and no
    status. *)
Definition timeoutError : error := ClientError "timeout while waiting for state".

Definition clients
    : BackupProtectionContainerStorageAccount.Clients
        (option BackupProtectionContainerStorageAccount.ProtectionContainerResource) :=
  BackupProtectionContainerStorageAccount.mkClients
    (fun _ _ _ _ _ w => InMemory.fetch InMemory.Backup.zeroContainer w)
    (fun _ _ _ _ _ parameters w =>
       (BackupProtectionContainerStorageAccount.mkRegistration
          (mkResponse InMemory.Backup.zeroContainer 202 None)
          (Some InMemory.Backup.operationPath), w))
    (fun _ _ _ _ w =>
       (mkResponse (BackupProtectionContainerStorageAccount.mkOperationStatus "InProgress" None)
          StatusOK None, w))
    (fun _ _ w => ((None, Some timeoutError), w)).

Definition unregister (ctx : context) (vaultName resourceGroupName fabricName containerName : string)
    (w : option BackupProtectionContainerStorageAccount.ProtectionContainerResource)
    : BackupProtectionContainerStorageAccountDelete.Unregistration
      * option BackupProtectionContainerStorageAccount.ProtectionContainerResource :=
  (BackupProtectionContainerStorageAccountDelete.mkUnregistration None
     (Some "/subscriptions/sub/resourceGroups/rg/providers/Microsoft.RecoveryServices/vaults/vault1/backupFabrics/Azure/protectionContainers/container1/backupOperationResults/op1"),
   w).

End TimedOut.

(** ** Separators in an identifier *)

Module Separators.

(** How often the byte [sep] occurs in [s]. *)
Fixpoint count (s : string) (sep : ascii) : nat :=
  match s with
  | EmptyString => 0
  | String c rest => if Ascii.eqb c sep then S (count rest sep) else count rest sep
  end.

End Separators.
(** ** Handlers that end in their Read *)

Module EndingRead.

(** Does [p] hold of the last call of [cs]? *)
Fixpoint lastIs {C : Type} (p : C -> bool) (cs : list C) : bool :=
  match cs with
  | [] => false
  | c :: rest =>
      match rest with
      | [] => p c
      | _ :: _ => lastIs p rest
      end
  end.

Section Deadlines.

Variables W C : Type.

Variable callContext : C -> context.
Variable isGet : C -> bool.

(** The call after which the handler goes on to its Read. *)
Variable entry : C -> bool.

Variable Read : M W C unit.

(** The run [r] of a handler on [d] made its calls under [own], but for
    those of the [Read] it ended in.  [before] are the calls the handler
    made itself, every one under [own].  Either they are all the calls of
    the run; or the last of them is the [entry] to the Read and what
    follows is the run of [Read] on [d], with the identifier set, against
    the remote side as it was then: the run has the calls of that Read
    after its own, and the result, the resource data and the remote side
    of that Read, whose calls are fetches under the read deadline. *)
Definition underOwnButRead (own : context) (d : ResourceData)
    (r : outcome unit * state W C) : Prop :=
  exists before : list C,
    Forall (fun c => callContext c = own) before
    /\ (calls (trace (final r)) = before
        \/ exists (id : string) (w' : W),
             let read := run Read (withId d id) w' in
             lastIs entry before = true
             /\ calls (trace (final r)) = before ++ calls (trace (final read))
             /\ result r = result read
             /\ data (final r) = data (final read)
             /\ world (final r) = world (final read)
             /\ Forall (fun c => isGet c = true /\ callContext c = timeouts.ForRead d)
                  (calls (trace (final read)))).

(** A computation that only adds to the trace it is given, and does the
    same whatever that trace. *)
Definition framed (m : M W C unit) : Prop :=
  forall s : state W C,
    let r := m (mkState (data s) (world s) []) in
    m s = (fst r, mkState (data (snd r)) (world (snd r)) (trace s ++ trace (snd r))).

End Deadlines.

(** A fetch that came back without an error and with an object that has
    an ID. *)
Definition fetchedBack {A : Type} (ID : A -> option string) (resp : Response A) : bool :=
  match Err resp with
  | Some _ => false
  | None =>
      match ID (Body resp) with
      | Some _ => true
      | None => false
      end
  end.

(** The wait for the write to the network interface, when it came back
    without an error. *)
Definition interfaceCompleted (c : NetworkInterfaceBackendAddressPoolAssociation.apicall)
    : bool :=
  match c with
  | NetworkInterfaceBackendAddressPoolAssociation.WaitForCompletionRef _ None => true
  | _ => false
  end.

Definition subnetFetchedBack (c : SubnetNatGatewayAssociation.apicall) : bool :=
  match c with
  | SubnetNatGatewayAssociation.SubnetsGet _ _ _ _ _ resp =>
      fetchedBack SubnetNatGatewayAssociation.SubnetID resp
  | _ => false
  end.

Definition groupFetchedBack (c : ResourceGroup.apicall) : bool :=
  match c with
  | ResourceGroup.GroupsGet _ _ resp => fetchedBack ResourceGroup.GroupID resp
  | _ => false
  end.

Definition extensionFetchedBack (json : Type)
    (c : VirtualMachineScaleSetExtension.apicall json) : bool :=
  match c with
  | VirtualMachineScaleSetExtension.ExtensionsGet _ _ _ _ _ resp =>
      fetchedBack (@VirtualMachineScaleSetExtension.ExtensionID json) resp
  | _ => false
  end.

Definition containerFetchedBack (c : SiteRecoveryProtectionContainer.apicall) : bool :=
  match c with
  | SiteRecoveryProtectionContainer.ContainerGet _ _ _ _ _ resp =>
      fetchedBack SiteRecoveryProtectionContainer.ContainerID resp
  | _ => false
  end.

End EndingRead.

(** * Properties *)

Lemma calls_app (C : Type) (t u : list (event C)) :
  calls (t ++ u) = calls t ++ calls u.
Proof.
  induction t as [|e t IH]; simpl; [reflexivity|].
  destruct e; simpl; rewrite IH; reflexivity.
Qed.

Ltac handler_unfold :=
  unfold result, final, run, bind, ret, fail, panic, deref, getData, locked, call,
    SetId, Set_, onData in *.

(** Case analysis on whatever the handler branches on next: a scrutinee
    that has no case analysis inside it. *)
Ltac branch :=
  match goal with
  | |- context [match ?x with _ => _ end] =>
      lazymatch x with
      | context [match _ with _ => _ end] => fail
      | _ => destruct x eqn:?
      end
  end.

Ltac branches := repeat (simpl in *; try branch).

(** ** Create when the parent is missing *)

(** C6.  A Create that fetches its parent fails when the fetch comes back
    "not found": with the not-found error that names the parent, which is
    not the import error; the resource data is left as it was and nothing
    is submitted.  Shown for the network-interface backend-pool
    association, the subnet NAT-gateway association and the IoT Hub
    route. *)
Theorem create_fails_when_parent_is_missing (W : Type) :
  (forall (imp : NetworkInterfaceBackendAddressPoolAssociation.imports)
          (client : NetworkInterfaceBackendAddressPoolAssociation.InterfacesClient W)
          (d : ResourceData) (w : W) (id : azure.ResourceID),
      let name := azure.PathAt id "networkInterfaces" in
      let resourceGroup := azure.ResourceGroup id in
      let r := run (NetworkInterfaceBackendAddressPoolAssociation.resourceNetworkInterfaceBackendAddressPoolAssociationCreate
                      imp client) d w in
      NetworkInterfaceBackendAddressPoolAssociation.ParseAzureResourceID imp
        (GetString d "network_interface_id") = inr id ->
      NotFound (fst (NetworkInterfaceBackendAddressPoolAssociation.Get client
                       (timeouts.ForCreate d) resourceGroup name "" w)) ->
      result r = Fail (Errorf "Network Interface %q (Resource Group %q) was not found!"
                         [name; resourceGroup])
      /\ data (final r) = d
      /\ Observe.submittedInterfaces (calls (trace (final r))) = [])
  /\
  (forall (imp : SubnetNatGatewayAssociation.imports)
          (client : SubnetNatGatewayAssociation.SubnetsClient W)
          (d : ResourceData) (w : W)
          (subnetId : SubnetNatGatewayAssociation.SubnetId)
          (gatewayId : SubnetNatGatewayAssociation.NatGatewayId),
      let subnetName := SubnetNatGatewayAssociation.Name subnetId in
      let virtualNetworkName := SubnetNatGatewayAssociation.VirtualNetworkName subnetId in
      let resourceGroup := SubnetNatGatewayAssociation.ResourceGroup subnetId in
      let r := run (SubnetNatGatewayAssociation.resourceSubnetNatGatewayAssociationCreate
                      imp client) d w in
      SubnetNatGatewayAssociation.parseSubnetID imp (GetString d "subnet_id")
        = inr subnetId ->
      SubnetNatGatewayAssociation.parseNatGatewayID imp (GetString d "nat_gateway_id")
        = inr gatewayId ->
      NotFound (fst (SubnetNatGatewayAssociation.Get client (timeouts.ForCreate d)
                       resourceGroup virtualNetworkName subnetName "" w)) ->
      result r
      = Fail (Errorf "Subnet %q (Virtual Network %q / Resource Group %q) was not found!"
                [subnetName; virtualNetworkName; resourceGroup])
      /\ data (final r) = d
      /\ Observe.submittedSubnets (calls (trace (final r))) = [])
  /\
  (forall (imp : IotHubRoute.imports) (client : IotHubRoute.ResourceClient W)
          (d : ResourceData) (w : W),
      let iothubName := GetString d "iothub_name" in
      let resourceGroup := GetString d "resource_group_name" in
      let r := run (IotHubRoute.resourceIotHubRouteCreateUpdate imp client) d w in
      NotFound (fst (IotHubRoute.Get client (timeouts.ForCreateUpdate d)
                       resourceGroup iothubName w)) ->
      result r = Fail (Errorf "IotHub %q (Resource Group %q) was not found"
                         [iothubName; resourceGroup])
      /\ data (final r) = d
      /\ Observe.submittedHubs (calls (trace (final r))) = []).
Proof.
  split; [|split].
  - intros imp client d w id name resourceGroup r Hparse [Herr Hnf].
    subst r name resourceGroup.
    unfold NetworkInterfaceBackendAddressPoolAssociation.resourceNetworkInterfaceBackendAddressPoolAssociationCreate,
      NetworkInterfaceBackendAddressPoolAssociation.clientGet.
    handler_unfold. simpl. rewrite Hparse. simpl.
    destruct (NetworkInterfaceBackendAddressPoolAssociation.Get client _ _ _ _ w)
      as [read w'] eqn:E.
    simpl in *. destruct (Err read); [|congruence].
    rewrite Hnf. simpl. auto.
  - intros imp client d w subnetId gatewayId subnetName virtualNetworkName resourceGroup r
      Hsubnet Hgateway [Herr Hnf].
    subst r subnetName virtualNetworkName resourceGroup.
    unfold SubnetNatGatewayAssociation.resourceSubnetNatGatewayAssociationCreate,
      SubnetNatGatewayAssociation.clientGet.
    handler_unfold. simpl. rewrite Hsubnet. simpl. rewrite Hgateway. simpl.
    destruct (SubnetNatGatewayAssociation.Get client _ _ _ _ _ w) as [subnet w'] eqn:E.
    simpl in *. destruct (Err subnet); [|congruence].
    rewrite Hnf. simpl. auto.
  - intros imp client d w iothubName resourceGroup r [Herr Hnf].
    subst r iothubName resourceGroup.
    unfold IotHubRoute.resourceIotHubRouteCreateUpdate, IotHubRoute.clientGet.
    handler_unfold. simpl.
    destruct (IotHubRoute.Get client _ _ _ w) as [iothub w'] eqn:E.
    simpl in *. destruct (Err iothub); [|congruence].
    rewrite Hnf. simpl. auto.
Qed.

(** The three handlers run against a remote side that holds no parent. *)
Lemma create_fails_when_parent_is_missing_witness :
  (let d := InMemory.Nic.creating "internal" (InMemory.Nic.poolId "c") in
   let r := run (NetworkInterfaceBackendAddressPoolAssociation.resourceNetworkInterfaceBackendAddressPoolAssociationCreate
                   InMemory.Nic.imp InMemory.Nic.client) d None in
   result r = Fail (Errorf "Network Interface %q (Resource Group %q) was not found!"
                      ["nic1"; "rg"])
   /\ data (final r) = d
   /\ Observe.submittedInterfaces (calls (trace (final r))) = [])
  /\
  (let d := InMemory.Nat.creating in
   let r := run (SubnetNatGatewayAssociation.resourceSubnetNatGatewayAssociationCreate
                   InMemory.Nat.imp InMemory.Nat.client) d None in
   result r
   = Fail (Errorf "Subnet %q (Virtual Network %q / Resource Group %q) was not found!"
             ["subnet1"; "vnet1"; "rg"])
   /\ data (final r) = d
   /\ Observe.submittedSubnets (calls (trace (final r))) = [])
  /\
  (let d := InMemory.Hub.creating "r1" in
   let r := run (IotHubRoute.resourceIotHubRouteCreateUpdate
                   InMemory.Hub.imp InMemory.Hub.client) d None in
   result r = Fail (Errorf "IotHub %q (Resource Group %q) was not found" ["hub1"; "rg"])
   /\ data (final r) = d
   /\ Observe.submittedHubs (calls (trace (final r))) = []).
Proof.
  split; [|split].
  - pose proof (proj1 (create_fails_when_parent_is_missing
                         (option NetworkInterfaceBackendAddressPoolAssociation.Interface))
                  InMemory.Nic.imp InMemory.Nic.client
                  (InMemory.Nic.creating "internal" (InMemory.Nic.poolId "c")) None
                  InMemory.Nic.parsedNicId) as H.
    apply H.
    + reflexivity.
    + split; [discriminate | reflexivity].
  - pose proof (proj1 (proj2 (create_fails_when_parent_is_missing
                                (option SubnetNatGatewayAssociation.Subnet)))
                  InMemory.Nat.imp InMemory.Nat.client InMemory.Nat.creating None
                  (SubnetNatGatewayAssociation.mkSubnetId "rg" "vnet1" "subnet1")
                  (SubnetNatGatewayAssociation.mkNatGatewayId "gw1")) as H.
    apply H.
    + reflexivity.
    + reflexivity.
    + split; [discriminate | reflexivity].
  - pose proof (proj2 (proj2 (create_fails_when_parent_is_missing
                                (option IotHubRoute.IotHubDescription)))
                  InMemory.Hub.imp InMemory.Hub.client (InMemory.Hub.creating "r1") None) as H.
    apply H.
    split; [discriminate | reflexivity].
Defined.

(** ** The loops over the collection of the parent *)

Section PoolLoops.

Import NetworkInterfaceBackendAddressPoolAssociation.

Lemma existingPools_conflict (backendAddressPoolId rid : string)
    (existing pools : list BackendAddressPool) :
  existsb (Observe.isPool backendAddressPoolId) existing = true ->
  existingPools backendAddressPoolId rid existing pools
  = inl (ImportAsExistsError
           "azurerm_network_interface_backend_address_pool_association" rid).
Proof.
  revert pools. induction existing as [|pool rest IH]; simpl; intros pools H.
  - discriminate.
  - unfold Observe.isPool in H at 1.
    destruct (PoolID pool) as [id|]; simpl in H.
    + destruct (String.eqb id backendAddressPoolId); [reflexivity | apply IH, H].
    + apply IH, H.
Qed.

Lemma existingPools_absent (backendAddressPoolId rid : string)
    (existing pools : list BackendAddressPool) :
  existsb (Observe.isPool backendAddressPoolId) existing = false ->
  existingPools backendAddressPoolId rid existing pools
  = inr (pools ++ filter Observe.hasID existing).
Proof.
  revert pools. induction existing as [|pool rest IH]; simpl; intros pools H.
  - rewrite app_nil_r. reflexivity.
  - apply orb_false_iff in H. destruct H as [Hpool Hrest].
    unfold Observe.isPool in Hpool. unfold Observe.hasID at 1.
    destruct (PoolID pool) as [id|].
    + rewrite Hpool. rewrite IH by assumption. rewrite <- app_assoc. reflexivity.
    + apply IH, Hrest.
Qed.

Lemma remainingPools_filter (backendAddressPoolId : string)
    (backendPools backendAddressPools : list BackendAddressPool) :
  remainingPools backendAddressPoolId backendPools backendAddressPools
  = backendAddressPools
    ++ filter (fun pool => Observe.hasID pool
                           && negb (Observe.isPool backendAddressPoolId pool))
         backendPools.
Proof.
  revert backendAddressPools.
  induction backendPools as [|pool rest IH]; simpl; intros acc.
  - rewrite app_nil_r. reflexivity.
  - unfold Observe.hasID at 1, Observe.isPool at 1.
    destruct (PoolID pool) as [id|]; simpl.
    + destruct (String.eqb id backendAddressPoolId); simpl.
      * apply IH.
      * rewrite IH, <- app_assoc. reflexivity.
    + apply IH.
Qed.

End PoolLoops.

Section RouteLoops.

Import IotHubRoute.

Variable imp : imports.

Lemma existingRoutes_conflict (routeName rid : string) (route : RouteProperties)
    (existing routes : list RouteProperties) (alreadyExists : bool) :
  existsb (Observe.isRoute imp routeName) existing = true ->
  existingRoutes imp true routeName rid route existing routes alreadyExists
  = inl (ImportAsExistsError "azurerm_iothub_route" rid).
Proof.
  revert routes alreadyExists.
  induction existing as [|r rest IH]; simpl; intros routes alreadyExists H.
  - discriminate.
  - unfold Observe.isRoute in H at 1.
    destruct (RouteName r) as [name|]; simpl in H.
    + destruct (EqualFold imp name routeName); [reflexivity | apply IH, H].
    + apply IH, H.
Qed.

Lemma existingRoutes_absent (isNewResource : bool) (routeName rid : string)
    (route : RouteProperties) (existing routes : list RouteProperties)
    (alreadyExists : bool) :
  existsb (Observe.isRoute imp routeName) existing = false ->
  existingRoutes imp isNewResource routeName rid route existing routes alreadyExists
  = inr (routes ++ filter Observe.hasName existing, alreadyExists).
Proof.
  revert routes.
  induction existing as [|r rest IH]; simpl; intros routes H.
  - rewrite app_nil_r. reflexivity.
  - apply orb_false_iff in H. destruct H as [Hr Hrest].
    unfold Observe.isRoute in Hr. unfold Observe.hasName at 1.
    destruct (RouteName r) as [name|].
    + rewrite Hr. rewrite IH by assumption. rewrite <- app_assoc. reflexivity.
    + apply IH, Hrest.
Qed.

Lemma updatedRoutes_filter (routeName : string) (routes updated : list RouteProperties) :
  updatedRoutes imp routeName routes updated
  = updated
    ++ filter (fun route => Observe.hasName route
                            && negb (Observe.isRoute imp routeName route))
         routes.
Proof.
  revert updated. induction routes as [|r rest IH]; simpl; intros acc.
  - rewrite app_nil_r. reflexivity.
  - unfold Observe.hasName at 1, Observe.isRoute at 1.
    destruct (RouteName r) as [name|]; simpl.
    + destruct (EqualFold imp name routeName); simpl.
      * apply IH.
      * rewrite IH, <- app_assoc. reflexivity.
    + apply IH.
Qed.

End RouteLoops.

(** ** Create when the object is already there *)

(** C4.  A Create on a new resource whose existence check finds the object
    returns the import error that carries the identifier, leaves the
    resource data as it was and submits nothing.  Shown for the
    network-interface backend-pool association, the resource group, the
    scale-set extension, the IoT Hub route and the subnet NAT-gateway
    association. *)
Theorem create_conflicts_with_existing_object (W : Type) :
  (forall (imp : NetworkInterfaceBackendAddressPoolAssociation.imports)
          (client : NetworkInterfaceBackendAddressPoolAssociation.InterfacesClient W)
          (d : ResourceData) (w : W) (id : azure.ResourceID)
          props configs config p existing,
      let networkInterfaceId := GetString d "network_interface_id" in
      let ipConfigurationName := GetString d "ip_configuration_name" in
      let backendAddressPoolId := GetString d "backend_address_pool_id" in
      let read := fst (NetworkInterfaceBackendAddressPoolAssociation.Get client
                         (timeouts.ForCreate d) (azure.ResourceGroup id)
                         (azure.PathAt id "networkInterfaces") "" w) in
      let r := run (NetworkInterfaceBackendAddressPoolAssociation.resourceNetworkInterfaceBackendAddressPoolAssociationCreate
                      imp client) d w in
      NetworkInterfaceBackendAddressPoolAssociation.ParseAzureResourceID imp
        networkInterfaceId = inr id ->
      Err read = None ->
      NetworkInterfaceBackendAddressPoolAssociation.InterfaceProperties (Body read)
        = Some props ->
      NetworkInterfaceBackendAddressPoolAssociation.IPConfigurations props = Some configs ->
      NetworkInterfaceBackendAddressPoolAssociation.FindNetworkInterfaceIPConfiguration imp
        (Some configs) ipConfigurationName = Some config ->
      NetworkInterfaceBackendAddressPoolAssociation.IPConfigurationProperties config
        = Some p ->
      NetworkInterfaceBackendAddressPoolAssociation.LoadBalancerBackendAddressPools p
        = Some existing ->
      existsb (Observe.isPool backendAddressPoolId) existing = true ->
      result r
      = Fail (ImportAsExistsError
                "azurerm_network_interface_backend_address_pool_association"
                (NetworkInterfaceBackendAddressPoolAssociation.resourceId
                   networkInterfaceId ipConfigurationName backendAddressPoolId))
      /\ data (final r) = d
      /\ Observe.submittedInterfaces (calls (trace (final r))) = [])
  /\
  (forall (imp : ResourceGroup.imports) (client : ResourceGroup.GroupsClient W)
          (d : ResourceData) (w : W) (id : string),
      let existing := fst (ResourceGroup.Get client (timeouts.ForCreateUpdate d)
                             (GetString d "name") w) in
      let r := run (ResourceGroup.resourceResourceGroupCreateUpdate imp client) d w in
      IsNewResource d = true ->
      Err existing = None \/ ResponseWasNotFound existing = true ->
      ResourceGroup.GroupID (Body existing) = Some id ->
      id <> "" ->
      result r = Fail (ImportAsExistsError "azurerm_resource_group" id)
      /\ data (final r) = d
      /\ Observe.submittedGroups (calls (trace (final r))) = [])
  /\
  (forall (json : Type) (imp : VirtualMachineScaleSetExtension.imports json)
          (clients : VirtualMachineScaleSetExtension.Clients json W)
          (d : ResourceData) (w : W)
          (vmssId : VirtualMachineScaleSetExtension.VirtualMachineScaleSetId) (id : string),
      let resp := fst (VirtualMachineScaleSetExtension.Get clients (timeouts.ForCreate d)
                         (VirtualMachineScaleSetExtension.ScaleSetResourceGroup vmssId)
                         (VirtualMachineScaleSetExtension.ScaleSetName vmssId)
                         (GetString d "name") "" w) in
      let r := run (VirtualMachineScaleSetExtension.resourceVirtualMachineScaleSetExtensionCreate
                      imp clients) d w in
      VirtualMachineScaleSetExtension.parseVirtualMachineScaleSetID imp
        (GetString d "virtual_machine_scale_set_id") = inr vmssId ->
      Err resp = None ->
      ResponseWasNotFound resp = false ->
      VirtualMachineScaleSetExtension.ExtensionID (Body resp) = Some id ->
      result r = Fail (ImportAsExistsError "azurerm_virtual_machine_scale_set_extension" id)
      /\ data (final r) = d
      /\ Observe.submittedExtensions (calls (trace (final r))) = [])
  /\
  (forall (imp : IotHubRoute.imports) (client : IotHubRoute.ResourceClient W)
          (d : ResourceData) (w : W) (hubId : string) properties routing routes,
      let iothub := fst (IotHubRoute.Get client (timeouts.ForCreateUpdate d)
                           (GetString d "resource_group_name")
                           (GetString d "iothub_name") w) in
      let r := run (IotHubRoute.resourceIotHubRouteCreateUpdate imp client) d w in
      IsNewResource d = true ->
      Err iothub = None ->
      IotHubRoute.HubID (Body iothub) = Some hubId ->
      IotHubRoute.Properties (Body iothub) = Some properties ->
      IotHubRoute.Routing properties = Some routing ->
      IotHubRoute.Routes routing = Some routes ->
      existsb (Observe.isRoute imp (GetString d "name")) routes = true ->
      result r = Fail (ImportAsExistsError "azurerm_iothub_route"
                         (hubId ++ "/Routes/" ++ GetString d "name"))
      /\ data (final r) = d
      /\ Observe.submittedHubs (calls (trace (final r))) = [])
  /\
  (forall (imp : SubnetNatGatewayAssociation.imports)
          (client : SubnetNatGatewayAssociation.SubnetsClient W)
          (d : ResourceData) (w : W)
          (subnetId : SubnetNatGatewayAssociation.SubnetId)
          (gatewayId : SubnetNatGatewayAssociation.NatGatewayId)
          props gateway (gatewayID subnetID : string),
      let subnet := fst (SubnetNatGatewayAssociation.Get client (timeouts.ForCreate d)
                           (SubnetNatGatewayAssociation.ResourceGroup subnetId)
                           (SubnetNatGatewayAssociation.VirtualNetworkName subnetId)
                           (SubnetNatGatewayAssociation.Name subnetId) "" w) in
      let r := run (SubnetNatGatewayAssociation.resourceSubnetNatGatewayAssociationCreate
                      imp client) d w in
      SubnetNatGatewayAssociation.parseSubnetID imp (GetString d "subnet_id")
        = inr subnetId ->
      SubnetNatGatewayAssociation.parseNatGatewayID imp (GetString d "nat_gateway_id")
        = inr gatewayId ->
      Err subnet = None ->
      SubnetNatGatewayAssociation.SubnetProperties (Body subnet) = Some props ->
      SubnetNatGatewayAssociation.NatGateway props = Some gateway ->
      SubnetNatGatewayAssociation.SubResourceID gateway = Some gatewayID ->
      SubnetNatGatewayAssociation.SubnetID (Body subnet) = Some subnetID ->
      result r = Fail (ImportAsExistsError "azurerm_subnet_nat_gateway_association" subnetID)
      /\ data (final r) = d
      /\ Observe.submittedSubnets (calls (trace (final r))) = []).
Proof.
  split; [|split; [|split; [|split]]].
  - intros imp client d w id props configs config p existing
      networkInterfaceId ipConfigurationName backendAddressPoolId read r
      Hparse Herr Hprops Hconfigs Hfind Hp Hpools Hexists.
    subst r read networkInterfaceId ipConfigurationName backendAddressPoolId.
    unfold NetworkInterfaceBackendAddressPoolAssociation.resourceNetworkInterfaceBackendAddressPoolAssociationCreate,
      NetworkInterfaceBackendAddressPoolAssociation.clientGet.
    handler_unfold. simpl. rewrite Hparse. simpl.
    destruct (NetworkInterfaceBackendAddressPoolAssociation.Get client _ _ _ _ w)
      as [read w'] eqn:E.
    simpl in *. rewrite Herr, Hprops. simpl. rewrite Hconfigs, Hfind, Hp, Hpools.
    rewrite existingPools_conflict by assumption. simpl. auto.
  - intros imp client d w id existing r Hnew Hlookup Hid Hne. subst r existing.
    unfold ResourceGroup.resourceResourceGroupCreateUpdate, ResourceGroup.clientGet,
      ResourceGroup.checkExisting.
    handler_unfold. simpl. rewrite Hnew. simpl.
    destruct (ResourceGroup.Get client _ _ w) as [existing w'] eqn:E.
    simpl in *. rewrite Hid.
    assert (Hempty : String.eqb id "" = false) by (apply String.eqb_neq; assumption).
    rewrite Hempty. simpl.
    destruct Hlookup as [Hok | Hnf].
    + rewrite Hok. simpl. auto.
    + rewrite Hnf. destruct (Err existing); simpl; auto.
  - intros json imp clients d w vmssId id resp r Hparse Herr Hfound Hid. subst r resp.
    unfold VirtualMachineScaleSetExtension.resourceVirtualMachineScaleSetExtensionCreate,
      VirtualMachineScaleSetExtension.clientGet.
    handler_unfold. simpl. rewrite Hparse. simpl.
    destruct (VirtualMachineScaleSetExtension.Get clients _ _ _ _ _ w) as [resp w'] eqn:E.
    simpl in *. rewrite Herr, Hfound, Hid. simpl. auto.
  - intros imp client d w hubId properties routing routes iothub r
      Hnew Herr Hid Hproperties Hrouting Hroutes Hexists. subst r iothub.
    unfold IotHubRoute.resourceIotHubRouteCreateUpdate, IotHubRoute.clientGet.
    handler_unfold. simpl.
    destruct (IotHubRoute.Get client _ _ _ w) as [iothub w'] eqn:E.
    simpl in *. rewrite Herr, Hid, Hproperties. simpl.
    rewrite Hrouting, Hroutes, Hnew.
    rewrite existingRoutes_conflict by assumption. simpl. auto.
  - intros imp client d w subnetId gatewayId props gateway gatewayID subnetID subnet r
      Hsubnet Hgateway Herr Hprops Hnat Hgid Hsid. subst r subnet.
    unfold SubnetNatGatewayAssociation.resourceSubnetNatGatewayAssociationCreate,
      SubnetNatGatewayAssociation.clientGet, SubnetNatGatewayAssociation.associate.
    handler_unfold. simpl. rewrite Hsubnet. simpl. rewrite Hgateway. simpl.
    destruct (SubnetNatGatewayAssociation.Get client _ _ _ _ _ w) as [subnet w'] eqn:E.
    simpl in *. rewrite Herr, Hprops, Hnat, Hgid, Hsid. simpl. auto.
Qed.

(** The five handlers run against a remote side that already holds the
    object; the route is found although its name differs in case. *)
Lemma create_conflicts_with_existing_object_witness :
  (let d := InMemory.Nic.creating "internal" (InMemory.Nic.poolId "a") in
   let w := Some (InMemory.Nic.nic "internal" [InMemory.Nic.pool "a"; InMemory.Nic.pool "b"]) in
   let r := run (NetworkInterfaceBackendAddressPoolAssociation.resourceNetworkInterfaceBackendAddressPoolAssociationCreate
                   InMemory.Nic.imp InMemory.Nic.client) d w in
   result r
   = Fail (ImportAsExistsError
             "azurerm_network_interface_backend_address_pool_association"
             (NetworkInterfaceBackendAddressPoolAssociation.resourceId
                InMemory.Nic.nicId "internal" (InMemory.Nic.poolId "a")))
   /\ data (final r) = d
   /\ Observe.submittedInterfaces (calls (trace (final r))) = [])
  /\
  (let d := InMemory.Rg.creating "rg1" in
   let r := run (ResourceGroup.resourceResourceGroupCreateUpdate
                   InMemory.Rg.imp InMemory.Rg.client) d (Some (InMemory.Rg.group "rg1")) in
   result r = Fail (ImportAsExistsError "azurerm_resource_group"
                      "/subscriptions/sub/resourceGroups/rg1")
   /\ data (final r) = d
   /\ Observe.submittedGroups (calls (trace (final r))) = [])
  /\
  (let d := InMemory.Vmss.creating "ext1" in
   let r := run (VirtualMachineScaleSetExtension.resourceVirtualMachineScaleSetExtensionCreate
                   InMemory.Vmss.imp InMemory.Vmss.client) d
              (Some (InMemory.Vmss.extension "ext1")) in
   result r = Fail (ImportAsExistsError "azurerm_virtual_machine_scale_set_extension"
                      (InMemory.Vmss.scaleSetId ++ "/extensions/ext1"))
   /\ data (final r) = d
   /\ Observe.submittedExtensions (calls (trace (final r))) = [])
  /\
  (let d := InMemory.Hub.creating "R1" in
   let r := run (IotHubRoute.resourceIotHubRouteCreateUpdate
                   InMemory.Hub.imp InMemory.Hub.client) d
              (Some (InMemory.Hub.hub [InMemory.Hub.route "r1"])) in
   result r = Fail (ImportAsExistsError "azurerm_iothub_route"
                      (InMemory.Hub.hubId ++ "/Routes/R1"))
   /\ data (final r) = d
   /\ Observe.submittedHubs (calls (trace (final r))) = [])
  /\
  (let d := InMemory.Nat.creating in
   let r := run (SubnetNatGatewayAssociation.resourceSubnetNatGatewayAssociationCreate
                   InMemory.Nat.imp InMemory.Nat.client) d (Some InMemory.Nat.associated) in
   result r = Fail (ImportAsExistsError "azurerm_subnet_nat_gateway_association"
                      InMemory.Nat.subnetId)
   /\ data (final r) = d
   /\ Observe.submittedSubnets (calls (trace (final r))) = []).
Proof.
  split; [|split; [|split; [|split]]].
  - refine (proj1 (create_conflicts_with_existing_object
                     (option NetworkInterfaceBackendAddressPoolAssociation.Interface))
              InMemory.Nic.imp InMemory.Nic.client
              (InMemory.Nic.creating "internal" (InMemory.Nic.poolId "a"))
              (Some (InMemory.Nic.nic "internal" [InMemory.Nic.pool "a"; InMemory.Nic.pool "b"]))
              InMemory.Nic.parsedNicId _ _ _ _ _ _ _ _ _ _ _ _ _);
      reflexivity.
  - refine (proj1 (proj2 (create_conflicts_with_existing_object
                            (option ResourceGroup.Group)))
              InMemory.Rg.imp InMemory.Rg.client (InMemory.Rg.creating "rg1")
              (Some (InMemory.Rg.group "rg1")) _ _ _ _ _);
      [reflexivity | left; reflexivity | reflexivity | discriminate].
  - refine (proj1 (proj2 (proj2 (create_conflicts_with_existing_object
                                   (option (VirtualMachineScaleSetExtension.VirtualMachineScaleSetExtension string)))))
              string InMemory.Vmss.imp InMemory.Vmss.client (InMemory.Vmss.creating "ext1")
              (Some (InMemory.Vmss.extension "ext1"))
              (VirtualMachineScaleSetExtension.mkScaleSetId "rg" "vmss1") _ _ _ _ _);
      reflexivity.
  - refine (proj1 (proj2 (proj2 (proj2 (create_conflicts_with_existing_object
                                          (option IotHubRoute.IotHubDescription)))))
              InMemory.Hub.imp InMemory.Hub.client (InMemory.Hub.creating "R1")
              (Some (InMemory.Hub.hub [InMemory.Hub.route "r1"])) _ _ _ _ _ _ _ _ _ _ _);
      reflexivity.
  - refine (proj2 (proj2 (proj2 (proj2 (create_conflicts_with_existing_object
                                          (option SubnetNatGatewayAssociation.Subnet)))))
              InMemory.Nat.imp InMemory.Nat.client InMemory.Nat.creating
              (Some InMemory.Nat.associated)
              (SubnetNatGatewayAssociation.mkSubnetId "rg" "vnet1" "subnet1")
              (SubnetNatGatewayAssociation.mkNatGatewayId "gw1") _ _ _ _ _ _ _ _ _ _ _);
      reflexivity.
Defined.

(** ** Delete when the object is already gone *)




(** ** Read when the object is gone *)

Lemma setRouteAttributes_absent (W : Type) (imp : IotHubRoute.imports) (routeName : string)
    (routes : list IotHubRoute.RouteProperties) (s : state W IotHubRoute.apicall) :
  existsb (Observe.isRoute imp routeName) routes = false ->
  IotHubRoute.setRouteAttributes imp routeName routes s = (Return tt, s).
Proof.
  induction routes as [|route rest IH]; simpl; intros H.
  - reflexivity.
  - apply orb_false_iff in H. destruct H as [Hroute Hrest].
    unfold Observe.isRoute in Hroute.
    destruct (IotHubRoute.RouteName route) as [name|].
    + rewrite Hroute. apply IH, Hrest.
    + apply IH, Hrest.
Qed.

(** The Reads that clear the state on drift: the network-interface
    backend-pool association and the subnet NAT-gateway association clear
    the identifier and return success when the parent is "not found". *)
Lemma sibling_reads_clear_the_identifier (W : Type) :
  (forall (imp : NetworkInterfaceBackendAddressPoolAssociation.imports)
          (client : NetworkInterfaceBackendAddressPoolAssociation.InterfacesClient W)
          (d : ResourceData) (w : W) (splitId0 splitId1 : string) (nicID : azure.ResourceID),
      let r := run (NetworkInterfaceBackendAddressPoolAssociation.resourceNetworkInterfaceBackendAddressPoolAssociationRead
                      imp client) d w in
      strings.Split (Id d) bar = [splitId0; splitId1] ->
      NetworkInterfaceBackendAddressPoolAssociation.ParseAzureResourceID imp splitId0
        = inr nicID ->
      NotFound (fst (NetworkInterfaceBackendAddressPoolAssociation.Get client
                       (timeouts.ForRead d) (azure.ResourceGroup nicID)
                       (azure.PathAt nicID "networkInterfaces") "" w)) ->
      result r = Return tt /\ data (final r) = withId d "")
  /\
  (forall (imp : SubnetNatGatewayAssociation.imports)
          (client : SubnetNatGatewayAssociation.SubnetsClient W)
          (d : ResourceData) (w : W) (id : SubnetNatGatewayAssociation.SubnetId),
      let r := run (SubnetNatGatewayAssociation.resourceSubnetNatGatewayAssociationRead
                      imp client) d w in
      SubnetNatGatewayAssociation.parseSubnetID imp (Id d) = inr id ->
      NotFound (fst (SubnetNatGatewayAssociation.Get client (timeouts.ForRead d)
                       (SubnetNatGatewayAssociation.ResourceGroup id)
                       (SubnetNatGatewayAssociation.VirtualNetworkName id)
                       (SubnetNatGatewayAssociation.Name id) "" w)) ->
      result r = Return tt /\ data (final r) = withId d "").
Proof.
  split.
  - intros imp client d w splitId0 splitId1 nicID r Hsplit Hparse [Herr Hnf]. subst r.
    unfold NetworkInterfaceBackendAddressPoolAssociation.resourceNetworkInterfaceBackendAddressPoolAssociationRead,
      NetworkInterfaceBackendAddressPoolAssociation.clientGet.
    handler_unfold. simpl. rewrite Hsplit, Hparse. simpl.
    destruct (NetworkInterfaceBackendAddressPoolAssociation.Get client _ _ _ _ w)
      as [read w'] eqn:E.
    simpl in *. destruct (Err read); [|congruence].
    rewrite Hnf. simpl. auto.
  - intros imp client d w id r Hparse [Herr Hnf]. subst r.
    unfold SubnetNatGatewayAssociation.resourceSubnetNatGatewayAssociationRead,
      SubnetNatGatewayAssociation.clientGet.
    handler_unfold. simpl. rewrite Hparse. simpl.
    destruct (SubnetNatGatewayAssociation.Get client _ _ _ _ _ w) as [subnet w'] eqn:E.
    simpl in *. destruct (Err subnet); [|congruence].
    rewrite Hnf. simpl. auto.
Qed.

(** C1 does not hold of the code.  The Read of the IoT Hub
    route returns the error of the fetch to the host when the hub is "not
    found", with the identifier kept; and when the hub is there but has no
    route of that name, it returns success with the identifier kept as
    well. *)
Theorem iothub_route_read_keeps_the_identifier (W : Type)
    (imp : IotHubRoute.imports) (client : IotHubRoute.ResourceClient W)
    (d : ResourceData) (w : W) (id : azure.ResourceID) :
  let iothubName := azure.PathAt id "IotHubs" in
  let resourceGroup := azure.ResourceGroup id in
  let routeName := azure.PathAt id "Routes" in
  let iothub := fst (IotHubRoute.Get client (timeouts.ForRead d) resourceGroup iothubName w) in
  let r := run (IotHubRoute.resourceIotHubRouteRead imp client) d w in
  IotHubRoute.ParseAzureResourceID imp (Id d) = inr id ->
  (NotFound iothub ->
   exists err,
     Err iothub = Some err
     /\ result r = Fail (Wrapf "Error loading IotHub %q (Resource Group %q): %+v"
                           [iothubName; resourceGroup] err)
     /\ data (final r) = d)
  /\
  (forall routes,
      Err iothub = None ->
      Observe.routesOf (Body iothub) = Some routes ->
      existsb (Observe.isRoute imp routeName) routes = false ->
      result r = Return tt /\ Id (data (final r)) = Id d).
Proof.
  intros iothubName resourceGroup routeName iothub r Hparse.
  subst r iothub iothubName resourceGroup routeName.
  unfold IotHubRoute.resourceIotHubRouteRead, IotHubRoute.clientGet.
  handler_unfold. simpl. rewrite Hparse. simpl.
  destruct (IotHubRoute.Get client _ _ _ w) as [iothub w'] eqn:E. simpl.
  split.
  - intros [Herr Hnf]. destruct (Err iothub) as [err|]; [|congruence].
    exists err. simpl. auto.
  - intros routes Herr Hroutes Habsent. rewrite Herr. simpl.
    unfold Observe.routesOf in Hroutes.
    destruct (IotHubRoute.Properties (Body iothub)) as [properties|]; [|discriminate].
    destruct (IotHubRoute.Routing properties) as [routing|]; [|discriminate].
    rewrite Hroutes.
    rewrite setRouteAttributes_absent by assumption. simpl. auto.
Qed.

(** A route whose hub is gone, and a route that is gone from its hub. *)
Lemma iothub_route_read_keeps_the_identifier_witness :
  let d := InMemory.Hub.existing "r1" in
  let read := IotHubRoute.resourceIotHubRouteRead InMemory.Hub.imp InMemory.Hub.client in
  (result (run read d None)
   = Fail (Wrapf "Error loading IotHub %q (Resource Group %q): %+v" ["hub1"; "rg"]
             InMemory.notFoundError)
   /\ Id (data (final (run read d None))) = Id d)
  /\
  (let w := Some (InMemory.Hub.hub [InMemory.Hub.route "r2"]) in
   result (run read d w) = Return tt /\ Id (data (final (run read d w))) = Id d).
Proof.
  split.
  - destruct (proj1 (@iothub_route_read_keeps_the_identifier _
                       InMemory.Hub.imp InMemory.Hub.client (InMemory.Hub.existing "r1")
                       None (InMemory.Hub.parsedRouteId "r1") eq_refl))
      as [err [Herr [Hresult Hdata]]].
    + split; [discriminate | reflexivity].
    + injection Herr as Herr. subst err. split; [exact Hresult|].
      rewrite Hdata. reflexivity.
  - apply (proj2 (@iothub_route_read_keeps_the_identifier _
                    InMemory.Hub.imp InMemory.Hub.client (InMemory.Hub.existing "r1")
                    (Some (InMemory.Hub.hub [InMemory.Hub.route "r2"]))
                    (InMemory.Hub.parsedRouteId "r1") eq_refl)
             [InMemory.Hub.route "r2"]); reflexivity.
Defined.

(** ** The identifier of the association *)

Section Identifier.

Import NetworkInterfaceBackendAddressPoolAssociation.





Lemma poolFound_existsb (backendAddressPoolId : string)
    (backendPools : list BackendAddressPool) :
  poolFound backendAddressPoolId backendPools
  = existsb (Observe.isPool backendAddressPoolId) backendPools.
Proof.
  induction backendPools as [|pool rest IH]; simpl; [reflexivity|].
  unfold Observe.isPool at 1.
  destruct (PoolID pool) as [id|]; simpl; [|exact IH].
  destruct (String.eqb id backendAddressPoolId); simpl; [reflexivity | exact IH].
Qed.


End Identifier.




(** ** What Read adds to the trace *)

Lemma submittedHubs_app (t u : list IotHubRoute.apicall) :
  Observe.submittedHubs (t ++ u) = Observe.submittedHubs t ++ Observe.submittedHubs u.
Proof.
  induction t as [|c t IH]; simpl; [reflexivity|].
  destruct c; simpl; rewrite IH; reflexivity.
Qed.

(** The loop of the route's Read writes attributes and calls nothing. *)
Lemma setRouteAttributes_trace (W : Type) (imp : IotHubRoute.imports) (routeName : string)
    (routes : list IotHubRoute.RouteProperties) (s : state W IotHubRoute.apicall) :
  fst (IotHubRoute.setRouteAttributes imp routeName routes s) = Return tt
  /\ trace (snd (IotHubRoute.setRouteAttributes imp routeName routes s)) = trace s
  /\ world (snd (IotHubRoute.setRouteAttributes imp routeName routes s)) = world s
  /\ Id (data (snd (IotHubRoute.setRouteAttributes imp routeName routes s))) = Id (data s)
  /\ Timeouts (data (snd (IotHubRoute.setRouteAttributes imp routeName routes s)))
     = Timeouts (data s).
Proof.
  revert s. induction routes as [|route rest IH]; intros s; simpl.
  - auto.
  - destruct (IotHubRoute.RouteName route) as [name|]; [|apply IH].
    destruct (IotHubRoute.EqualFold imp name routeName); [|apply IH].
    handler_unfold. simpl.
    match goal with
    | |- context [IotHubRoute.setRouteAttributes imp routeName rest ?s'] =>
        destruct (IH s') as [H1 [H2 [H3 [H4 H5]]]]
    end.
    simpl in *. auto.
Qed.

(** The Read of the route, run after anything, submits nothing more. *)
Lemma iothub_route_read_submits_nothing (W : Type) (imp : IotHubRoute.imports)
    (client : IotHubRoute.ResourceClient W) (s : state W IotHubRoute.apicall) :
  Observe.submittedHubs
    (calls (trace (snd (IotHubRoute.resourceIotHubRouteRead imp client s))))
  = Observe.submittedHubs (calls (trace s)).
Proof.
  unfold IotHubRoute.resourceIotHubRouteRead, IotHubRoute.clientGet.
  handler_unfold. simpl.
  destruct (IotHubRoute.ParseAzureResourceID imp (Id (data s))); simpl; [reflexivity|].
  destruct (IotHubRoute.Get client _ _ _ (world s)) as [iothub w'] eqn:E. simpl.
  assert (Hget : Observe.submittedHubs
                    (calls (trace s ++ [Api (IotHubRoute.ResourceGet
                                               (timeouts.ForRead (data s))
                                               (azure.ResourceGroup r)
                                               (azure.PathAt r "IotHubs") iothub)]))
                  = Observe.submittedHubs (calls (trace s))).
  { rewrite calls_app, submittedHubs_app. simpl. apply app_nil_r. }
  destruct (Err iothub); simpl; [exact Hget|].
  destruct (IotHubRoute.Properties (Body iothub)) as [properties|]; simpl;
    [|exact Hget].
  destruct (IotHubRoute.Routing properties) as [routing|]; simpl; [|exact Hget].
  destruct (IotHubRoute.Routes routing) as [routes|]; simpl; [|exact Hget].
  match goal with
  | |- context [IotHubRoute.setRouteAttributes imp ?n routes ?s'] =>
      destruct (setRouteAttributes_trace imp n routes s') as [_ [H _]]
  end.
  rewrite H. simpl. exact Hget.
Qed.

(** ** What membership-style Create and Delete submit *)

(** C2 does not hold as stated: of the two pools the IP configuration
    has, the one without an ID is not in the collection that Create
    submits. *)
Lemma create_preserves_siblings_counterexample :
  let existing := [InMemory.Nic.orphan; InMemory.Nic.pool "a"] in
  let added := NetworkInterfaceBackendAddressPoolAssociation.mkBackendAddressPool
                 (Some (InMemory.Nic.poolId "c")) None None in
  let r := run (NetworkInterfaceBackendAddressPoolAssociation.resourceNetworkInterfaceBackendAddressPoolAssociationCreate
                  InMemory.Nic.imp InMemory.Nic.client)
             (InMemory.Nic.creating "internal" (InMemory.Nic.poolId "c"))
             (Some (InMemory.Nic.nic "internal" existing)) in
  result r = Return tt
  /\ map InMemory.Nic.poolsOf (Observe.submittedInterfaces (calls (trace (final r))))
     = [Some [InMemory.Nic.pool "a"; added]]
  /\ [InMemory.Nic.pool "a"; added] <> existing ++ [added].
Proof.
  repeat split; try discriminate; reflexivity.
Qed.

(** C2, amended.  A Create that gets as far as submitting submits once, and
    the collection it submits is the entries of the pre-existing collection
    that have an identifier, in their order and whole, followed by the new
    entry: for the network-interface backend-pool association the pools of
    the IP configuration handed to [updateNetworkInterfaceIPConfiguration],
    for the IoT Hub route the routes of a hub that has a routing block. *)
Theorem create_preserves_identified_siblings (W : Type) :
  (forall (imp : NetworkInterfaceBackendAddressPoolAssociation.imports)
          (client : NetworkInterfaceBackendAddressPoolAssociation.InterfacesClient W)
          (d : ResourceData) (w : W) (id : azure.ResourceID)
          props configs config p,
      let ipConfigurationName := GetString d "ip_configuration_name" in
      let backendAddressPoolId := GetString d "backend_address_pool_id" in
      let read := fst (NetworkInterfaceBackendAddressPoolAssociation.Get client
                         (timeouts.ForCreate d) (azure.ResourceGroup id)
                         (azure.PathAt id "networkInterfaces") "" w) in
      let existing :=
        match NetworkInterfaceBackendAddressPoolAssociation.LoadBalancerBackendAddressPools p with
        | Some pools => pools
        | None => []
        end in
      let r := run (NetworkInterfaceBackendAddressPoolAssociation.resourceNetworkInterfaceBackendAddressPoolAssociationCreate
                      imp client) d w in
      NetworkInterfaceBackendAddressPoolAssociation.ParseAzureResourceID imp
        (GetString d "network_interface_id") = inr id ->
      Err read = None ->
      NetworkInterfaceBackendAddressPoolAssociation.InterfaceProperties (Body read)
        = Some props ->
      NetworkInterfaceBackendAddressPoolAssociation.IPConfigurations props = Some configs ->
      NetworkInterfaceBackendAddressPoolAssociation.FindNetworkInterfaceIPConfiguration imp
        (Some configs) ipConfigurationName = Some config ->
      NetworkInterfaceBackendAddressPoolAssociation.IPConfigurationProperties config
        = Some p ->
      existsb (Observe.isPool backendAddressPoolId) existing = false ->
      Observe.submittedInterfaces (calls (trace (final r)))
      = [NetworkInterfaceBackendAddressPoolAssociation.withIPConfigurations (Body read) props
           (NetworkInterfaceBackendAddressPoolAssociation.updateNetworkInterfaceIPConfiguration
              imp
              (NetworkInterfaceBackendAddressPoolAssociation.withProperties config
                 (NetworkInterfaceBackendAddressPoolAssociation.withPools p
                    (filter Observe.hasID existing
                       ++ [NetworkInterfaceBackendAddressPoolAssociation.mkBackendAddressPool
                             (Some backendAddressPoolId) None None])))
              (Some configs))])
  /\
  (forall (imp : IotHubRoute.imports) (client : IotHubRoute.ResourceClient W)
          (d : ResourceData) (w : W) (hubId : string) properties routing,
      let routeName := GetString d "name" in
      let route := IotHubRoute.mkRouteProperties (Some routeName) (GetString d "source")
                     (Some (GetString d "condition"))
                     (Some (GetStrings d "endpoint_names")) (Some (GetBool d "enabled")) in
      let iothub := fst (IotHubRoute.Get client (timeouts.ForCreateUpdate d)
                           (GetString d "resource_group_name")
                           (GetString d "iothub_name") w) in
      let existing :=
        match IotHubRoute.Routes routing with
        | Some routes => routes
        | None => []
        end in
      let r := run (IotHubRoute.resourceIotHubRouteCreateUpdate imp client) d w in
      IsNewResource d = true ->
      Err iothub = None ->
      IotHubRoute.HubID (Body iothub) = Some hubId ->
      IotHubRoute.Properties (Body iothub) = Some properties ->
      IotHubRoute.Routing properties = Some routing ->
      existsb (Observe.isRoute imp routeName) existing = false ->
      exists submitted,
        Observe.submittedHubs (calls (trace (final r))) = [submitted]
        /\ submitted = IotHubRoute.withRoutes (Body iothub) properties
                         (filter Observe.hasName existing ++ [route])
        /\ Observe.routesOf submitted = Some (filter Observe.hasName existing ++ [route])).
Proof.
  split.
  - intros imp client d w id props configs config p
      ipConfigurationName backendAddressPoolId read existing r
      Hparse Herr Hprops Hconfigs Hfind Hp Habsent.
    subst r read ipConfigurationName backendAddressPoolId existing.
    unfold NetworkInterfaceBackendAddressPoolAssociation.resourceNetworkInterfaceBackendAddressPoolAssociationCreate,
      NetworkInterfaceBackendAddressPoolAssociation.resourceNetworkInterfaceBackendAddressPoolAssociationRead,
      NetworkInterfaceBackendAddressPoolAssociation.clientGet,
      NetworkInterfaceBackendAddressPoolAssociation.clientCreateOrUpdate,
      NetworkInterfaceBackendAddressPoolAssociation.futureWaitForCompletionRef.
    handler_unfold. simpl. rewrite Hparse. simpl.
    destruct (NetworkInterfaceBackendAddressPoolAssociation.Get client _ _ _ _ w)
      as [read w'] eqn:E.
    simpl in *. rewrite Herr, Hprops. simpl. rewrite Hconfigs, Hfind, Hp.
    destruct (NetworkInterfaceBackendAddressPoolAssociation.LoadBalancerBackendAddressPools p)
      as [pools|].
    + rewrite existingPools_absent by assumption. simpl.
      branches; reflexivity.
    + simpl. branches; reflexivity.
  - intros imp client d w hubId properties routing routeName route iothub existing r
      Hnew Herr Hid Hproperties Hrouting Habsent.
    subst r iothub routeName existing.
    eexists. split; [|split; [reflexivity|]].
    + unfold IotHubRoute.resourceIotHubRouteCreateUpdate, IotHubRoute.clientGet,
        IotHubRoute.clientCreateOrUpdate, IotHubRoute.futureWaitForCompletionRef.
      handler_unfold. simpl.
      destruct (IotHubRoute.Get client _ _ _ w) as [iothub w'] eqn:E.
      simpl in *. rewrite Herr, Hid, Hproperties. simpl. rewrite Hrouting, Hnew.
      rewrite existingRoutes_absent by assumption. simpl.
      destruct (IotHubRoute.CreateOrUpdate client _ _ _ _ _ w') as [err w2] eqn:E2.
      simpl. destruct err as [err|]; simpl; [reflexivity|].
      destruct (IotHubRoute.FutureWaitForCompletionRef client _ w2) as [err w3] eqn:E3.
      simpl. destruct err as [err|]; simpl; [reflexivity|].
      match goal with
      | |- context [IotHubRoute.resourceIotHubRouteRead imp client ?st] =>
          pose proof (iothub_route_read_submits_nothing imp client st) as Hread;
          destruct (IotHubRoute.resourceIotHubRouteRead imp client st) as [o s'] eqn:ER
      end.
      simpl in *. rewrite calls_app, submittedHubs_app, Hread. reflexivity.
    + unfold IotHubRoute.withRoutes, Observe.routesOf. rewrite Hrouting. reflexivity.
Qed.

(** A pool added next to two others, and a route added next to another. *)
Lemma create_preserves_identified_siblings_witness :
  (let existing := [InMemory.Nic.pool "a"; InMemory.Nic.orphan; InMemory.Nic.pool "b"] in
   let r := run (NetworkInterfaceBackendAddressPoolAssociation.resourceNetworkInterfaceBackendAddressPoolAssociationCreate
                   InMemory.Nic.imp InMemory.Nic.client)
              (InMemory.Nic.creating "internal" (InMemory.Nic.poolId "c"))
              (Some (InMemory.Nic.nic "internal" existing)) in
   map InMemory.Nic.poolsOf (Observe.submittedInterfaces (calls (trace (final r))))
   = [Some [InMemory.Nic.pool "a"; InMemory.Nic.pool "b";
            NetworkInterfaceBackendAddressPoolAssociation.mkBackendAddressPool
              (Some (InMemory.Nic.poolId "c")) None None]])
  /\
  (let r := run (IotHubRoute.resourceIotHubRouteCreateUpdate
                   InMemory.Hub.imp InMemory.Hub.client) (InMemory.Hub.creating "r1")
              (Some (InMemory.Hub.hub [InMemory.Hub.route "r2"])) in
   map Observe.routesOf (Observe.submittedHubs (calls (trace (final r))))
   = [Some [InMemory.Hub.route "r2"; InMemory.Hub.route "r1"]]).
Proof.
  split.
  - intros existing r. subst r.
    rewrite (proj1 (create_preserves_identified_siblings
                      (option NetworkInterfaceBackendAddressPoolAssociation.Interface))
               InMemory.Nic.imp InMemory.Nic.client
               (InMemory.Nic.creating "internal" (InMemory.Nic.poolId "c"))
               (Some (InMemory.Nic.nic "internal" existing))
               InMemory.Nic.parsedNicId _ _ _ _
               eq_refl eq_refl eq_refl eq_refl eq_refl eq_refl eq_refl).
    reflexivity.
  - intros r.
    destruct (proj2 (create_preserves_identified_siblings
                       (option IotHubRoute.IotHubDescription))
                InMemory.Hub.imp InMemory.Hub.client (InMemory.Hub.creating "r1")
                (Some (InMemory.Hub.hub [InMemory.Hub.route "r2"]))
                InMemory.Hub.hubId
                (IotHubRoute.mkIotHubProperties
                   (Some (IotHubRoute.mkRoutingProperties
                            (Some [InMemory.Hub.route "r2"]) None))
                   (Some "hub1.azure-devices.net"))
                (IotHubRoute.mkRoutingProperties (Some [InMemory.Hub.route "r2"]) None)
                eq_refl eq_refl eq_refl eq_refl eq_refl eq_refl)
      as [submitted [Hsubmitted [_ Hroutes]]].
    subst r. rewrite Hsubmitted. simpl. rewrite Hroutes. reflexivity.
Defined.

(** C3 does not hold as stated: when the pool [b] is deleted, the pool
    without an ID, which does not match [b], is not in the collection that
    Delete submits. *)
Lemma delete_removes_only_the_target_counterexample :
  let input := [InMemory.Nic.orphan; InMemory.Nic.pool "b"; InMemory.Nic.pool "c"] in
  let r := run (NetworkInterfaceBackendAddressPoolAssociation.resourceNetworkInterfaceBackendAddressPoolAssociationDelete
                  InMemory.Nic.imp InMemory.Nic.client)
             (InMemory.Nic.existing "internal" (InMemory.Nic.poolId "b"))
             (Some (InMemory.Nic.nic "internal" input)) in
  result r = Return tt
  /\ map InMemory.Nic.poolsOf (Observe.submittedInterfaces (calls (trace (final r))))
     = [Some [InMemory.Nic.pool "c"]]
  /\ filter (fun pool => negb (Observe.isPool (InMemory.Nic.poolId "b") pool)) input
     = [InMemory.Nic.orphan; InMemory.Nic.pool "c"]
  /\ [InMemory.Nic.pool "c"] <> [InMemory.Nic.orphan; InMemory.Nic.pool "c"].
Proof.
  repeat split; try discriminate; reflexivity.
Qed.

(** C3, amended.  A Delete that gets as far as submitting submits once, and
    the collection it submits is the input collection without the entries
    that match the targeted identifier and without the entries that have no
    identifier; every other entry is kept, in its order and whole.  For the
    network-interface backend-pool association the match is equality of
    the pool ID, for the IoT Hub route it is [strings.EqualFold] on the
    name. *)
Theorem delete_removes_the_target_and_keeps_identified_siblings (W : Type) :
  (forall (imp : NetworkInterfaceBackendAddressPoolAssociation.imports)
          (client : NetworkInterfaceBackendAddressPoolAssociation.InterfacesClient W)
          (d : ResourceData) (w : W) (splitId0 backendAddressPoolId : string)
          (nicID : azure.ResourceID) props configs config p,
      let read := fst (NetworkInterfaceBackendAddressPoolAssociation.Get client
                         (timeouts.ForDelete d) (azure.ResourceGroup nicID)
                         (azure.PathAt nicID "networkInterfaces") "" w) in
      let input :=
        match NetworkInterfaceBackendAddressPoolAssociation.LoadBalancerBackendAddressPools p with
        | Some pools => pools
        | None => []
        end in
      let r := run (NetworkInterfaceBackendAddressPoolAssociation.resourceNetworkInterfaceBackendAddressPoolAssociationDelete
                      imp client) d w in
      strings.Split (Id d) bar = [splitId0; backendAddressPoolId] ->
      NetworkInterfaceBackendAddressPoolAssociation.ParseAzureResourceID imp splitId0
        = inr nicID ->
      Err read = None ->
      NetworkInterfaceBackendAddressPoolAssociation.InterfaceProperties (Body read)
        = Some props ->
      NetworkInterfaceBackendAddressPoolAssociation.IPConfigurations props = Some configs ->
      NetworkInterfaceBackendAddressPoolAssociation.FindNetworkInterfaceIPConfiguration imp
        (Some configs) (azure.PathAt nicID "ipConfigurations") = Some config ->
      NetworkInterfaceBackendAddressPoolAssociation.IPConfigurationProperties config
        = Some p ->
      Observe.submittedInterfaces (calls (trace (final r)))
      = [NetworkInterfaceBackendAddressPoolAssociation.withIPConfigurations (Body read) props
           (NetworkInterfaceBackendAddressPoolAssociation.updateNetworkInterfaceIPConfiguration
              imp
              (NetworkInterfaceBackendAddressPoolAssociation.withProperties config
                 (NetworkInterfaceBackendAddressPoolAssociation.withPools p
                    (filter (fun pool =>
                               Observe.hasID pool
                               && negb (Observe.isPool backendAddressPoolId pool))
                       input)))
              (Some configs))])
  /\
  (forall (imp : IotHubRoute.imports) (client : IotHubRoute.ResourceClient W)
          (d : ResourceData) (w : W) (id : azure.ResourceID) properties routing input,
      let routeName := azure.PathAt id "Routes" in
      let iothub := fst (IotHubRoute.Get client (timeouts.ForDelete d)
                           (azure.ResourceGroup id) (azure.PathAt id "IotHubs") w) in
      let kept := filter (fun route =>
                            Observe.hasName route
                            && negb (Observe.isRoute imp routeName route))
                    input in
      let r := run (IotHubRoute.resourceIotHubRouteDelete imp client) d w in
      IotHubRoute.ParseAzureResourceID imp (Id d) = inr id ->
      Err iothub = None ->
      IotHubRoute.Properties (Body iothub) = Some properties ->
      IotHubRoute.Routing properties = Some routing ->
      IotHubRoute.Routes routing = Some input ->
      exists submitted,
        Observe.submittedHubs (calls (trace (final r))) = [submitted]
        /\ submitted = IotHubRoute.withRoutes (Body iothub) properties kept
        /\ Observe.routesOf submitted = Some kept).
Proof.
  split.
  - intros imp client d w splitId0 backendAddressPoolId nicID props configs config p
      read input r Hsplit Hparse Herr Hprops Hconfigs Hfind Hp.
    subst r read input.
    unfold NetworkInterfaceBackendAddressPoolAssociation.resourceNetworkInterfaceBackendAddressPoolAssociationDelete,
      NetworkInterfaceBackendAddressPoolAssociation.clientGet,
      NetworkInterfaceBackendAddressPoolAssociation.clientCreateOrUpdate,
      NetworkInterfaceBackendAddressPoolAssociation.futureWaitForCompletionRef.
    handler_unfold. simpl. rewrite Hsplit, Hparse. simpl.
    destruct (NetworkInterfaceBackendAddressPoolAssociation.Get client _ _ _ _ w)
      as [read w'] eqn:E.
    simpl in *. rewrite Herr, Hprops. simpl. rewrite Hconfigs, Hfind, Hp.
    destruct (NetworkInterfaceBackendAddressPoolAssociation.LoadBalancerBackendAddressPools p)
      as [pools|].
    + rewrite remainingPools_filter. simpl. branches; reflexivity.
    + simpl. branches; reflexivity.
  - intros imp client d w id properties routing input routeName iothub kept r
      Hparse Herr Hproperties Hrouting Hroutes.
    subst r iothub routeName kept.
    eexists. split; [|split; [reflexivity|]].
    + unfold IotHubRoute.resourceIotHubRouteDelete, IotHubRoute.clientGet,
        IotHubRoute.clientCreateOrUpdate, IotHubRoute.futureWaitForCompletionRef.
      handler_unfold. simpl. rewrite Hparse. simpl.
      destruct (IotHubRoute.Get client _ _ _ w) as [iothub w'] eqn:E.
      simpl in *. rewrite Herr, Hproperties. rewrite Hrouting, Hroutes.
      rewrite updatedRoutes_filter. simpl.
      branches; reflexivity.
    + unfold IotHubRoute.withRoutes, Observe.routesOf. rewrite Hrouting. reflexivity.
Qed.

(** The pool [b] taken out from between two others, and the route [R1]
    taken out of a hub that has it as [r1]. *)
Lemma delete_removes_the_target_and_keeps_identified_siblings_witness :
  (let input := [InMemory.Nic.pool "a"; InMemory.Nic.pool "b"; InMemory.Nic.pool "c"] in
   let r := run (NetworkInterfaceBackendAddressPoolAssociation.resourceNetworkInterfaceBackendAddressPoolAssociationDelete
                   InMemory.Nic.imp InMemory.Nic.client)
              (InMemory.Nic.existing "internal" (InMemory.Nic.poolId "b"))
              (Some (InMemory.Nic.nic "internal" input)) in
   map InMemory.Nic.poolsOf (Observe.submittedInterfaces (calls (trace (final r))))
   = [Some [InMemory.Nic.pool "a"; InMemory.Nic.pool "c"]])
  /\
  (let r := run (IotHubRoute.resourceIotHubRouteDelete
                   InMemory.Hub.imp InMemory.Hub.client) (InMemory.Hub.existing "R1")
              (Some (InMemory.Hub.hub [InMemory.Hub.route "r0"; InMemory.Hub.route "r1";
                                       InMemory.Hub.route "r2"])) in
   map Observe.routesOf (Observe.submittedHubs (calls (trace (final r))))
   = [Some [InMemory.Hub.route "r0"; InMemory.Hub.route "r2"]]).
Proof.
  split.
  - intros input r. subst r.
    rewrite (proj1 (delete_removes_the_target_and_keeps_identified_siblings
                      (option NetworkInterfaceBackendAddressPoolAssociation.Interface))
               InMemory.Nic.imp InMemory.Nic.client
               (InMemory.Nic.existing "internal" (InMemory.Nic.poolId "b"))
               (Some (InMemory.Nic.nic "internal" input))
               _ _ InMemory.Nic.parsedAssociationId _ _ _ _
               eq_refl eq_refl eq_refl eq_refl eq_refl eq_refl eq_refl).
    reflexivity.
  - intros r.
    destruct (proj2 (delete_removes_the_target_and_keeps_identified_siblings
                       (option IotHubRoute.IotHubDescription))
                InMemory.Hub.imp InMemory.Hub.client (InMemory.Hub.existing "R1")
                (Some (InMemory.Hub.hub [InMemory.Hub.route "r0"; InMemory.Hub.route "r1";
                                         InMemory.Hub.route "r2"]))
                (InMemory.Hub.parsedRouteId "R1") _ _ _
                eq_refl eq_refl eq_refl eq_refl eq_refl)
      as [submitted [Hsubmitted [_ Hroutes]]].
    subst r. rewrite Hsubmitted. simpl. rewrite Hroutes. reflexivity.
Defined.

(** ** Entries without an identifier *)












(** ** What Create leaves behind when it fails *)

(** C8.  The Create of the network-interface backend-pool association and
    of the backup protection container leave the resource data exactly as
    they found it unless the mutation was submitted without error and then
    awaited without error (and, for the container, fetched again without
    error): no failure of the parent fetch, of the existence check, of the
    submission or of the wait changes the identifier or an attribute. *)
Theorem create_persists_nothing_before_the_mutation_completed (W : Type) :
  (forall (imp : NetworkInterfaceBackendAddressPoolAssociation.imports)
          (client : NetworkInterfaceBackendAddressPoolAssociation.InterfacesClient W)
          (d : ResourceData) (w : W),
      let r := run (NetworkInterfaceBackendAddressPoolAssociation.resourceNetworkInterfaceBackendAddressPoolAssociationCreate
                      imp client) d w in
      data (final r) = d
      \/ exists ctx resourceGroup name parameters before after,
           calls (trace (final r))
           = before
             ++ NetworkInterfaceBackendAddressPoolAssociation.InterfacesCreateOrUpdate
                  ctx resourceGroup name parameters None
             :: NetworkInterfaceBackendAddressPoolAssociation.WaitForCompletionRef ctx None
             :: after)
  /\
  (forall (imp : BackupProtectionContainerStorageAccount.imports)
          (clients : BackupProtectionContainerStorageAccount.Clients W)
          (d : ResourceData) (w : W),
      let r := run (BackupProtectionContainerStorageAccount.resourceBackupProtectionContainerStorageAccountCreate
                      imp clients) d w in
      data (final r) = d
      \/ exists ctx vaultName resourceGroup fabricName containerName parameters
                registration timeout status resp before after,
           calls (trace (final r))
           = before
             ++ BackupProtectionContainerStorageAccount.ContainersRegister
                  ctx vaultName resourceGroup fabricName containerName parameters registration
             :: BackupProtectionContainerStorageAccount.WaitForStateContext
                  ctx timeout (Some status, None)
             :: BackupProtectionContainerStorageAccount.ContainersGet
                  ctx vaultName resourceGroup fabricName containerName resp
             :: after
           /\ Err (BackupProtectionContainerStorageAccount.Registered registration) = None
           /\ Err resp = None).
Proof.
  split.
  - intros imp client d w r. subst r.
    unfold NetworkInterfaceBackendAddressPoolAssociation.resourceNetworkInterfaceBackendAddressPoolAssociationCreate,
      NetworkInterfaceBackendAddressPoolAssociation.resourceNetworkInterfaceBackendAddressPoolAssociationRead,
      NetworkInterfaceBackendAddressPoolAssociation.clientGet,
      NetworkInterfaceBackendAddressPoolAssociation.clientCreateOrUpdate,
      NetworkInterfaceBackendAddressPoolAssociation.futureWaitForCompletionRef.
    handler_unfold. branches.
    all: first [ left; reflexivity
               | right; do 4 eexists; eexists (cons _ nil); eexists; reflexivity ].
  - intros imp clients d w r. subst r.
    unfold BackupProtectionContainerStorageAccount.resourceBackupProtectionContainerStorageAccountCreate,
      BackupProtectionContainerStorageAccount.resourceBackupProtectionContainerStorageAccountRead,
      BackupProtectionContainerStorageAccount.resourceBackupProtectionContainerStorageAccountWaitForOperation,
      BackupProtectionContainerStorageAccount.clientGet,
      BackupProtectionContainerStorageAccount.clientRegister.
    handler_unfold. branches.
    all: try (left; reflexivity).
    all: repeat match goal with
                | p : (option _ * option _)%type |- _ => destruct p; simpl in *; subst
                end.
    all: first [ right; do 10 eexists; eexists (cons _ nil); eexists;
                 split; [reflexivity | split; assumption]
               | right; do 10 eexists; exists nil; eexists;
                 split; [reflexivity | split; assumption] ].
Qed.

(** ** The deadline of Create *)

(** C9 does not hold of the code.  Every call that the
    Create of the backup protection container makes, the registration and
    the wait for it included, is made under the context of the read
    timeout; with the timeouts of the resource that is 5 minutes, where the
    create timeout is 30. *)
Theorem backup_container_create_runs_under_the_read_timeout (W : Type) :
  (forall (imp : BackupProtectionContainerStorageAccount.imports)
          (clients : BackupProtectionContainerStorageAccount.Clients W)
          (d : ResourceData) (w : W),
      Forall (fun c => Observe.backupCallContext c = timeouts.ForRead d)
        (calls (trace (final (run (BackupProtectionContainerStorageAccount.resourceBackupProtectionContainerStorageAccountCreate
                                     imp clients) d w)))))
  /\
  (let d := InMemory.Backup.creating in
   let r := run (BackupProtectionContainerStorageAccount.resourceBackupProtectionContainerStorageAccountCreate
                   InMemory.Backup.imp InMemory.Backup.clients) d None in
   result r = Return tt
   /\ Id (data (final r)) = InMemory.Backup.containerId
   /\ map (fun c => Deadline (Observe.backupCallContext c)) (calls (trace (final r)))
      = [5 * Minute; 5 * Minute; 5 * Minute; 5 * Minute; 5 * Minute]%Z
   /\ Deadline (timeouts.ForCreate d) = (30 * Minute)%Z).
Proof.
  split.
  - intros imp clients d w.
    unfold BackupProtectionContainerStorageAccount.resourceBackupProtectionContainerStorageAccountCreate,
      BackupProtectionContainerStorageAccount.resourceBackupProtectionContainerStorageAccountRead,
      BackupProtectionContainerStorageAccount.resourceBackupProtectionContainerStorageAccountWaitForOperation,
      BackupProtectionContainerStorageAccount.clientGet,
      BackupProtectionContainerStorageAccount.clientRegister.
    handler_unfold. branches.
    all: repeat constructor.
  - repeat split; reflexivity.
Qed.

(** ** Reads only fetch *)

(** What the Read of the route leaves in the trace: nothing, or the fetch of
    the hub under the read deadline. *)
Lemma iothub_route_read_trace (W : Type) (imp : IotHubRoute.imports)
    (client : IotHubRoute.ResourceClient W) (s : state W IotHubRoute.apicall) :
  trace (snd (IotHubRoute.resourceIotHubRouteRead imp client s)) = trace s
  \/ exists resourceGroup name iothub,
       trace (snd (IotHubRoute.resourceIotHubRouteRead imp client s))
       = trace s ++ [Api (IotHubRoute.ResourceGet (timeouts.ForRead (data s))
                            resourceGroup name iothub)].
Proof.
  unfold IotHubRoute.resourceIotHubRouteRead, IotHubRoute.clientGet.
  handler_unfold. simpl.
  destruct (IotHubRoute.ParseAzureResourceID imp (Id (data s))); simpl; [left; reflexivity|].
  destruct (IotHubRoute.Get client _ _ _ (world s)) as [iothub w'] eqn:E. simpl.
  right. do 3 eexists.
  destruct (Err iothub); simpl; [reflexivity|].
  destruct (IotHubRoute.Properties (Body iothub)) as [properties|]; simpl; [|reflexivity].
  destruct (IotHubRoute.Routing properties) as [routing|]; simpl; [|reflexivity].
  destruct (IotHubRoute.Routes routing) as [routes|]; simpl; [|reflexivity].
  match goal with
  | |- context [IotHubRoute.setRouteAttributes imp ?n routes ?s'] =>
      destruct (setRouteAttributes_trace imp n routes s') as [_ [H _]]
  end.
  rewrite H. reflexivity.
Qed.

Lemma only_app (C : Type) (isGet : C -> bool) (t u : list (event C)) :
  Fetches.only isGet (t ++ u) = Fetches.only isGet t && Fetches.only isGet u.
Proof.
  unfold Fetches.only. apply forallb_app.
Qed.

(** X1.  The Read of an association only fetches.  Whatever the
    identifier and whatever the remote side answers, the Read of the
    network-interface backend-pool association, of the IoT Hub route and of
    the subnet NAT-gateway association take no lock and make no call other
    than one [Get] of the parent, at most. *)
Theorem association_reads_only_fetch (W : Type) (d : ResourceData) (w : W) :
  (forall imp client,
      let t := trace (final (run (NetworkInterfaceBackendAddressPoolAssociation.resourceNetworkInterfaceBackendAddressPoolAssociationRead
                                    imp client) d w)) in
      Fetches.only Fetches.interfaceGet t = true /\ (length t <= 1)%nat)
  /\
  (forall imp client,
      let t := trace (final (run (IotHubRoute.resourceIotHubRouteRead imp client) d w)) in
      Fetches.only Fetches.hubGet t = true /\ (length t <= 1)%nat)
  /\
  (forall imp client,
      let t := trace (final (run (SubnetNatGatewayAssociation.resourceSubnetNatGatewayAssociationRead
                                    imp client) d w)) in
      Fetches.only Fetches.subnetGet t = true /\ (length t <= 1)%nat).
Proof.
  repeat split.
  1,2: unfold NetworkInterfaceBackendAddressPoolAssociation.resourceNetworkInterfaceBackendAddressPoolAssociationRead,
         NetworkInterfaceBackendAddressPoolAssociation.clientGet;
       handler_unfold; branches; solve [reflexivity | auto].
  1,2: destruct (iothub_route_read_trace imp client (mkState d w []))
         as [H | [resourceGroup [name [iothub H]]]];
       unfold final, run; rewrite H; simpl; solve [reflexivity | auto].
  1,2: unfold SubnetNatGatewayAssociation.resourceSubnetNatGatewayAssociationRead,
         SubnetNatGatewayAssociation.clientGet;
       handler_unfold; branches; solve [reflexivity | auto].
Qed.

(** X2.  The Read of a resource only fetches.  Whatever the identifier
    and whatever the remote side answers, the Read of the resource group,
    of the backup protection container and of the site recovery protection
    container take no lock and make no call other than one [Get], at most;
    the Read of the scale-set extension makes at most two, the [Get] of the
    scale set and then that of the extension. *)
Theorem resource_reads_only_fetch (W : Type) (d : ResourceData) (w : W) :
  (forall imp client,
      let t := trace (final (run (ResourceGroup.resourceResourceGroupRead imp client) d w)) in
      Fetches.only Fetches.groupGet t = true /\ (length t <= 1)%nat)
  /\
  (forall json (imp : VirtualMachineScaleSetExtension.imports json) clients,
      let t := trace (final (run (VirtualMachineScaleSetExtension.resourceVirtualMachineScaleSetExtensionRead
                                    imp clients) d w)) in
      Fetches.only (@Fetches.extensionGet json) t = true /\ (length t <= 2)%nat)
  /\
  (forall imp clients,
      let t := trace (final (run (BackupProtectionContainerStorageAccount.resourceBackupProtectionContainerStorageAccountRead
                                    imp clients) d w)) in
      Fetches.only Fetches.containerGet t = true /\ (length t <= 1)%nat)
  /\
  (forall imp client,
      let t := trace (final (run (SiteRecoveryProtectionContainer.resourceSiteRecoveryProtectionContainerRead
                                    imp client) d w)) in
      Fetches.only MoreDeadlines.containerGet t = true /\ (length t <= 1)%nat).
Proof.
  repeat split.
  1,2: unfold ResourceGroup.resourceResourceGroupRead, ResourceGroup.clientGet;
       handler_unfold; branches; solve [reflexivity | auto].
  1,2: unfold VirtualMachineScaleSetExtension.resourceVirtualMachineScaleSetExtensionRead,
         VirtualMachineScaleSetExtension.clientGet,
         VirtualMachineScaleSetExtension.vmssClientGet;
       handler_unfold; branches; solve [reflexivity | auto].
  1,2: unfold BackupProtectionContainerStorageAccount.resourceBackupProtectionContainerStorageAccountRead,
         BackupProtectionContainerStorageAccount.clientGet;
       handler_unfold; branches; solve [reflexivity | auto].
  1,2: unfold SiteRecoveryProtectionContainer.resourceSiteRecoveryProtectionContainerRead,
         SiteRecoveryProtectionContainer.clientGet;
       handler_unfold; branches; solve [reflexivity | auto].
Qed.

(** ** The locks *)

Ltac after_route_read :=
  match goal with
  | H : IotHubRoute.resourceIotHubRouteRead ?imp ?client ?st = (_, _) |- _ =>
      let T := fresh "T" in
      destruct (iothub_route_read_trace imp client st) as [T | [? [? [? T]]]];
      rewrite H in T; simpl in T; rewrite T; clear H T
  end.

Ltac locks_leaf :=
  unfold Locking.holds; simpl; rewrite ?String.eqb_refl; simpl;
  rewrite ?String.eqb_refl, ?orb_true_r; reflexivity.

(** X3.  The handlers that rewrite a collection of their parent release
    the lock they took on every way out, and write to the parent only while
    they hold the lock that bears its name: the Create and the Delete of
    the network-interface backend-pool association the lock of the network
    interface, the CreateUpdate and the Delete of the IoT Hub route the
    lock of the hub.  No lock is held when they return. *)
Theorem membership_handlers_keep_the_lock_discipline (W : Type) (d : ResourceData) (w : W) :
  (forall imp client,
      Locking.disciplined (Locking.interfaceWriteLocked imp)
        (trace (final (run (NetworkInterfaceBackendAddressPoolAssociation.resourceNetworkInterfaceBackendAddressPoolAssociationCreate
                              imp client) d w))) [] = true
      /\ Locking.disciplined (Locking.interfaceWriteLocked imp)
           (trace (final (run (NetworkInterfaceBackendAddressPoolAssociation.resourceNetworkInterfaceBackendAddressPoolAssociationDelete
                                 imp client) d w))) [] = true)
  /\
  (forall imp client,
      Locking.disciplined (Locking.hubWriteLocked imp)
        (trace (final (run (IotHubRoute.resourceIotHubRouteCreateUpdate imp client) d w))) []
      = true
      /\ Locking.disciplined (Locking.hubWriteLocked imp)
           (trace (final (run (IotHubRoute.resourceIotHubRouteDelete imp client) d w))) []
         = true).
Proof.
  split.
  - intros imp client. split.
    + unfold NetworkInterfaceBackendAddressPoolAssociation.resourceNetworkInterfaceBackendAddressPoolAssociationCreate,
        NetworkInterfaceBackendAddressPoolAssociation.resourceNetworkInterfaceBackendAddressPoolAssociationRead,
        NetworkInterfaceBackendAddressPoolAssociation.clientGet,
        NetworkInterfaceBackendAddressPoolAssociation.clientCreateOrUpdate,
        NetworkInterfaceBackendAddressPoolAssociation.futureWaitForCompletionRef.
      handler_unfold. branches. all: locks_leaf.
    + unfold NetworkInterfaceBackendAddressPoolAssociation.resourceNetworkInterfaceBackendAddressPoolAssociationDelete,
        NetworkInterfaceBackendAddressPoolAssociation.clientGet,
        NetworkInterfaceBackendAddressPoolAssociation.clientCreateOrUpdate,
        NetworkInterfaceBackendAddressPoolAssociation.futureWaitForCompletionRef.
      handler_unfold. branches. all: locks_leaf.
  - intros imp client. split.
    + unfold IotHubRoute.resourceIotHubRouteCreateUpdate, IotHubRoute.clientGet,
        IotHubRoute.clientCreateOrUpdate, IotHubRoute.futureWaitForCompletionRef.
      handler_unfold. branches.
      all: try after_route_read.
      all: locks_leaf.
    + unfold IotHubRoute.resourceIotHubRouteDelete, IotHubRoute.clientGet,
        IotHubRoute.clientCreateOrUpdate, IotHubRoute.futureWaitForCompletionRef.
      handler_unfold. branches. all: locks_leaf.
Qed.

(** X4.  The Create and the Delete of the subnet NAT-gateway association
    release the locks they took, the one taken last first, on every way
    out, and write to the subnet only while they hold the lock of its
    virtual network and the lock of a NAT gateway.  No lock is held when
    they return. *)
Theorem subnet_handlers_keep_the_lock_discipline (W : Type) (d : ResourceData) (w : W)
    (imp : SubnetNatGatewayAssociation.imports) (client : SubnetNatGatewayAssociation.SubnetsClient W) :
  Locking.disciplined (Locking.subnetWriteLocked imp)
    (trace (final (run (SubnetNatGatewayAssociation.resourceSubnetNatGatewayAssociationCreate
                          imp client) d w))) [] = true
  /\ Locking.disciplined (Locking.subnetWriteLocked imp)
       (trace (final (run (SubnetNatGatewayAssociation.resourceSubnetNatGatewayAssociationDelete
                             imp client) d w))) [] = true.
Proof.
  split.
  - unfold SubnetNatGatewayAssociation.resourceSubnetNatGatewayAssociationCreate,
      SubnetNatGatewayAssociation.resourceSubnetNatGatewayAssociationRead,
      SubnetNatGatewayAssociation.clientGet,
      SubnetNatGatewayAssociation.clientCreateOrUpdate,
      SubnetNatGatewayAssociation.futureWaitForCompletionRef.
    handler_unfold. branches. all: locks_leaf.
  - unfold SubnetNatGatewayAssociation.resourceSubnetNatGatewayAssociationDelete,
      SubnetNatGatewayAssociation.clientGet,
      SubnetNatGatewayAssociation.clientCreateOrUpdate,
      SubnetNatGatewayAssociation.futureWaitForCompletionRef.
    handler_unfold. branches. all: locks_leaf.
Qed.

(** ** Read of an association that is gone from its parent *)

(** X5.  When the parent is fetched with its properties, the Read of an
    association succeeds, and it keeps the association in the state
    exactly when the parent still carries it: the network-interface
    backend-pool association when the IP configuration of that name is
    found and has a pool with the ID, the subnet NAT-gateway association
    when the subnet has a NAT gateway.  Otherwise the identifier is set to
    the empty string and nothing else of the resource data is touched. *)
Theorem read_drops_an_association_the_parent_no_longer_has (W : Type) :
  (forall (imp : NetworkInterfaceBackendAddressPoolAssociation.imports)
          (client : NetworkInterfaceBackendAddressPoolAssociation.InterfacesClient W)
          (d : ResourceData) (w : W) (splitId0 splitId1 : string) (nicID : azure.ResourceID)
          (nicProps : NetworkInterfaceBackendAddressPoolAssociation.InterfacePropertiesFormat)
          (configs : list NetworkInterfaceBackendAddressPoolAssociation.InterfaceIPConfiguration),
      let read := fst (NetworkInterfaceBackendAddressPoolAssociation.Get client
                         (timeouts.ForRead d) (azure.ResourceGroup nicID)
                         (azure.PathAt nicID "networkInterfaces") "" w) in
      let r := run (NetworkInterfaceBackendAddressPoolAssociation.resourceNetworkInterfaceBackendAddressPoolAssociationRead
                      imp client) d w in
      strings.Split (Id d) bar = [splitId0; splitId1] ->
      NetworkInterfaceBackendAddressPoolAssociation.ParseAzureResourceID imp splitId0
        = inr nicID ->
      Err read = None ->
      NetworkInterfaceBackendAddressPoolAssociation.InterfaceProperties (Body read)
        = Some nicProps ->
      NetworkInterfaceBackendAddressPoolAssociation.IPConfigurations nicProps
        = Some configs ->
      result r = Return tt
      /\ if Association.poolAssociated imp (Body read)
              (azure.PathAt nicID "ipConfigurations") splitId1
         then Id (data (final r)) = Id d
         else data (final r) = withId d "")
  /\
  (forall (imp : SubnetNatGatewayAssociation.imports)
          (client : SubnetNatGatewayAssociation.SubnetsClient W)
          (d : ResourceData) (w : W) (id : SubnetNatGatewayAssociation.SubnetId)
          (props : SubnetNatGatewayAssociation.SubnetPropertiesFormat),
      let subnet := fst (SubnetNatGatewayAssociation.Get client (timeouts.ForRead d)
                           (SubnetNatGatewayAssociation.ResourceGroup id)
                           (SubnetNatGatewayAssociation.VirtualNetworkName id)
                           (SubnetNatGatewayAssociation.Name id) "" w) in
      let r := run (SubnetNatGatewayAssociation.resourceSubnetNatGatewayAssociationRead
                      imp client) d w in
      SubnetNatGatewayAssociation.parseSubnetID imp (Id d) = inr id ->
      Err subnet = None ->
      SubnetNatGatewayAssociation.SubnetProperties (Body subnet) = Some props ->
      result r = Return tt
      /\ if Association.gatewayAssociated (Body subnet)
         then Id (data (final r)) = Id d
         else data (final r) = withId d "").
Proof.
  split.
  - intros imp client d w splitId0 splitId1 nicID nicProps configs read r HS HP HE HN HC.
    subst r read. unfold Association.poolAssociated.
    unfold NetworkInterfaceBackendAddressPoolAssociation.resourceNetworkInterfaceBackendAddressPoolAssociationRead,
      NetworkInterfaceBackendAddressPoolAssociation.clientGet.
    handler_unfold. simpl. rewrite HS, HP. simpl.
    destruct (NetworkInterfaceBackendAddressPoolAssociation.Get client _ _ _ _ w)
      as [read w'].
    simpl in *. rewrite HE, HN. simpl. rewrite HC.
    destruct (NetworkInterfaceBackendAddressPoolAssociation.FindNetworkInterfaceIPConfiguration
                imp (Some configs) _) as [config|]; simpl; [|split; reflexivity].
    destruct (NetworkInterfaceBackendAddressPoolAssociation.IPConfigurationProperties config)
      as [props|]; simpl; [|split; reflexivity].
    destruct (NetworkInterfaceBackendAddressPoolAssociation.LoadBalancerBackendAddressPools
                props) as [pools|]; simpl; [|split; reflexivity].
    rewrite poolFound_existsb.
    destruct (existsb (Observe.isPool splitId1) pools); simpl; split; reflexivity.
  - intros imp client d w id props subnet r HP HE HS.
    subst r subnet. unfold Association.gatewayAssociated.
    unfold SubnetNatGatewayAssociation.resourceSubnetNatGatewayAssociationRead,
      SubnetNatGatewayAssociation.clientGet.
    handler_unfold. simpl. rewrite HP. simpl.
    destruct (SubnetNatGatewayAssociation.Get client _ _ _ _ _ w) as [subnet w'].
    simpl in *. rewrite HE, HS. simpl.
    destruct (SubnetNatGatewayAssociation.NatGateway props); simpl; split; reflexivity.
Qed.

Lemma read_drops_an_association_the_parent_no_longer_has_witness :
  (let d := InMemory.Nic.existing "internal" (InMemory.Nic.poolId "b") in
   let r := run (NetworkInterfaceBackendAddressPoolAssociation.resourceNetworkInterfaceBackendAddressPoolAssociationRead
                   InMemory.Nic.imp InMemory.Nic.client) d
              (Some (InMemory.Nic.nic "internal" [InMemory.Nic.pool "a"])) in
   result r = Return tt /\ data (final r) = withId d "")
  /\
  (let d := InMemory.Nat.existing in
   let r := run (SubnetNatGatewayAssociation.resourceSubnetNatGatewayAssociationRead
                   InMemory.Nat.imp InMemory.Nat.client) d
              (Some (SubnetNatGatewayAssociation.mkSubnet (Some InMemory.Nat.subnetId)
                       (Some (SubnetNatGatewayAssociation.mkSubnetProperties None
                                (Some "10.0.1.0/24"))))) in
   result r = Return tt /\ data (final r) = withId d "").
Proof.
  split.
  - exact (proj1 (read_drops_an_association_the_parent_no_longer_has
                    (option NetworkInterfaceBackendAddressPoolAssociation.Interface))
             InMemory.Nic.imp InMemory.Nic.client
             (InMemory.Nic.existing "internal" (InMemory.Nic.poolId "b"))
             (Some (InMemory.Nic.nic "internal" [InMemory.Nic.pool "a"]))
             (InMemory.Nic.nicId ++ "/ipConfigurations/internal")%string
             (InMemory.Nic.poolId "b") InMemory.Nic.parsedAssociationId _ _
             eq_refl eq_refl eq_refl eq_refl eq_refl).
  - exact (proj2 (read_drops_an_association_the_parent_no_longer_has
                    (option SubnetNatGatewayAssociation.Subnet))
             InMemory.Nat.imp InMemory.Nat.client InMemory.Nat.existing
             (Some (SubnetNatGatewayAssociation.mkSubnet (Some InMemory.Nat.subnetId)
                      (Some (SubnetNatGatewayAssociation.mkSubnetProperties None
                               (Some "10.0.1.0/24")))))
             (SubnetNatGatewayAssociation.mkSubnetId "rg" "vnet1" "subnet1") _
             eq_refl eq_refl eq_refl).
Defined.
(** ** The deadline of each call *)

Ltac own_deadline :=
  repeat first [apply Forall_nil | apply Forall_cons; [reflexivity|]].

Ltac read_deadline :=
  repeat first [apply Forall_nil | apply Forall_cons; [split; reflexivity|]].

(** A way out of the handler before its Read. *)
Ltac before_read_leaf :=
  match goal with
  | |- exists before, _ /\ (?cs = before \/ _) =>
      exists cs; split; [simpl; solve [own_deadline] | left; reflexivity]
  end.

Ltac rewrite_fetch :=
  repeat match goal with
         | H : ?x = _ |- context [?x] => rewrite H
         end.

(** The handler came to its Read: the run from there on is the Read. *)
Ltac ending_read_leaf framed under_read :=
  try match goal with
      | H : ?m = (?o, ?s) |- _ =>
          lazymatch m with
          | context [@mkState] => idtac
          end;
          let Ho := fresh in
          let Hs := fresh in
          assert (Ho : o = fst m) by (rewrite H; reflexivity);
          assert (Hs : s = snd m) by (rewrite H; reflexivity);
          clear H; subst o s
      end;
  let F := fresh "F" in
  pose proof framed as F; unfold EndingRead.framed in F; cbv zeta in F;
  match goal with
  | |- context [?R {| data := withId ?d ?id; world := ?w'; trace := ?t |}] =>
      rewrite F; clear F;
      cbn [data world trace fst snd final result];
      exists (calls t); split;
      [ simpl; solve [own_deadline]
      | right; exists id, w'; cbv zeta; unfold final, result, run;
        cbn [data world trace fst snd];
        split; [simpl; unfold EndingRead.fetchedBack; rewrite_fetch; reflexivity|];
        split; [rewrite !calls_app; simpl; rewrite ?app_nil_r; reflexivity|];
        split; [reflexivity|];
        split; [reflexivity|];
        split; [reflexivity|];
        change (timeouts.ForRead d) with (timeouts.ForRead (withId d id));
        apply under_read ]
  end.

Lemma interface_read_framed (W : Type) imp
    (client : NetworkInterfaceBackendAddressPoolAssociation.InterfacesClient W) :
  EndingRead.framed
    (NetworkInterfaceBackendAddressPoolAssociation.resourceNetworkInterfaceBackendAddressPoolAssociationRead
       imp client).
Proof.
  intros [d w t]. cbv zeta.
  unfold NetworkInterfaceBackendAddressPoolAssociation.resourceNetworkInterfaceBackendAddressPoolAssociationRead,
    NetworkInterfaceBackendAddressPoolAssociation.clientGet.
  handler_unfold. branches.
  all: rewrite ?app_nil_r, <- ?app_assoc; reflexivity.
Qed.

Lemma interface_read_under_read (W : Type) imp
    (client : NetworkInterfaceBackendAddressPoolAssociation.InterfacesClient W) d w :
  Forall (fun c => Fetches.interfaceGet c = true
                   /\ Deadlines.interfaceCallContext c = timeouts.ForRead d)
    (calls (trace (final (run (NetworkInterfaceBackendAddressPoolAssociation.resourceNetworkInterfaceBackendAddressPoolAssociationRead
                                 imp client) d w)))).
Proof.
  unfold NetworkInterfaceBackendAddressPoolAssociation.resourceNetworkInterfaceBackendAddressPoolAssociationRead,
    NetworkInterfaceBackendAddressPoolAssociation.clientGet.
  handler_unfold. branches.
  all: read_deadline.
Qed.

Lemma setRouteAttributes_framed (W : Type) (imp : IotHubRoute.imports) (routeName : string)
    (routes : list IotHubRoute.RouteProperties) (d : ResourceData) (w : W)
    (t : list (event IotHubRoute.apicall)) :
  IotHubRoute.setRouteAttributes imp routeName routes (mkState d w t)
  = (Return tt,
     mkState (data (snd (IotHubRoute.setRouteAttributes imp routeName routes
                           (mkState d w []))))
       w t).
Proof.
  revert d. induction routes as [|route rest IH]; intros d; simpl; [reflexivity|].
  destruct (IotHubRoute.RouteName route) as [name|]; [|apply IH].
  destruct (IotHubRoute.EqualFold imp name routeName); [|apply IH].
  handler_unfold. simpl. apply IH.
Qed.

Lemma hub_read_framed (W : Type) imp (client : IotHubRoute.ResourceClient W) :
  EndingRead.framed (IotHubRoute.resourceIotHubRouteRead imp client).
Proof.
  intros [d w t]. cbv zeta.
  unfold IotHubRoute.resourceIotHubRouteRead, IotHubRoute.clientGet.
  handler_unfold. simpl.
  destruct (IotHubRoute.ParseAzureResourceID imp (Id d)); simpl;
    [rewrite app_nil_r; reflexivity|].
  destruct (IotHubRoute.Get client _ _ _ w) as [iothub w'] eqn:E. simpl.
  destruct (Err iothub); simpl; [reflexivity|].
  destruct (IotHubRoute.Properties (Body iothub)) as [properties|]; simpl; [|reflexivity].
  destruct (IotHubRoute.Routing properties) as [routing|]; simpl; [|reflexivity].
  destruct (IotHubRoute.Routes routing) as [routes|]; simpl; [|reflexivity].
  match goal with
  | |- IotHubRoute.setRouteAttributes imp ?n routes (mkState ?d' w' ?t') = _ =>
      rewrite (setRouteAttributes_framed imp n routes d' w' t');
      rewrite (setRouteAttributes_framed imp n routes d' w' [Api _])
  end.
  reflexivity.
Qed.

Lemma hub_read_under_read (W : Type) imp (client : IotHubRoute.ResourceClient W) d w :
  Forall (fun c => Fetches.hubGet c = true
                   /\ Deadlines.hubCallContext c = timeouts.ForRead d)
    (calls (trace (final (run (IotHubRoute.resourceIotHubRouteRead imp client) d w)))).
Proof.
  destruct (iothub_route_read_trace imp client (mkState d w []))
    as [H | [resourceGroup [name [iothub H]]]];
    unfold final, run; rewrite H; simpl; read_deadline.
Qed.

(** X6.  The handlers that rewrite a collection of their parent make every
    call under the deadline of their own operation: the Create of the
    network-interface backend-pool association under the create timeout,
    the CreateUpdate of the IoT Hub route under the create or the update
    timeout, as the resource is new or not, and the two Deletes under the
    delete timeout.  The one exception is the Read that ends a Create: when
    the wait for the write came back without an error, the handler sets the
    identifier and the rest of its run is the run of its Read, whose only
    call is a fetch under the read timeout.  The fetch of the parent that
    the Create itself makes is under its own deadline. *)
Theorem membership_writes_run_under_the_deadline_of_their_operation (W : Type)
    (d : ResourceData) (w : W) :
  (forall imp client,
      EndingRead.underOwnButRead Deadlines.interfaceCallContext Fetches.interfaceGet
        EndingRead.interfaceCompleted
        (NetworkInterfaceBackendAddressPoolAssociation.resourceNetworkInterfaceBackendAddressPoolAssociationRead
           imp client)
        (timeouts.ForCreate d) d
        (run (NetworkInterfaceBackendAddressPoolAssociation.resourceNetworkInterfaceBackendAddressPoolAssociationCreate
                imp client) d w)
      /\ Forall (fun c => Deadlines.interfaceCallContext c = timeouts.ForDelete d)
           (calls (trace (final (run (NetworkInterfaceBackendAddressPoolAssociation.resourceNetworkInterfaceBackendAddressPoolAssociationDelete
                                        imp client) d w)))))
  /\
  (forall imp client,
      EndingRead.underOwnButRead Deadlines.hubCallContext Fetches.hubGet
        Writes.hubCompleted (IotHubRoute.resourceIotHubRouteRead imp client)
        (timeouts.ForCreateUpdate d) d
        (run (IotHubRoute.resourceIotHubRouteCreateUpdate imp client) d w)
      /\ Forall (fun c => Deadlines.hubCallContext c = timeouts.ForDelete d)
           (calls (trace (final (run (IotHubRoute.resourceIotHubRouteDelete imp client)
                                   d w))))).
Proof.
  unfold EndingRead.underOwnButRead.
  split.
  - intros imp client. split.
    + unfold NetworkInterfaceBackendAddressPoolAssociation.resourceNetworkInterfaceBackendAddressPoolAssociationCreate,
        NetworkInterfaceBackendAddressPoolAssociation.clientGet,
        NetworkInterfaceBackendAddressPoolAssociation.clientCreateOrUpdate,
        NetworkInterfaceBackendAddressPoolAssociation.futureWaitForCompletionRef.
      handler_unfold. branches.
      all: try before_read_leaf.
      all: ending_read_leaf interface_read_framed interface_read_under_read.
    + unfold NetworkInterfaceBackendAddressPoolAssociation.resourceNetworkInterfaceBackendAddressPoolAssociationDelete,
        NetworkInterfaceBackendAddressPoolAssociation.clientGet,
        NetworkInterfaceBackendAddressPoolAssociation.clientCreateOrUpdate,
        NetworkInterfaceBackendAddressPoolAssociation.futureWaitForCompletionRef.
      handler_unfold. branches. all: repeat constructor.
  - intros imp client. split.
    + unfold IotHubRoute.resourceIotHubRouteCreateUpdate, IotHubRoute.clientGet,
        IotHubRoute.clientCreateOrUpdate, IotHubRoute.futureWaitForCompletionRef.
      handler_unfold. branches.
      all: try before_read_leaf.
      all: ending_read_leaf hub_read_framed hub_read_under_read.
    + unfold IotHubRoute.resourceIotHubRouteDelete, IotHubRoute.clientGet,
        IotHubRoute.clientCreateOrUpdate, IotHubRoute.futureWaitForCompletionRef.
      handler_unfold. branches. all: repeat constructor.
Qed.

Lemma subnet_read_framed (W : Type) imp
    (client : SubnetNatGatewayAssociation.SubnetsClient W) :
  EndingRead.framed
    (SubnetNatGatewayAssociation.resourceSubnetNatGatewayAssociationRead imp client).
Proof.
  intros [d w t]. cbv zeta.
  unfold SubnetNatGatewayAssociation.resourceSubnetNatGatewayAssociationRead,
    SubnetNatGatewayAssociation.clientGet.
  handler_unfold. branches.
  all: rewrite ?app_nil_r, <- ?app_assoc; reflexivity.
Qed.

Lemma subnet_read_under_read (W : Type) imp
    (client : SubnetNatGatewayAssociation.SubnetsClient W) d w :
  Forall (fun c => Fetches.subnetGet c = true
                   /\ Deadlines.subnetCallContext c = timeouts.ForRead d)
    (calls (trace (final (run (SubnetNatGatewayAssociation.resourceSubnetNatGatewayAssociationRead
                                 imp client) d w)))).
Proof.
  unfold SubnetNatGatewayAssociation.resourceSubnetNatGatewayAssociationRead,
    SubnetNatGatewayAssociation.clientGet.
  handler_unfold. branches.
  all: read_deadline.
Qed.

Lemma group_read_framed (W : Type) imp (client : ResourceGroup.GroupsClient W) :
  EndingRead.framed (ResourceGroup.resourceResourceGroupRead imp client).
Proof.
  intros [d w t]. cbv zeta.
  unfold ResourceGroup.resourceResourceGroupRead, ResourceGroup.clientGet.
  handler_unfold. branches.
  all: rewrite ?app_nil_r, <- ?app_assoc; reflexivity.
Qed.

Lemma group_read_under_read (W : Type) imp (client : ResourceGroup.GroupsClient W) d w :
  Forall (fun c => Fetches.groupGet c = true
                   /\ Deadlines.groupCallContext c = timeouts.ForRead d)
    (calls (trace (final (run (ResourceGroup.resourceResourceGroupRead imp client) d w)))).
Proof.
  unfold ResourceGroup.resourceResourceGroupRead, ResourceGroup.clientGet.
  handler_unfold. branches.
  all: read_deadline.
Qed.

Lemma extension_read_framed (W json : Type)
    (imp : VirtualMachineScaleSetExtension.imports json)
    (clients : VirtualMachineScaleSetExtension.Clients json W) :
  EndingRead.framed
    (VirtualMachineScaleSetExtension.resourceVirtualMachineScaleSetExtensionRead imp clients).
Proof.
  intros [d w t]. cbv zeta.
  unfold VirtualMachineScaleSetExtension.resourceVirtualMachineScaleSetExtensionRead,
    VirtualMachineScaleSetExtension.clientGet,
    VirtualMachineScaleSetExtension.vmssClientGet.
  handler_unfold. branches.
  all: rewrite ?app_nil_r, <- ?app_assoc; reflexivity.
Qed.

Lemma extension_read_under_read (W json : Type)
    (imp : VirtualMachineScaleSetExtension.imports json)
    (clients : VirtualMachineScaleSetExtension.Clients json W) d w :
  Forall (fun c => @Fetches.extensionGet json c = true
                   /\ @Deadlines.extensionCallContext json c = timeouts.ForRead d)
    (calls (trace (final (run (VirtualMachineScaleSetExtension.resourceVirtualMachineScaleSetExtensionRead
                                 imp clients) d w)))).
Proof.
  unfold VirtualMachineScaleSetExtension.resourceVirtualMachineScaleSetExtensionRead,
    VirtualMachineScaleSetExtension.clientGet,
    VirtualMachineScaleSetExtension.vmssClientGet.
  handler_unfold. branches.
  all: read_deadline.
Qed.

(** X7.  The Create and the Delete of the subnet NAT-gateway association,
    the CreateUpdate of the resource group and the Create of the scale-set
    extension make every call under the deadline of their own operation:
    the create timeout, the delete timeout, the create or the update
    timeout as the resource is new or not, and the create timeout.  That
    holds of every fetch they make themselves, the one after the write
    included.  The one exception is the Read that ends them: when the
    fetch after the write came back without an error and with an ID, the
    handler sets the identifier and the rest of its run is the run of its
    Read, whose only calls are fetches under the read timeout. *)
Theorem creates_run_under_the_deadline_of_their_operation (W : Type) (d : ResourceData)
    (w : W) :
  (forall imp client,
      EndingRead.underOwnButRead Deadlines.subnetCallContext Fetches.subnetGet
        EndingRead.subnetFetchedBack
        (SubnetNatGatewayAssociation.resourceSubnetNatGatewayAssociationRead imp client)
        (timeouts.ForCreate d) d
        (run (SubnetNatGatewayAssociation.resourceSubnetNatGatewayAssociationCreate
                imp client) d w)
      /\ Forall (fun c => Deadlines.subnetCallContext c = timeouts.ForDelete d)
           (calls (trace (final (run (SubnetNatGatewayAssociation.resourceSubnetNatGatewayAssociationDelete
                                        imp client) d w)))))
  /\
  (forall imp client,
      EndingRead.underOwnButRead Deadlines.groupCallContext Fetches.groupGet
        EndingRead.groupFetchedBack
        (ResourceGroup.resourceResourceGroupRead imp client)
        (timeouts.ForCreateUpdate d) d
        (run (ResourceGroup.resourceResourceGroupCreateUpdate imp client) d w))
  /\
  (forall json (imp : VirtualMachineScaleSetExtension.imports json) clients,
      EndingRead.underOwnButRead (@Deadlines.extensionCallContext json)
        (@Fetches.extensionGet json) (@EndingRead.extensionFetchedBack json)
        (VirtualMachineScaleSetExtension.resourceVirtualMachineScaleSetExtensionRead
           imp clients)
        (timeouts.ForCreate d) d
        (run (VirtualMachineScaleSetExtension.resourceVirtualMachineScaleSetExtensionCreate
                imp clients) d w)).
Proof.
  unfold EndingRead.underOwnButRead.
  split; [|split].
  - intros imp client. split.
    + unfold SubnetNatGatewayAssociation.resourceSubnetNatGatewayAssociationCreate,
        SubnetNatGatewayAssociation.clientGet,
        SubnetNatGatewayAssociation.clientCreateOrUpdate,
        SubnetNatGatewayAssociation.futureWaitForCompletionRef.
      handler_unfold. branches.
      all: try before_read_leaf.
      all: ending_read_leaf subnet_read_framed subnet_read_under_read.
    + unfold SubnetNatGatewayAssociation.resourceSubnetNatGatewayAssociationDelete,
        SubnetNatGatewayAssociation.clientGet,
        SubnetNatGatewayAssociation.clientCreateOrUpdate,
        SubnetNatGatewayAssociation.futureWaitForCompletionRef.
      handler_unfold. branches. all: repeat constructor.
  - intros imp client.
    unfold ResourceGroup.resourceResourceGroupCreateUpdate,
      ResourceGroup.clientGet, ResourceGroup.clientCreateOrUpdate.
    handler_unfold. branches.
    all: try before_read_leaf.
    all: ending_read_leaf group_read_framed group_read_under_read.
  - intros json imp clients.
    unfold VirtualMachineScaleSetExtension.resourceVirtualMachineScaleSetExtensionCreate,
      VirtualMachineScaleSetExtension.clientGet,
      VirtualMachineScaleSetExtension.vmssClientGet,
      VirtualMachineScaleSetExtension.clientCreateOrUpdate,
      VirtualMachineScaleSetExtension.futureWaitForCompletionRef.
    handler_unfold. branches.
    all: try before_read_leaf.
    all: ending_read_leaf extension_read_framed extension_read_under_read.
Qed.

(** ** Update of a route *)

(** The loop of CreateUpdate on a resource that is not new: the routes
    with a name, in order, each one of that name replaced. *)
Lemma existingRoutes_replaced (imp : IotHubRoute.imports) (routeName rid : string)
    (route : IotHubRoute.RouteProperties)
    (existing routes : list IotHubRoute.RouteProperties) (alreadyExists : bool) :
  IotHubRoute.existingRoutes imp false routeName rid route existing routes alreadyExists
  = inr (routes ++ Routes.replaced imp routeName route (filter Observe.hasName existing),
         alreadyExists || existsb (Observe.isRoute imp routeName) existing).
Proof.
  revert routes alreadyExists.
  induction existing as [|r rest IH]; simpl; intros routes alreadyExists.
  - rewrite app_nil_r, orb_false_r. reflexivity.
  - assert (Hn : Observe.hasName r
                 = match IotHubRoute.RouteName r with
                   | Some _ => true
                   | None => false
                   end) by reflexivity.
    assert (Hr : Observe.isRoute imp routeName r
                 = match IotHubRoute.RouteName r with
                   | Some name => IotHubRoute.EqualFold imp name routeName
                   | None => false
                   end) by reflexivity.
    rewrite Hn, Hr.
    destruct (IotHubRoute.RouteName r) as [name|]; simpl; [|apply IH].
    rewrite Hr.
    destruct (IotHubRoute.EqualFold imp name routeName); simpl;
      rewrite IH, <- app_assoc; destruct alreadyExists; reflexivity.
Qed.

(** X8.  The update of a route (the resource is not new, the hub is
    fetched with an ID and properties).  When the hub has a route of that
    name, by [EqualFold], the hub is submitted once, with the routes that
    have a name in the order they were fetched and the configured route in
    the place of every one of that name.  When it has none, the update
    fails with "Unable to find Route", the resource data is as it was and
    nothing is submitted. *)
Theorem update_replaces_the_route_in_place (W : Type) (imp : IotHubRoute.imports)
    (client : IotHubRoute.ResourceClient W) (d : ResourceData) (w : W) (hubId : string)
    (properties : IotHubRoute.IotHubProperties) :
  let routeName := GetString d "name" in
  let iothubName := GetString d "iothub_name" in
  let resourceGroup := GetString d "resource_group_name" in
  let iothub := fst (IotHubRoute.Get client (timeouts.ForCreateUpdate d) resourceGroup
                       iothubName w) in
  let r := run (IotHubRoute.resourceIotHubRouteCreateUpdate imp client) d w in
  IsNewResource d = false ->
  Err iothub = None ->
  IotHubRoute.HubID (Body iothub) = Some hubId ->
  IotHubRoute.Properties (Body iothub) = Some properties ->
  if existsb (Observe.isRoute imp routeName) (Routes.existing (Body iothub))
  then Observe.submittedHubs (calls (trace (final r)))
       = [IotHubRoute.withRoutes (Body iothub) properties
            (Routes.replaced imp routeName (Routes.configured d)
               (filter Observe.hasName (Routes.existing (Body iothub))))]
  else result r
       = Fail (Errorf "Unable to find Route %q defined for IotHub %q (Resource Group %q)"
                 [routeName; iothubName; resourceGroup])
       /\ data (final r) = d
       /\ Observe.submittedHubs (calls (trace (final r))) = [].
Proof.
  intros routeName iothubName resourceGroup iothub r Hnew Herr Hid Hproperties.
  subst r iothub routeName iothubName resourceGroup.
  unfold Routes.existing, Observe.routesOf.
  unfold IotHubRoute.resourceIotHubRouteCreateUpdate, IotHubRoute.clientGet,
    IotHubRoute.clientCreateOrUpdate, IotHubRoute.futureWaitForCompletionRef.
  handler_unfold. simpl.
  destruct (IotHubRoute.Get client _ _ _ w) as [iothub w'] eqn:E.
  simpl in *. rewrite Herr, Hid, Hproperties. simpl. rewrite Hnew.
  rewrite existingRoutes_replaced. simpl.
  destruct (IotHubRoute.Routing properties) as [routing|] eqn:Hrouting; simpl;
    [destruct (IotHubRoute.Routes routing) as [routes|] eqn:Hroutes; simpl|];
    try (repeat split; fail).
  destruct (existsb (Observe.isRoute imp (GetString d "name")) routes) eqn:Ex; simpl;
    [|repeat split].
  destruct (IotHubRoute.CreateOrUpdate client _ _ _ _ _ w') as [err w2] eqn:E2.
  simpl. destruct err as [err|]; simpl; [reflexivity|].
  destruct (IotHubRoute.FutureWaitForCompletionRef client _ w2) as [err w3] eqn:E3.
  simpl. destruct err as [err|]; simpl; [reflexivity|].
  match goal with
  | |- context [IotHubRoute.resourceIotHubRouteRead imp client ?st] =>
      pose proof (iothub_route_read_submits_nothing imp client st) as Hread;
      destruct (IotHubRoute.resourceIotHubRouteRead imp client st) as [o s'] eqn:ER
  end.
  simpl in *. rewrite calls_app, submittedHubs_app, Hread. reflexivity.
Qed.

Lemma update_replaces_the_route_in_place_witness :
  (let d := InMemory.Hub.existing "R1" in
   let r := run (IotHubRoute.resourceIotHubRouteCreateUpdate InMemory.Hub.imp
                   InMemory.Hub.client) d
              (Some (InMemory.Hub.hub [InMemory.Hub.route "r0"; InMemory.Hub.route "r1";
                                       InMemory.Hub.route "r2"])) in
   Observe.submittedHubs (calls (trace (final r)))
   = [InMemory.Hub.hub [InMemory.Hub.route "r0"; Routes.configured d;
                        InMemory.Hub.route "r2"]])
  /\
  (let d := InMemory.Hub.existing "r9" in
   let r := run (IotHubRoute.resourceIotHubRouteCreateUpdate InMemory.Hub.imp
                   InMemory.Hub.client) d
              (Some (InMemory.Hub.hub [InMemory.Hub.route "r0"])) in
   result r
   = Fail (Errorf "Unable to find Route %q defined for IotHub %q (Resource Group %q)"
             ["r9"; "hub1"; "rg"])
   /\ data (final r) = d
   /\ Observe.submittedHubs (calls (trace (final r))) = []).
Proof.
  split.
  - exact (@update_replaces_the_route_in_place
             (option IotHubRoute.IotHubDescription) InMemory.Hub.imp
             InMemory.Hub.client (InMemory.Hub.existing "R1")
             (Some (InMemory.Hub.hub [InMemory.Hub.route "r0"; InMemory.Hub.route "r1";
                                      InMemory.Hub.route "r2"]))
             InMemory.Hub.hubId _ eq_refl eq_refl eq_refl eq_refl).
  - exact (@update_replaces_the_route_in_place
             (option IotHubRoute.IotHubDescription) InMemory.Hub.imp
             InMemory.Hub.client (InMemory.Hub.existing "r9")
             (Some (InMemory.Hub.hub [InMemory.Hub.route "r0"]))
             InMemory.Hub.hubId _ eq_refl eq_refl eq_refl eq_refl).
Defined.

(** ** Create of a route on a hub without a routing block *)

(** X9.  When the hub is fetched with properties that have no routing
    block, CreateUpdate builds the routes in a routing block of its own,
    which the hub does not refer to: the hub is submitted once, exactly as
    it was fetched, so without the configured route. *)
Theorem create_on_a_hub_without_routing_submits_the_hub_as_fetched (W : Type)
    (imp : IotHubRoute.imports) (client : IotHubRoute.ResourceClient W) (d : ResourceData)
    (w : W) (hubId : string) (properties : IotHubRoute.IotHubProperties) :
  let iothub := fst (IotHubRoute.Get client (timeouts.ForCreateUpdate d)
                       (GetString d "resource_group_name") (GetString d "iothub_name") w) in
  let r := run (IotHubRoute.resourceIotHubRouteCreateUpdate imp client) d w in
  IsNewResource d = true ->
  Err iothub = None ->
  IotHubRoute.HubID (Body iothub) = Some hubId ->
  IotHubRoute.Properties (Body iothub) = Some properties ->
  IotHubRoute.Routing properties = None ->
  Observe.submittedHubs (calls (trace (final r))) = [Body iothub]
  /\ Observe.routesOf (Body iothub) = None.
Proof.
  intros iothub r Hnew Herr Hid Hproperties Hrouting.
  subst r iothub. split.
  - unfold IotHubRoute.resourceIotHubRouteCreateUpdate, IotHubRoute.clientGet,
      IotHubRoute.clientCreateOrUpdate, IotHubRoute.futureWaitForCompletionRef.
    handler_unfold. simpl.
    destruct (IotHubRoute.Get client _ _ _ w) as [iothub w'] eqn:E.
    simpl in *. rewrite Herr, Hid, Hproperties. simpl. rewrite Hrouting, Hnew. simpl.
    unfold IotHubRoute.withRoutes. rewrite Hrouting.
    destruct (IotHubRoute.CreateOrUpdate client _ _ _ _ _ w') as [err w2] eqn:E2.
    simpl. destruct err as [err|]; simpl; [reflexivity|].
    destruct (IotHubRoute.FutureWaitForCompletionRef client _ w2) as [err w3] eqn:E3.
    simpl. destruct err as [err|]; simpl; [reflexivity|].
    match goal with
    | |- context [IotHubRoute.resourceIotHubRouteRead imp client ?st] =>
        pose proof (iothub_route_read_submits_nothing imp client st) as Hread;
        destruct (IotHubRoute.resourceIotHubRouteRead imp client st) as [o s'] eqn:ER
    end.
    simpl in *. rewrite calls_app, submittedHubs_app, Hread. reflexivity.
  - unfold Observe.routesOf. rewrite Hproperties, Hrouting. reflexivity.
Qed.

Lemma create_on_a_hub_without_routing_submits_the_hub_as_fetched_witness :
  let fetched := IotHubRoute.mkIotHubDescription (Some InMemory.Hub.hubId)
                   (Some (IotHubRoute.mkIotHubProperties None
                            (Some "hub1.azure-devices.net"))) in
  let r := run (IotHubRoute.resourceIotHubRouteCreateUpdate InMemory.Hub.imp
                  InMemory.Hub.client) (InMemory.Hub.creating "r1") (Some fetched) in
  Observe.submittedHubs (calls (trace (final r))) = [fetched]
  /\ Observe.routesOf fetched = None.
Proof.
  exact (@create_on_a_hub_without_routing_submits_the_hub_as_fetched
           (option IotHubRoute.IotHubDescription) InMemory.Hub.imp InMemory.Hub.client
           (InMemory.Hub.creating "r1")
           (Some (IotHubRoute.mkIotHubDescription (Some InMemory.Hub.hubId)
                    (Some (IotHubRoute.mkIotHubProperties None
                             (Some "hub1.azure-devices.net")))))
           InMemory.Hub.hubId _ eq_refl eq_refl eq_refl eq_refl eq_refl).
Defined.

(** ** Create of the subnet NAT-gateway association *)

(** X10.  Create of the subnet NAT-gateway association, once the subnet is
    fetched.  A subnet whose NAT gateway has an ID, and that has an ID
    itself, ends the Create with the import error that carries the ID of
    the subnet: the resource data is as it was and nothing is submitted.
    Otherwise the subnet is submitted once: as it was fetched but for the
    NAT gateway, which is the configured one; a subnet fetched without
    properties is submitted as it was fetched, without a gateway. *)
Theorem subnet_create_associates_or_reports_the_existing_gateway (W : Type)
    (imp : SubnetNatGatewayAssociation.imports)
    (client : SubnetNatGatewayAssociation.SubnetsClient W) (d : ResourceData) (w : W)
    (parsedSubnetId : SubnetNatGatewayAssociation.SubnetId)
    (parsedGatewayId : SubnetNatGatewayAssociation.NatGatewayId) :
  let natGatewayId := GetString d "nat_gateway_id" in
  let subnet := fst (SubnetNatGatewayAssociation.Get client (timeouts.ForCreate d)
                       (SubnetNatGatewayAssociation.ResourceGroup parsedSubnetId)
                       (SubnetNatGatewayAssociation.VirtualNetworkName parsedSubnetId)
                       (SubnetNatGatewayAssociation.Name parsedSubnetId) "" w) in
  let r := run (SubnetNatGatewayAssociation.resourceSubnetNatGatewayAssociationCreate
                  imp client) d w in
  SubnetNatGatewayAssociation.parseSubnetID imp (GetString d "subnet_id")
    = inr parsedSubnetId ->
  SubnetNatGatewayAssociation.parseNatGatewayID imp natGatewayId = inr parsedGatewayId ->
  Err subnet = None ->
  match Gateway.existing (Body subnet) with
  | Some subnetID =>
      result r = Fail (ImportAsExistsError "azurerm_subnet_nat_gateway_association" subnetID)
      /\ data (final r) = d
      /\ Observe.submittedSubnets (calls (trace (final r))) = []
  | None =>
      Observe.submittedSubnets (calls (trace (final r)))
      = [match SubnetNatGatewayAssociation.SubnetProperties (Body subnet) with
         | Some props =>
             SubnetNatGatewayAssociation.mkSubnet
               (SubnetNatGatewayAssociation.SubnetID (Body subnet))
               (Some (SubnetNatGatewayAssociation.mkSubnetProperties
                        (Some (SubnetNatGatewayAssociation.mkSubResource (Some natGatewayId)))
                        (SubnetNatGatewayAssociation.AddressPrefix props)))
         | None => Body subnet
         end]
  end.
Proof.
  intros natGatewayId subnet r Hsubnet Hgateway Herr.
  subst r subnet natGatewayId. unfold Gateway.existing.
  unfold SubnetNatGatewayAssociation.resourceSubnetNatGatewayAssociationCreate,
    SubnetNatGatewayAssociation.resourceSubnetNatGatewayAssociationRead,
    SubnetNatGatewayAssociation.associate,
    SubnetNatGatewayAssociation.withNatGateway,
    SubnetNatGatewayAssociation.clientGet,
    SubnetNatGatewayAssociation.clientCreateOrUpdate,
    SubnetNatGatewayAssociation.futureWaitForCompletionRef.
  handler_unfold. simpl. rewrite Hsubnet. simpl. rewrite Hgateway. simpl.
  destruct (SubnetNatGatewayAssociation.Get client _ _ _ _ _ w) as [subnet w'] eqn:E.
  simpl in *. rewrite Herr.
  destruct (SubnetNatGatewayAssociation.SubnetProperties (Body subnet)) as [props|];
    [destruct (SubnetNatGatewayAssociation.NatGateway props) as [gateway|];
     [destruct (SubnetNatGatewayAssociation.SubResourceID gateway);
      [destruct (SubnetNatGatewayAssociation.SubnetID (Body subnet))|]|]|];
    simpl; try (repeat split; fail).
  all: branches; reflexivity.
Qed.

Lemma subnet_create_associates_or_reports_the_existing_gateway_witness :
  (let r := run (SubnetNatGatewayAssociation.resourceSubnetNatGatewayAssociationCreate
                   InMemory.Nat.imp InMemory.Nat.client) InMemory.Nat.creating
              (Some InMemory.Nat.associated) in
   result r = Fail (ImportAsExistsError "azurerm_subnet_nat_gateway_association"
                      InMemory.Nat.subnetId)
   /\ data (final r) = InMemory.Nat.creating
   /\ Observe.submittedSubnets (calls (trace (final r))) = [])
  /\
  (let r := run (SubnetNatGatewayAssociation.resourceSubnetNatGatewayAssociationCreate
                   InMemory.Nat.imp InMemory.Nat.client) InMemory.Nat.creating
              (Some (SubnetNatGatewayAssociation.mkSubnet (Some InMemory.Nat.subnetId)
                       (Some (SubnetNatGatewayAssociation.mkSubnetProperties None
                                (Some "10.0.1.0/24"))))) in
   Observe.submittedSubnets (calls (trace (final r))) = [InMemory.Nat.associated]).
Proof.
  split.
  - exact (@subnet_create_associates_or_reports_the_existing_gateway
             (option SubnetNatGatewayAssociation.Subnet) InMemory.Nat.imp
             InMemory.Nat.client InMemory.Nat.creating (Some InMemory.Nat.associated)
             (SubnetNatGatewayAssociation.mkSubnetId "rg" "vnet1" "subnet1")
             (SubnetNatGatewayAssociation.mkNatGatewayId "gw1")
             eq_refl eq_refl eq_refl).
  - exact (@subnet_create_associates_or_reports_the_existing_gateway
             (option SubnetNatGatewayAssociation.Subnet) InMemory.Nat.imp
             InMemory.Nat.client InMemory.Nat.creating
             (Some (SubnetNatGatewayAssociation.mkSubnet (Some InMemory.Nat.subnetId)
                      (Some (SubnetNatGatewayAssociation.mkSubnetProperties None
                               (Some "10.0.1.0/24")))))
             (SubnetNatGatewayAssociation.mkSubnetId "rg" "vnet1" "subnet1")
             (SubnetNatGatewayAssociation.mkNatGatewayId "gw1")
             eq_refl eq_refl eq_refl).
Defined.

(** ** Delete of the subnet NAT-gateway association *)

(** X11.  Delete of the subnet NAT-gateway association, once the subnet is
    fetched with its properties.  When the subnet has no NAT gateway, or
    one without an ID, the Delete succeeds on the spot: it has made the one
    fetch, taken no lock and left the resource data as it was.  Otherwise it
    fetches the subnet again, and what it submits, once, is the subnet of
    this second fetch without its NAT gateway; a second fetch that comes
    back without properties makes the handler panic before anything is
    submitted. *)
Theorem subnet_delete_clears_the_gateway_of_the_latest_subnet (W : Type)
    (imp : SubnetNatGatewayAssociation.imports)
    (client : SubnetNatGatewayAssociation.SubnetsClient W) (d : ResourceData) (w : W)
    (id : SubnetNatGatewayAssociation.SubnetId)
    (props : SubnetNatGatewayAssociation.SubnetPropertiesFormat) :
  let resourceGroup := SubnetNatGatewayAssociation.ResourceGroup id in
  let virtualNetworkName := SubnetNatGatewayAssociation.VirtualNetworkName id in
  let subnetName := SubnetNatGatewayAssociation.Name id in
  let first := SubnetNatGatewayAssociation.Get client (timeouts.ForDelete d) resourceGroup
                 virtualNetworkName subnetName "" w in
  let second := SubnetNatGatewayAssociation.Get client (timeouts.ForDelete d) resourceGroup
                  virtualNetworkName subnetName "" (snd first) in
  let r := run (SubnetNatGatewayAssociation.resourceSubnetNatGatewayAssociationDelete
                  imp client) d w in
  SubnetNatGatewayAssociation.parseSubnetID imp (Id d) = inr id ->
  Err (fst first) = None ->
  SubnetNatGatewayAssociation.SubnetProperties (Body (fst first)) = Some props ->
  match Gateway.identified props with
  | None =>
      result r = Return tt
      /\ data (final r) = d
      /\ trace (final r)
         = [Api (SubnetNatGatewayAssociation.SubnetsGet (timeouts.ForDelete d) resourceGroup
                   virtualNetworkName subnetName "" (fst first))]
  | Some gatewayID =>
      forall parsedGatewayId : azure.ResourceID,
        SubnetNatGatewayAssociation.ParseAzureResourceID imp gatewayID
          = inr parsedGatewayId ->
        Err (fst second) = None ->
        match SubnetNatGatewayAssociation.SubnetProperties (Body (fst second)) with
        | Some latest =>
            Observe.submittedSubnets (calls (trace (final r)))
            = [SubnetNatGatewayAssociation.mkSubnet
                 (SubnetNatGatewayAssociation.SubnetID (Body (fst second)))
                 (Some (SubnetNatGatewayAssociation.mkSubnetProperties None
                          (SubnetNatGatewayAssociation.AddressPrefix latest)))]
        | None =>
            result r = Panic
            /\ Observe.submittedSubnets (calls (trace (final r))) = []
        end
  end.
Proof.
  intros resourceGroup virtualNetworkName subnetName first second r Hid Herr Hprops.
  subst r second first resourceGroup virtualNetworkName subnetName.
  unfold Gateway.identified.
  unfold SubnetNatGatewayAssociation.resourceSubnetNatGatewayAssociationDelete,
    SubnetNatGatewayAssociation.withNatGateway,
    SubnetNatGatewayAssociation.clientGet,
    SubnetNatGatewayAssociation.clientCreateOrUpdate,
    SubnetNatGatewayAssociation.futureWaitForCompletionRef.
  handler_unfold. simpl. rewrite Hid. simpl.
  destruct (SubnetNatGatewayAssociation.Get client _ _ _ _ _ w) as [subnet w'] eqn:E.
  simpl in *. rewrite Herr, Hprops. simpl.
  destruct (match SubnetNatGatewayAssociation.NatGateway props with
            | Some gateway => SubnetNatGatewayAssociation.SubResourceID gateway
            | None => None
            end) as [gatewayID|]; simpl; [|repeat split].
  intros parsedGatewayId Hparse Herr2. rewrite Hparse. simpl.
  destruct (SubnetNatGatewayAssociation.Get client _ _ _ _ _ w') as [latest w2] eqn:E2.
  simpl in *. rewrite Herr2.
  destruct (SubnetNatGatewayAssociation.SubnetProperties (Body latest)); simpl;
    [|split; reflexivity].
  branches; reflexivity.
Qed.

Lemma subnet_delete_clears_the_gateway_of_the_latest_subnet_witness :
  (let bare := SubnetNatGatewayAssociation.mkSubnet (Some InMemory.Nat.subnetId)
                 (Some (SubnetNatGatewayAssociation.mkSubnetProperties None
                          (Some "10.0.1.0/24"))) in
   let r := run (SubnetNatGatewayAssociation.resourceSubnetNatGatewayAssociationDelete
                   InMemory.Nat.imp InMemory.Nat.client) InMemory.Nat.existing (Some bare) in
   result r = Return tt
   /\ data (final r) = InMemory.Nat.existing
   /\ trace (final r)
      = [Api (SubnetNatGatewayAssociation.SubnetsGet
                (timeouts.ForDelete InMemory.Nat.existing) "rg" "vnet1" "subnet1" ""
                (mkResponse bare StatusOK None))])
  /\
  (let r := run (SubnetNatGatewayAssociation.resourceSubnetNatGatewayAssociationDelete
                   InMemory.Nat.imp InMemory.Nat.client) InMemory.Nat.existing
              (Some InMemory.Nat.associated) in
   Observe.submittedSubnets (calls (trace (final r)))
   = [SubnetNatGatewayAssociation.mkSubnet (Some InMemory.Nat.subnetId)
        (Some (SubnetNatGatewayAssociation.mkSubnetProperties None (Some "10.0.1.0/24")))])
  /\
  (let r := run (SubnetNatGatewayAssociation.resourceSubnetNatGatewayAssociationDelete
                   InMemory.Nat.imp Doubles.stripping) InMemory.Nat.existing
              (false, InMemory.Nat.associated) in
   result r = Panic
   /\ Observe.submittedSubnets (calls (trace (final r))) = []).
Proof.
  split; [|split].
  - exact (@subnet_delete_clears_the_gateway_of_the_latest_subnet
             (option SubnetNatGatewayAssociation.Subnet) InMemory.Nat.imp
             InMemory.Nat.client InMemory.Nat.existing
             (Some (SubnetNatGatewayAssociation.mkSubnet (Some InMemory.Nat.subnetId)
                      (Some (SubnetNatGatewayAssociation.mkSubnetProperties None
                               (Some "10.0.1.0/24")))))
             (SubnetNatGatewayAssociation.mkSubnetId "rg" "vnet1" "subnet1") _
             eq_refl eq_refl eq_refl).
  - exact (@subnet_delete_clears_the_gateway_of_the_latest_subnet
             (option SubnetNatGatewayAssociation.Subnet) InMemory.Nat.imp
             InMemory.Nat.client InMemory.Nat.existing (Some InMemory.Nat.associated)
             (SubnetNatGatewayAssociation.mkSubnetId "rg" "vnet1" "subnet1") _
             eq_refl eq_refl eq_refl InMemory.Nat.parsedGatewayId eq_refl eq_refl).
  - exact (@subnet_delete_clears_the_gateway_of_the_latest_subnet
             (bool * SubnetNatGatewayAssociation.Subnet)%type InMemory.Nat.imp
             Doubles.stripping InMemory.Nat.existing (false, InMemory.Nat.associated)
             (SubnetNatGatewayAssociation.mkSubnetId "rg" "vnet1" "subnet1") _
             eq_refl eq_refl eq_refl InMemory.Nat.parsedGatewayId eq_refl eq_refl).
Defined.

(** ** How the loops of Create, Read and Delete compose *)

Lemma filter_filter (A : Type) (f g : A -> bool) (l : list A) :
  filter f (filter g l) = filter (fun a => g a && f a) l.
Proof.
  induction l as [|a l IH]; simpl; [reflexivity|].
  destruct (g a); simpl; [destruct (f a)|]; rewrite ?IH; reflexivity.
Qed.

Lemma filter_none (A : Type) (f g : A -> bool) (l : list A) :
  existsb g l = false -> filter (fun a => f a && negb (g a)) l = filter f l.
Proof.
  induction l as [|a l IH]; simpl; [reflexivity|]. intros H.
  apply orb_false_iff in H. destruct H as [Ha Hl].
  rewrite Ha, andb_true_r, IH by assumption. reflexivity.
Qed.

Lemma existsb_filter_absent (A : Type) (f g : A -> bool) (l : list A) :
  existsb g l = false -> existsb g (filter f l) = false.
Proof.
  induction l as [|a l IH]; simpl; [reflexivity|]. intros H.
  apply orb_false_iff in H. destruct H as [Ha Hl].
  destruct (f a); simpl; [rewrite Ha|]; apply IH, Hl.
Qed.

(** X12.  The loops over the backend pools of an IP configuration, taken
    together.  Let [pools] hold no pool with the ID, and let [created] be
    what Create makes of them: the identified pools and the new one.  Then
    the loop of Read finds the ID in [created]; the loop of a second Create
    on [created] ends with the import error; and the loop of Delete on
    [created] gives back the identified pools of [pools], in which the loop
    of Read no longer finds the ID. *)
Theorem pool_loops_compose (backendAddressPoolId rid : string)
    (pools : list NetworkInterfaceBackendAddressPoolAssociation.BackendAddressPool) :
  existsb (Observe.isPool backendAddressPoolId) pools = false ->
  exists identified,
    NetworkInterfaceBackendAddressPoolAssociation.existingPools backendAddressPoolId rid
      pools [] = inr identified
    /\ let created :=
         identified
         ++ [NetworkInterfaceBackendAddressPoolAssociation.mkBackendAddressPool
               (Some backendAddressPoolId) None None] in
       NetworkInterfaceBackendAddressPoolAssociation.poolFound backendAddressPoolId created
       = true
       /\ NetworkInterfaceBackendAddressPoolAssociation.existingPools backendAddressPoolId
            rid created []
          = inl (ImportAsExistsError
                   "azurerm_network_interface_backend_address_pool_association" rid)
       /\ NetworkInterfaceBackendAddressPoolAssociation.remainingPools backendAddressPoolId
            created [] = filter Observe.hasID pools
       /\ NetworkInterfaceBackendAddressPoolAssociation.poolFound backendAddressPoolId
            (NetworkInterfaceBackendAddressPoolAssociation.remainingPools
               backendAddressPoolId created [])
          = false.
Proof.
  intros Habsent. eexists. split; [apply existingPools_absent, Habsent|].
  simpl.
  assert (Hnew : Observe.isPool backendAddressPoolId
                   (NetworkInterfaceBackendAddressPoolAssociation.mkBackendAddressPool
                      (Some backendAddressPoolId) None None) = true).
  { unfold Observe.isPool. simpl. apply String.eqb_refl. }
  assert (Hfound : existsb (Observe.isPool backendAddressPoolId)
                     (filter Observe.hasID pools
                      ++ [NetworkInterfaceBackendAddressPoolAssociation.mkBackendAddressPool
                            (Some backendAddressPoolId) None None]) = true).
  { rewrite existsb_app. simpl. rewrite Hnew. apply orb_true_iff. right. reflexivity. }
  assert (Hleft : NetworkInterfaceBackendAddressPoolAssociation.remainingPools
                    backendAddressPoolId
                    (filter Observe.hasID pools
                     ++ [NetworkInterfaceBackendAddressPoolAssociation.mkBackendAddressPool
                           (Some backendAddressPoolId) None None]) []
                  = filter Observe.hasID pools).
  { rewrite remainingPools_filter. simpl. rewrite filter_app. simpl.
    rewrite Hnew. simpl. rewrite app_nil_r, filter_filter.
    rewrite <- (filter_none Observe.hasID (Observe.isPool backendAddressPoolId) pools Habsent).
    apply filter_ext. intros a. destruct (Observe.hasID a); reflexivity. }
  repeat split.
  - rewrite poolFound_existsb. exact Hfound.
  - apply existingPools_conflict. exact Hfound.
  - exact Hleft.
  - rewrite Hleft, poolFound_existsb. apply existsb_filter_absent, Habsent.
Qed.

Lemma pool_loops_compose_witness :
  exists identified,
    NetworkInterfaceBackendAddressPoolAssociation.existingPools (InMemory.Nic.poolId "b")
      "rid" [InMemory.Nic.pool "a"; InMemory.Nic.orphan] [] = inr identified
    /\ let created :=
         identified
         ++ [NetworkInterfaceBackendAddressPoolAssociation.mkBackendAddressPool
               (Some (InMemory.Nic.poolId "b")) None None] in
       NetworkInterfaceBackendAddressPoolAssociation.poolFound (InMemory.Nic.poolId "b")
         created = true
       /\ NetworkInterfaceBackendAddressPoolAssociation.existingPools
            (InMemory.Nic.poolId "b") "rid" created []
          = inl (ImportAsExistsError
                   "azurerm_network_interface_backend_address_pool_association" "rid")
       /\ NetworkInterfaceBackendAddressPoolAssociation.remainingPools
            (InMemory.Nic.poolId "b") created []
          = filter Observe.hasID [InMemory.Nic.pool "a"; InMemory.Nic.orphan]
       /\ NetworkInterfaceBackendAddressPoolAssociation.poolFound (InMemory.Nic.poolId "b")
            (NetworkInterfaceBackendAddressPoolAssociation.remainingPools
               (InMemory.Nic.poolId "b") created [])
          = false.
Proof.
  exact (@pool_loops_compose (InMemory.Nic.poolId "b") "rid"
           [InMemory.Nic.pool "a"; InMemory.Nic.orphan] eq_refl).
Defined.

Lemma filter_idempotent (A : Type) (f : A -> bool) (l : list A) :
  filter f (filter f l) = filter f l.
Proof.
  induction l as [|a l IH]; simpl; [reflexivity|].
  destruct (f a) eqn:E; simpl; rewrite ?E, IH; reflexivity.
Qed.

Lemma replaced_absent (imp : IotHubRoute.imports) (routeName : string)
    (route : IotHubRoute.RouteProperties) (routes : list IotHubRoute.RouteProperties) :
  existsb (Observe.isRoute imp routeName) routes = false ->
  Routes.replaced imp routeName route routes = routes.
Proof.
  unfold Routes.replaced.
  induction routes as [|r rest IH]; simpl; [reflexivity|]. intros H.
  apply orb_false_iff in H. destruct H as [Hr Hrest].
  rewrite Hr, IH by assumption. reflexivity.
Qed.

(** X13.  The loops over the routes of a hub, taken together.  Let
    [routes] hold no route of the name, by [EqualFold], and let [created]
    be what the Create of [route], which bears the name, makes of them: the
    routes with a name and the new one.  Then the loop of a second Create
    on [created] ends with the import error; the loop of an update to
    [changed] on [created] puts [changed] in the place of [route] and of no
    other; and the loop of Delete on [created] gives back the named routes
    of [routes].  The name has to equal itself under the [EqualFold] in
    use. *)
Theorem route_loops_compose (imp : IotHubRoute.imports) (routeName rid : string)
    (route changed : IotHubRoute.RouteProperties)
    (routes : list IotHubRoute.RouteProperties) :
  IotHubRoute.RouteName route = Some routeName ->
  IotHubRoute.EqualFold imp routeName routeName = true ->
  existsb (Observe.isRoute imp routeName) routes = false ->
  exists named,
    IotHubRoute.existingRoutes imp true routeName rid route routes [] false
    = inr (named, false)
    /\ let created := named ++ [route] in
       IotHubRoute.existingRoutes imp true routeName rid route created [] false
       = inl (ImportAsExistsError "azurerm_iothub_route" rid)
       /\ IotHubRoute.existingRoutes imp false routeName rid changed created [] false
          = inr (named ++ [changed], true)
       /\ IotHubRoute.updatedRoutes imp routeName created [] = filter Observe.hasName routes.
Proof.
  intros Hname Hrefl Habsent.
  eexists. split; [apply existingRoutes_absent, Habsent|]. simpl.
  assert (Hroute : Observe.isRoute imp routeName route = true).
  { unfold Observe.isRoute. rewrite Hname. exact Hrefl. }
  assert (Hnamed : Observe.hasName route = true).
  { unfold Observe.hasName. rewrite Hname. reflexivity. }
  assert (Hkept : existsb (Observe.isRoute imp routeName) (filter Observe.hasName routes)
                  = false) by (apply existsb_filter_absent, Habsent).
  repeat split.
  - apply existingRoutes_conflict. rewrite existsb_app. simpl. rewrite Hroute.
    apply orb_true_iff. right. reflexivity.
  - rewrite existingRoutes_replaced. simpl.
    rewrite filter_app, filter_idempotent. simpl. rewrite Hnamed.
    unfold Routes.replaced. rewrite map_app. simpl. rewrite Hroute.
    fold (Routes.replaced imp routeName changed (filter Observe.hasName routes)).
    rewrite replaced_absent by exact Hkept.
    rewrite existsb_app. simpl. rewrite Hroute, Hkept. reflexivity.
  - rewrite updatedRoutes_filter. simpl. rewrite filter_app. simpl.
    rewrite Hroute, Hnamed. simpl. rewrite app_nil_r, filter_filter.
    rewrite <- (filter_none Observe.hasName (Observe.isRoute imp routeName) routes Habsent).
    apply filter_ext. intros a. destruct (Observe.hasName a); reflexivity.
Qed.

Lemma route_loops_compose_witness :
  exists named,
    IotHubRoute.existingRoutes InMemory.Hub.imp true "r1" "rid" (InMemory.Hub.route "r1")
      [InMemory.Hub.route "r0"] [] false
    = inr (named, false)
    /\ let created := named ++ [InMemory.Hub.route "r1"] in
       IotHubRoute.existingRoutes InMemory.Hub.imp true "r1" "rid" (InMemory.Hub.route "r1")
         created [] false
       = inl (ImportAsExistsError "azurerm_iothub_route" "rid")
       /\ IotHubRoute.existingRoutes InMemory.Hub.imp false "r1" "rid"
            (InMemory.Hub.route "R1") created [] false
          = inr (named ++ [InMemory.Hub.route "R1"], true)
       /\ IotHubRoute.updatedRoutes InMemory.Hub.imp "r1" created []
          = filter Observe.hasName [InMemory.Hub.route "r0"].
Proof.
  exact (@route_loops_compose InMemory.Hub.imp "r1" "rid" (InMemory.Hub.route "r1")
           (InMemory.Hub.route "R1") [InMemory.Hub.route "r0"] eq_refl eq_refl eq_refl).
Defined.

(** ** Delete of an object that is gone already *)

(** X14.  Three Deletes take "not found" for done.  The Delete of the
    resource group succeeds when the deletion call fails and the response
    of its future is "not found", without waiting, and also when the wait
    fails and the response of the future is "not found" by then.  The
    Delete of the scale-set extension succeeds when the deletion call fails
    with "not found", without waiting.  The Delete of the automation
    schedule succeeds when the deletion call fails with "not found".  Each
    leaves the resource data as it was. *)
Theorem deletes_take_not_found_for_done :
  (forall (W Future : Type) (imp : ResourceGroup.imports) (WasNotFound : Future -> bool)
          (client : ResourceGroupDelete.GroupsClient W Future) (d : ResourceData) (w : W)
          (id : ResourceGroup.ResourceGroupId),
      let ctx := timeouts.ForDelete d in
      let deleted := ResourceGroupDelete.Delete client ctx
                       (ResourceGroup.ResourceGroupName id) "" w in
      let waited := ResourceGroupDelete.FutureWaitForCompletionRef client ctx
                      (fst (fst deleted)) (snd deleted) in
      let r := run (ResourceGroupDelete.resourceResourceGroupDelete imp WasNotFound client)
                 d w in
      ResourceGroup.parseResourceGroupID imp (Id d) = inr id ->
      (snd (fst deleted) <> None /\ WasNotFound (fst (fst deleted)) = true
       \/ snd (fst deleted) = None
          /\ snd (fst waited) <> None /\ WasNotFound (fst (fst waited)) = true) ->
      result r = Return tt
      /\ data (final r) = d
      /\ length (trace (final r))
         = match snd (fst deleted) with
           | Some _ => 1%nat
           | None => 2%nat
           end)
  /\
  (forall (json W Future : Type) (imp : VirtualMachineScaleSetExtension.imports json)
          (WasNotFound : Future -> bool)
          (client : VirtualMachineScaleSetExtensionDelete.ExtensionsClient W Future)
          (d : ResourceData) (w : W)
          (id : VirtualMachineScaleSetExtension.VirtualMachineScaleSetExtensionId),
      let deleted := VirtualMachineScaleSetExtensionDelete.Delete client
                       (timeouts.ForDelete d)
                       (VirtualMachineScaleSetExtension.ResourceGroup id)
                       (VirtualMachineScaleSetExtension.VirtualMachineScaleSetName id)
                       (VirtualMachineScaleSetExtension.ExtensionName id) w in
      let r := run (VirtualMachineScaleSetExtensionDelete.resourceVirtualMachineScaleSetExtensionDelete
                      imp WasNotFound client) d w in
      VirtualMachineScaleSetExtension.parseVirtualMachineScaleSetExtensionID imp (Id d)
        = inr id ->
      snd (fst deleted) <> None ->
      WasNotFound (fst (fst deleted)) = true ->
      result r = Return tt
      /\ data (final r) = d
      /\ length (trace (final r)) = 1%nat)
  /\
  (forall (W : Type) (ParseAzureResourceID : string -> error + azure.ResourceID)
          (client : AutomationSchedule.ScheduleClient W) (d : ResourceData) (w : W)
          (id : azure.ResourceID),
      let r := run (AutomationSchedule.resourceAutomationScheduleDelete
                      ParseAzureResourceID client) d w in
      ParseAzureResourceID (Id d) = inr id ->
      NotFound (fst (AutomationSchedule.Delete client (timeouts.ForDelete d)
                       (azure.ResourceGroup id) (azure.PathAt id "automationAccounts")
                       (azure.PathAt id "schedules") w)) ->
      result r = Return tt /\ data (final r) = d).
Proof.
  split; [|split].
  - intros W Future imp WasNotFound client d w id ctx deleted waited r Hparse H.
    subst r waited deleted ctx.
    unfold ResourceGroupDelete.resourceResourceGroupDelete,
      ResourceGroupDelete.clientDelete, ResourceGroupDelete.futureWaitForCompletionRef.
    handler_unfold. simpl. rewrite Hparse. simpl.
    destruct (ResourceGroupDelete.Delete client (timeouts.ForDelete d)
                (ResourceGroup.ResourceGroupName id) "" w) as [[future err] w'].
    cbn [fst snd] in *.
    destruct H as [[Herr Hgone] | [Herr [Hwait Hgone]]].
    + destruct err as [err|]; [|contradiction]. simpl. rewrite Hgone. repeat split.
    + subst err. simpl.
      destruct (ResourceGroupDelete.FutureWaitForCompletionRef client
                  (timeouts.ForDelete d) future w') as [[future' err] w2].
      cbn [fst snd] in *. destruct err as [err|]; [|contradiction].
      simpl. rewrite Hgone. repeat split.
  - intros json W Future imp WasNotFound client d w id deleted r Hparse Herr Hgone.
    subst r deleted.
    unfold VirtualMachineScaleSetExtensionDelete.resourceVirtualMachineScaleSetExtensionDelete,
      VirtualMachineScaleSetExtensionDelete.clientDelete,
      VirtualMachineScaleSetExtensionDelete.futureWaitForCompletionRef.
    handler_unfold. simpl. rewrite Hparse. simpl.
    destruct (VirtualMachineScaleSetExtensionDelete.Delete client _ _ _ _ w)
      as [[future err] w'].
    simpl in *. destruct err as [err|]; [|contradiction]. rewrite Hgone. repeat split.
  - intros W ParseAzureResourceID client d w id r Hparse [Herr Hgone].
    subst r. unfold AutomationSchedule.resourceAutomationScheduleDelete.
    handler_unfold. simpl. rewrite Hparse. simpl.
    destruct (AutomationSchedule.Delete client _ _ _ _ w) as [resp w'].
    simpl in *. destruct (Err resp) as [err|]; [|contradiction].
    rewrite Hgone. split; reflexivity.
Qed.

Lemma deletes_take_not_found_for_done_witness :
  (let r := run (ResourceGroupDelete.resourceResourceGroupDelete InMemory.Rg.imp
                   Gone.statusWasNotFound Gone.group) Gone.groupData tt in
   result r = Return tt /\ data (final r) = Gone.groupData
   /\ length (trace (final r)) = 1%nat)
  /\
  (let r := run (ResourceGroupDelete.resourceResourceGroupDelete InMemory.Rg.imp
                   Gone.statusWasNotFound Gone.groupWhileWaiting) Gone.groupData tt in
   result r = Return tt /\ data (final r) = Gone.groupData
   /\ length (trace (final r)) = 2%nat)
  /\
  (let r := run (VirtualMachineScaleSetExtensionDelete.resourceVirtualMachineScaleSetExtensionDelete
                   InMemory.Vmss.imp Gone.statusWasNotFound Gone.extension)
              Gone.extensionData tt in
   result r = Return tt /\ data (final r) = Gone.extensionData
   /\ length (trace (final r)) = 1%nat)
  /\
  (let r := run (AutomationSchedule.resourceAutomationScheduleDelete
                   InMemory.parseResourceID Gone.schedule) Gone.scheduleData tt in
   result r = Return tt /\ data (final r) = Gone.scheduleData).
Proof.
  split; [|split; [|split]].
  - refine (proj1 deletes_take_not_found_for_done unit Z InMemory.Rg.imp
              Gone.statusWasNotFound Gone.group Gone.groupData tt
              (ResourceGroup.mkResourceGroupId "rg1") eq_refl _).
    left. split; [discriminate | reflexivity].
  - refine (proj1 deletes_take_not_found_for_done unit Z InMemory.Rg.imp
              Gone.statusWasNotFound Gone.groupWhileWaiting Gone.groupData tt
              (ResourceGroup.mkResourceGroupId "rg1") eq_refl _).
    right. split; [reflexivity | split; [discriminate | reflexivity]].
  - refine (proj1 (proj2 deletes_take_not_found_for_done) string unit Z InMemory.Vmss.imp
              Gone.statusWasNotFound Gone.extension Gone.extensionData tt
              (VirtualMachineScaleSetExtension.mkExtensionId "rg" "vmss1" "ext1")
              eq_refl _ eq_refl).
    discriminate.
  - refine (proj2 (proj2 deletes_take_not_found_for_done) unit InMemory.parseResourceID
              Gone.schedule Gone.scheduleData tt _ eq_refl _).
    split; [discriminate | reflexivity].
Defined.

(** X15.  Three Deletes report "not found" like any other failure.  The
    Delete of the scale-set extension fails when the wait for the deletion
    fails, whatever the response of the future; the Delete of the site
    recovery protection container fails when the deletion call fails; the
    Delete of the backup protection container fails when the
    deregistration fails.  Each wraps the error it was given and leaves the
    resource data as it was. *)
Theorem deletes_report_every_failure :
  (forall (json W Future : Type) (imp : VirtualMachineScaleSetExtension.imports json)
          (WasNotFound : Future -> bool)
          (client : VirtualMachineScaleSetExtensionDelete.ExtensionsClient W Future)
          (d : ResourceData) (w : W)
          (id : VirtualMachineScaleSetExtension.VirtualMachineScaleSetExtensionId)
          (err : error),
      let resourceGroup := VirtualMachineScaleSetExtension.ResourceGroup id in
      let vmScaleSetName := VirtualMachineScaleSetExtension.VirtualMachineScaleSetName id in
      let extensionName := VirtualMachineScaleSetExtension.ExtensionName id in
      let deleted := VirtualMachineScaleSetExtensionDelete.Delete client
                       (timeouts.ForDelete d) resourceGroup vmScaleSetName extensionName w in
      let waited := VirtualMachineScaleSetExtensionDelete.FutureWaitForCompletionRef client
                      (timeouts.ForDelete d) (fst (fst deleted)) (snd deleted) in
      let r := run (VirtualMachineScaleSetExtensionDelete.resourceVirtualMachineScaleSetExtensionDelete
                      imp WasNotFound client) d w in
      VirtualMachineScaleSetExtension.parseVirtualMachineScaleSetExtensionID imp (Id d)
        = inr id ->
      snd (fst deleted) = None ->
      fst waited = Some err ->
      result r
      = Fail (Wrapf "Error waiting for deletion of Extension %q (Virtual Machine Scale Set %q / Resource Group %q): %+v"
                [extensionName; vmScaleSetName; resourceGroup] err)
      /\ data (final r) = d)
  /\
  (forall (W : Type) (imp : SiteRecoveryProtectionContainer.imports)
          (client : SiteRecoveryProtectionContainer.ProtectionContainerClient W)
          (d : ResourceData) (w : W) (id : azure.ResourceID) (err : error),
      let fabricName := azure.PathAt id "replicationFabrics" in
      let name := azure.PathAt id "replicationProtectionContainers" in
      let r := run (SiteRecoveryProtectionContainer.resourceSiteRecoveryProtectionContainerDelete
                      imp client) d w in
      SiteRecoveryProtectionContainer.ParseAzureResourceID imp (Id d) = inr id ->
      fst (SiteRecoveryProtectionContainer.Delete client (azure.ResourceGroup id)
             (azure.PathAt id "vaults") (timeouts.ForDelete d) fabricName name w)
        = Some err ->
      result r
      = Fail (Wrapf "Error deleting site recovery protection container %s (fabric %s): %+v"
                [name; fabricName] err)
      /\ data (final r) = d
      /\ length (trace (final r)) = 1%nat)
  /\
  (forall (W : Type) (imp : BackupProtectionContainerStorageAccount.imports)
          (clients : BackupProtectionContainerStorageAccount.Clients W)
          (Unregister : context -> string -> string -> string -> string -> W ->
                        BackupProtectionContainerStorageAccountDelete.Unregistration * W)
          (d : ResourceData) (w : W) (id : azure.ResourceID) (err : error),
      let vaultName := azure.PathAt id "vaults" in
      let containerName := azure.PathAt id "protectionContainers" in
      let r := run (BackupProtectionContainerStorageAccountDelete.resourceBackupProtectionContainerStorageAccountDelete
                      imp clients Unregister) d w in
      BackupProtectionContainerStorageAccount.ParseAzureResourceID imp (Id d) = inr id ->
      BackupProtectionContainerStorageAccountDelete.UnregisterErr
        (fst (Unregister (timeouts.ForDelete d) vaultName (azure.ResourceGroup id)
                (azure.PathAt id "backupFabrics") containerName w))
        = Some err ->
      result r
      = Fail (Wrapf "Error deregistering backup protection container %s (Vault %s): %+v"
                [containerName; vaultName] err)
      /\ data (final r) = d
      /\ length (trace (final r)) = 1%nat).
Proof.
  split; [|split].
  - intros json W Future imp WasNotFound client d w id err resourceGroup vmScaleSetName
      extensionName deleted waited r Hparse Hdeleted Hwaited.
    subst r waited deleted resourceGroup vmScaleSetName extensionName.
    unfold VirtualMachineScaleSetExtensionDelete.resourceVirtualMachineScaleSetExtensionDelete,
      VirtualMachineScaleSetExtensionDelete.clientDelete,
      VirtualMachineScaleSetExtensionDelete.futureWaitForCompletionRef.
    handler_unfold. simpl. rewrite Hparse. simpl.
    destruct (VirtualMachineScaleSetExtensionDelete.Delete client (timeouts.ForDelete d)
                (VirtualMachineScaleSetExtension.ResourceGroup id)
                (VirtualMachineScaleSetExtension.VirtualMachineScaleSetName id)
                (VirtualMachineScaleSetExtension.ExtensionName id) w)
      as [[future err0] w'].
    cbn [fst snd] in *. subst err0. simpl.
    destruct (VirtualMachineScaleSetExtensionDelete.FutureWaitForCompletionRef client
                (timeouts.ForDelete d) future w') as [err1 w2].
    cbn [fst snd] in *. subst err1. simpl. split; reflexivity.
  - intros W imp client d w id err fabricName name r Hparse Hdeleted.
    subst r fabricName name.
    unfold SiteRecoveryProtectionContainer.resourceSiteRecoveryProtectionContainerDelete,
      SiteRecoveryProtectionContainer.clientDelete,
      SiteRecoveryProtectionContainer.futureWaitForCompletionRef.
    handler_unfold. simpl. rewrite Hparse. simpl.
    destruct (SiteRecoveryProtectionContainer.Delete client (azure.ResourceGroup id)
                (azure.PathAt id "vaults") (timeouts.ForDelete d)
                (azure.PathAt id "replicationFabrics")
                (azure.PathAt id "replicationProtectionContainers") w) as [err0 w'].
    cbn [fst snd] in *. subst err0. simpl. repeat split.
  - intros W imp clients Unregister d w id err vaultName containerName r Hparse Hunregister.
    subst r vaultName containerName.
    unfold BackupProtectionContainerStorageAccountDelete.resourceBackupProtectionContainerStorageAccountDelete.
    handler_unfold. simpl. rewrite Hparse. simpl.
    destruct (Unregister (timeouts.ForDelete d) (azure.PathAt id "vaults")
                (azure.ResourceGroup id) (azure.PathAt id "backupFabrics")
                (azure.PathAt id "protectionContainers") w) as [resp w'].
    cbn [fst snd] in *. rewrite Hunregister. simpl. repeat split.
Qed.

Lemma deletes_report_every_failure_witness :
  (let r := run (VirtualMachineScaleSetExtensionDelete.resourceVirtualMachineScaleSetExtensionDelete
                   InMemory.Vmss.imp Gone.statusWasNotFound Gone.extensionWhileWaiting)
              Gone.extensionData tt in
   result r
   = Fail (Wrapf "Error waiting for deletion of Extension %q (Virtual Machine Scale Set %q / Resource Group %q): %+v"
             ["ext1"; "vmss1"; "rg"] InMemory.notFoundError)
   /\ data (final r) = Gone.extensionData)
  /\
  (let r := run (SiteRecoveryProtectionContainer.resourceSiteRecoveryProtectionContainerDelete
                   Gone.recoveryImp Gone.container) Gone.containerData tt in
   result r
   = Fail (Wrapf "Error deleting site recovery protection container %s (fabric %s): %+v"
             ["container1"; "fabric1"] InMemory.notFoundError)
   /\ data (final r) = Gone.containerData
   /\ length (trace (final r)) = 1%nat)
  /\
  (let r := run (BackupProtectionContainerStorageAccountDelete.resourceBackupProtectionContainerStorageAccountDelete
                   InMemory.Backup.imp InMemory.Backup.clients Gone.unregister)
              Gone.backupData None in
   result r
   = Fail (Wrapf "Error deregistering backup protection container %s (Vault %s): %+v"
             ["StorageContainer;storage;rg;account1"; "vault1"] InMemory.notFoundError)
   /\ data (final r) = Gone.backupData
   /\ length (trace (final r)) = 1%nat).
Proof.
  split; [|split].
  - exact (proj1 deletes_report_every_failure string unit Z InMemory.Vmss.imp
             Gone.statusWasNotFound Gone.extensionWhileWaiting Gone.extensionData tt
             (VirtualMachineScaleSetExtension.mkExtensionId "rg" "vmss1" "ext1")
             InMemory.notFoundError eq_refl eq_refl eq_refl).
  - exact (proj1 (proj2 deletes_report_every_failure) unit Gone.recoveryImp Gone.container
             Gone.containerData tt _ InMemory.notFoundError eq_refl eq_refl).
  - exact (proj2 (proj2 deletes_report_every_failure)
             (option BackupProtectionContainerStorageAccount.ProtectionContainerResource)
             InMemory.Backup.imp InMemory.Backup.clients Gone.unregister Gone.backupData
             None _ InMemory.notFoundError eq_refl eq_refl).
Defined.

(** ** What a Delete leaves of the resource data *)

(** X16.  No Delete of an association or of the resource group writes to
    the resource data: however the handler ends, the identifier, the
    configuration and the attributes are as they were given to it.  Shown
    for the Delete of the network-interface backend-pool association, of
    the IoT Hub route, of the subnet NAT-gateway association and of the
    resource group. *)
Theorem association_deletes_leave_the_resource_data (W : Type) (d : ResourceData) (w : W) :
  (forall imp client,
      data (final (run (NetworkInterfaceBackendAddressPoolAssociation.resourceNetworkInterfaceBackendAddressPoolAssociationDelete
                          imp client) d w)) = d)
  /\ (forall imp client,
         data (final (run (IotHubRoute.resourceIotHubRouteDelete imp client) d w)) = d)
  /\ (forall imp client,
         data (final (run (SubnetNatGatewayAssociation.resourceSubnetNatGatewayAssociationDelete
                             imp client) d w)) = d)
  /\ (forall Future imp WasNotFound (client : ResourceGroupDelete.GroupsClient W Future),
         data (final (run (ResourceGroupDelete.resourceResourceGroupDelete imp WasNotFound
                             client) d w)) = d).
Proof.
  repeat split; intros.
  - unfold NetworkInterfaceBackendAddressPoolAssociation.resourceNetworkInterfaceBackendAddressPoolAssociationDelete,
      NetworkInterfaceBackendAddressPoolAssociation.clientGet,
      NetworkInterfaceBackendAddressPoolAssociation.clientCreateOrUpdate,
      NetworkInterfaceBackendAddressPoolAssociation.futureWaitForCompletionRef.
    handler_unfold. branches. all: reflexivity.
  - unfold IotHubRoute.resourceIotHubRouteDelete, IotHubRoute.clientGet,
      IotHubRoute.clientCreateOrUpdate, IotHubRoute.futureWaitForCompletionRef.
    handler_unfold. branches. all: reflexivity.
  - unfold SubnetNatGatewayAssociation.resourceSubnetNatGatewayAssociationDelete,
      SubnetNatGatewayAssociation.clientGet,
      SubnetNatGatewayAssociation.clientCreateOrUpdate,
      SubnetNatGatewayAssociation.futureWaitForCompletionRef.
    handler_unfold. branches. all: reflexivity.
  - unfold ResourceGroupDelete.resourceResourceGroupDelete,
      ResourceGroupDelete.clientDelete, ResourceGroupDelete.futureWaitForCompletionRef.
    handler_unfold. branches. all: reflexivity.
Qed.

(** X17.  Nor does the Delete of the scale-set extension, of the automation
    schedule, of the site recovery protection container or of the backup
    protection container write to the resource data: however the handler
    ends, the resource data is as it was given to it. *)
Theorem resource_deletes_leave_the_resource_data (W : Type) (d : ResourceData) (w : W) :
  (forall json Future (imp : VirtualMachineScaleSetExtension.imports json) WasNotFound
          (client : VirtualMachineScaleSetExtensionDelete.ExtensionsClient W Future),
      data (final (run (VirtualMachineScaleSetExtensionDelete.resourceVirtualMachineScaleSetExtensionDelete
                          imp WasNotFound client) d w)) = d)
  /\ (forall ParseAzureResourceID (client : AutomationSchedule.ScheduleClient W),
         data (final (run (AutomationSchedule.resourceAutomationScheduleDelete
                             ParseAzureResourceID client) d w)) = d)
  /\ (forall imp client,
         data (final (run (SiteRecoveryProtectionContainer.resourceSiteRecoveryProtectionContainerDelete
                             imp client) d w)) = d)
  /\ (forall imp (clients : BackupProtectionContainerStorageAccount.Clients W) Unregister,
         data (final (run (BackupProtectionContainerStorageAccountDelete.resourceBackupProtectionContainerStorageAccountDelete
                             imp clients Unregister) d w)) = d).
Proof.
  repeat split; intros.
  - unfold VirtualMachineScaleSetExtensionDelete.resourceVirtualMachineScaleSetExtensionDelete,
      VirtualMachineScaleSetExtensionDelete.clientDelete,
      VirtualMachineScaleSetExtensionDelete.futureWaitForCompletionRef.
    handler_unfold. branches. all: reflexivity.
  - unfold AutomationSchedule.resourceAutomationScheduleDelete.
    handler_unfold. branches. all: reflexivity.
  - unfold SiteRecoveryProtectionContainer.resourceSiteRecoveryProtectionContainerDelete,
      SiteRecoveryProtectionContainer.clientDelete,
      SiteRecoveryProtectionContainer.futureWaitForCompletionRef.
    handler_unfold. branches. all: reflexivity.
  - unfold BackupProtectionContainerStorageAccountDelete.resourceBackupProtectionContainerStorageAccountDelete,
      lift,
      BackupProtectionContainerStorageAccount.resourceBackupProtectionContainerStorageAccountWaitForOperation.
    handler_unfold. branches. all: reflexivity.
Qed.

(** ** Update of the scale-set extension *)

Lemma changedProperties_only_changes (json : Type)
    (imp : VirtualMachineScaleSetExtension.imports json)
    (HasChange : ResourceData -> string -> bool) (d : ResourceData)
    (props : VirtualMachineScaleSetExtension.VirtualMachineScaleSetExtensionProperties json) :
  VirtualMachineScaleSetExtensionUpdate.changedProperties imp HasChange d = inr props ->
  VirtualMachineScaleSetExtension.AutoUpgradeMinorVersion props
  = Some (GetBool d "auto_upgrade_minor_version")
  /\ Forall (fun key => Changes.sent props key = HasChange d key) Changes.tracked.
Proof.
  unfold VirtualMachineScaleSetExtensionUpdate.changedProperties. intros H.
  destruct (HasChange d "protected_settings") eqn:H2;
    [destruct (VirtualMachineScaleSetExtension.expandJson imp "protected_settings" _);
     [discriminate|]|];
    (destruct (HasChange d "settings") eqn:H5;
     [destruct (VirtualMachineScaleSetExtension.expandJson imp "settings" _);
      [discriminate|]|]);
    injection H as <-;
    (split; [reflexivity|]);
    unfold Changes.tracked; repeat constructor; unfold Changes.sent; simpl;
    rewrite ?H2, ?H5;
    try reflexivity;
    match goal with
    | |- Changes.isSome (if ?b then _ else _) = ?b => destruct b; reflexivity
    end.
Qed.

(** X18.  An Update of the scale-set extension sends only what changed.
    It submits at most once, and nothing is called before the submission;
    the extension submitted has no ID, bears the name parsed from the
    identifier, always carries [auto_upgrade_minor_version], and carries
    each of the other attributes exactly when [d.HasChange] holds of
    it. *)
Theorem update_sends_only_what_changed (json W : Type)
    (imp : VirtualMachineScaleSetExtension.imports json)
    (clients : VirtualMachineScaleSetExtension.Clients json W)
    (HasChange : ResourceData -> string -> bool) (d : ResourceData) (w : W) :
  let cs := calls (trace (final (run (VirtualMachineScaleSetExtensionUpdate.resourceVirtualMachineScaleSetExtensionUpdate
                                        imp clients HasChange) d w))) in
  (length (Observe.submittedExtensions cs) <= 1)%nat
  /\ match cs with
     | [] => True
     | c :: _ => Changes.isSubmission c = true
     end
  /\ forall id,
       VirtualMachineScaleSetExtension.parseVirtualMachineScaleSetExtensionID imp (Id d)
         = inr id ->
       Forall (Changes.onlyChanges HasChange d
                 (VirtualMachineScaleSetExtension.ExtensionName id))
         (Observe.submittedExtensions cs).
Proof.
  unfold VirtualMachineScaleSetExtensionUpdate.resourceVirtualMachineScaleSetExtensionUpdate,
    VirtualMachineScaleSetExtension.resourceVirtualMachineScaleSetExtensionRead,
    VirtualMachineScaleSetExtension.clientGet,
    VirtualMachineScaleSetExtension.vmssClientGet,
    VirtualMachineScaleSetExtension.clientCreateOrUpdate,
    VirtualMachineScaleSetExtension.futureWaitForCompletionRef.
  handler_unfold. simpl.
  destruct (VirtualMachineScaleSetExtension.parseVirtualMachineScaleSetExtensionID imp (Id d))
    as [err|id]; simpl; [split; [auto|]; split; [exact I|]; intros; constructor|].
  destruct (VirtualMachineScaleSetExtensionUpdate.changedProperties imp HasChange d)
    as [err|props] eqn:Hprops; simpl; [split; [auto|]; split; [exact I|]; intros; constructor|].
  destruct (changedProperties_only_changes _ _ _ Hprops) as [Hauto Hsent].
  assert (Hone : Changes.onlyChanges HasChange d
                   (VirtualMachineScaleSetExtension.ExtensionName id)
                   (VirtualMachineScaleSetExtension.mkExtension None
                      (Some (VirtualMachineScaleSetExtension.ExtensionName id))
                      (Some props))).
  { split; [reflexivity|]. split; [reflexivity|]. exists props. auto. }
  branches.
  all: split; [simpl; auto|]; split; [reflexivity|];
    intros id' Hid; injection Hid as <-;
    apply Forall_cons; [exact Hone | apply Forall_nil].
Qed.

Lemma update_sends_only_what_changed_witness :
  let HasChange := fun (_ : ResourceData) (key : string) => String.eqb key "publisher" in
  let d := mkResourceData (InMemory.Vmss.scaleSetId ++ "/extensions/ext1")
             [("publisher", VString "Microsoft.Azure.Extensions");
              ("type", VString "CustomScript")]
             [] false InMemory.timeouts30 in
  Forall (Changes.onlyChanges HasChange d "ext1")
    (Observe.submittedExtensions
       (calls (trace (final (run (VirtualMachineScaleSetExtensionUpdate.resourceVirtualMachineScaleSetExtensionUpdate
                                    InMemory.Vmss.imp InMemory.Vmss.client HasChange)
                               d (Some (InMemory.Vmss.extension "ext1"))))))).
Proof.
  exact (proj2 (proj2 (@update_sends_only_what_changed string
                         (option (VirtualMachineScaleSetExtension.VirtualMachineScaleSetExtension
                                    string))
                         InMemory.Vmss.imp InMemory.Vmss.client
                         (fun (_ : ResourceData) (key : string) =>
                            String.eqb key "publisher")
                         (mkResourceData (InMemory.Vmss.scaleSetId ++ "/extensions/ext1")
                            [("publisher", VString "Microsoft.Azure.Extensions");
                             ("type", VString "CustomScript")]
                            [] false InMemory.timeouts30)
                         (Some (InMemory.Vmss.extension "ext1"))))
           (VirtualMachineScaleSetExtension.mkExtensionId "rg" "vmss1" "ext1") eq_refl).
Defined.

(** ** The deadlines of the other handlers *)

(** X19.  The Delete of the resource group, of the scale-set extension, of
    the automation schedule and of the backup protection container make
    every call, the wait for the deletion included, under the delete
    timeout. *)
Theorem deletes_run_under_the_delete_deadline (W : Type) (d : ResourceData) (w : W) :
  (forall Future imp WasNotFound (client : ResourceGroupDelete.GroupsClient W Future),
      Forall (fun c => MoreDeadlines.groupDeleteCallContext c = timeouts.ForDelete d)
        (calls (trace (final (run (ResourceGroupDelete.resourceResourceGroupDelete imp
                                     WasNotFound client) d w)))))
  /\
  (forall json Future (imp : VirtualMachineScaleSetExtension.imports json) WasNotFound
          (client : VirtualMachineScaleSetExtensionDelete.ExtensionsClient W Future),
      Forall (fun c => MoreDeadlines.extensionDeleteCallContext c = timeouts.ForDelete d)
        (calls (trace (final (run (VirtualMachineScaleSetExtensionDelete.resourceVirtualMachineScaleSetExtensionDelete
                                     imp WasNotFound client) d w)))))
  /\
  (forall ParseAzureResourceID (client : AutomationSchedule.ScheduleClient W),
      Forall (fun c => MoreDeadlines.scheduleCallContext c = timeouts.ForDelete d)
        (calls (trace (final (run (AutomationSchedule.resourceAutomationScheduleDelete
                                     ParseAzureResourceID client) d w)))))
  /\
  (forall imp (clients : BackupProtectionContainerStorageAccount.Clients W) Unregister,
      Forall (fun c => MoreDeadlines.backupDeleteCallContext c = timeouts.ForDelete d)
        (calls (trace (final (run (BackupProtectionContainerStorageAccountDelete.resourceBackupProtectionContainerStorageAccountDelete
                                     imp clients Unregister) d w))))).
Proof.
  split; [|split; [|split]]; intros.
  - unfold ResourceGroupDelete.resourceResourceGroupDelete,
      ResourceGroupDelete.clientDelete, ResourceGroupDelete.futureWaitForCompletionRef.
    handler_unfold. branches. all: repeat constructor.
  - unfold VirtualMachineScaleSetExtensionDelete.resourceVirtualMachineScaleSetExtensionDelete,
      VirtualMachineScaleSetExtensionDelete.clientDelete,
      VirtualMachineScaleSetExtensionDelete.futureWaitForCompletionRef.
    handler_unfold. branches. all: repeat constructor.
  - unfold AutomationSchedule.resourceAutomationScheduleDelete.
    handler_unfold. branches. all: repeat constructor.
  - unfold BackupProtectionContainerStorageAccountDelete.resourceBackupProtectionContainerStorageAccountDelete,
      lift,
      BackupProtectionContainerStorageAccount.resourceBackupProtectionContainerStorageAccountWaitForOperation.
    handler_unfold. branches. all: repeat constructor.
Qed.

Lemma withId_same (d : ResourceData) : withId d (Id d) = d.
Proof.
  destruct d. reflexivity.
Qed.

(** The handler came to its Read with the identifier it had. *)
Ltac ending_read_leaf_same framed under_read :=
  let F := fresh "F" in
  pose proof framed as F; unfold EndingRead.framed in F; cbv zeta in F;
  match goal with
  | |- context [?R {| data := ?d; world := ?w'; trace := ?t |}] =>
      rewrite F; clear F;
      cbn [data world trace fst snd final result];
      exists (calls t); split;
      [ simpl; solve [own_deadline]
      | right; exists (Id d), w'; cbv zeta; rewrite withId_same;
        unfold final, result, run; cbn [data world trace fst snd];
        split; [simpl; reflexivity|];
        split; [rewrite !calls_app; simpl; rewrite ?app_nil_r; reflexivity|];
        split; [reflexivity|];
        split; [reflexivity|];
        split; [reflexivity|];
        apply under_read ]
  end.

Lemma container_read_framed (W : Type) imp
    (client : SiteRecoveryProtectionContainer.ProtectionContainerClient W) :
  EndingRead.framed
    (SiteRecoveryProtectionContainer.resourceSiteRecoveryProtectionContainerRead imp client).
Proof.
  intros [d w t]. cbv zeta.
  unfold SiteRecoveryProtectionContainer.resourceSiteRecoveryProtectionContainerRead,
    SiteRecoveryProtectionContainer.clientGet.
  handler_unfold. branches.
  all: rewrite ?app_nil_r, <- ?app_assoc; reflexivity.
Qed.

Lemma container_read_under_read (W : Type) imp
    (client : SiteRecoveryProtectionContainer.ProtectionContainerClient W) d w :
  Forall (fun c => MoreDeadlines.containerGet c = true
                   /\ MoreDeadlines.containerCallContext c = timeouts.ForRead d)
    (calls (trace (final (run (SiteRecoveryProtectionContainer.resourceSiteRecoveryProtectionContainerRead
                                 imp client) d w)))).
Proof.
  unfold SiteRecoveryProtectionContainer.resourceSiteRecoveryProtectionContainerRead,
    SiteRecoveryProtectionContainer.clientGet.
  handler_unfold. branches.
  all: read_deadline.
Qed.

(** X20.  The Update of the scale-set extension makes every call under the
    update timeout and the Create of the site recovery protection
    container under the create timeout, the check for an existing
    container and the fetch after the write included.  The one exception
    is the Read that ends them.  When the wait for its write came back
    without an error, the rest of the run of the Update is the run of the
    Read of the extension on the resource data as they are; when the fetch
    after its write came back without an error and with an ID, the Create
    sets the identifier and the rest of its run is the run of the Read of
    the container.  The calls of these Reads are fetches under the read
    timeout.  The Delete of the site recovery protection container makes
    every call under the delete timeout. *)
Theorem update_and_recovery_handlers_run_under_their_deadline (W : Type) (d : ResourceData)
    (w : W) :
  (forall json (imp : VirtualMachineScaleSetExtension.imports json) clients HasChange,
      EndingRead.underOwnButRead (@Deadlines.extensionCallContext json)
        (@Fetches.extensionGet json) (@Writes.extensionCompleted json)
        (VirtualMachineScaleSetExtension.resourceVirtualMachineScaleSetExtensionRead
           imp clients)
        (timeouts.ForUpdate d) d
        (run (VirtualMachineScaleSetExtensionUpdate.resourceVirtualMachineScaleSetExtensionUpdate
                imp clients HasChange) d w))
  /\
  (forall imp client,
      EndingRead.underOwnButRead MoreDeadlines.containerCallContext
        MoreDeadlines.containerGet EndingRead.containerFetchedBack
        (SiteRecoveryProtectionContainer.resourceSiteRecoveryProtectionContainerRead
           imp client)
        (timeouts.ForCreate d) d
        (run (SiteRecoveryProtectionContainer.resourceSiteRecoveryProtectionContainerCreate
                imp client) d w)
      /\ Forall (fun c => MoreDeadlines.containerCallContext c = timeouts.ForDelete d)
           (calls (trace (final (run (SiteRecoveryProtectionContainer.resourceSiteRecoveryProtectionContainerDelete
                                        imp client) d w))))).
Proof.
  unfold EndingRead.underOwnButRead.
  split; intros.
  - unfold VirtualMachineScaleSetExtensionUpdate.resourceVirtualMachineScaleSetExtensionUpdate,
      VirtualMachineScaleSetExtension.clientGet,
      VirtualMachineScaleSetExtension.vmssClientGet,
      VirtualMachineScaleSetExtension.clientCreateOrUpdate,
      VirtualMachineScaleSetExtension.futureWaitForCompletionRef.
    handler_unfold. branches.
    all: try before_read_leaf.
    all: ending_read_leaf_same extension_read_framed extension_read_under_read.
  - split.
    + unfold SiteRecoveryProtectionContainer.resourceSiteRecoveryProtectionContainerCreate,
        SiteRecoveryProtectionContainer.clientGet,
        SiteRecoveryProtectionContainer.clientCreate,
        SiteRecoveryProtectionContainer.futureWaitForCompletionRef.
      handler_unfold. branches.
      all: try before_read_leaf.
      all: ending_read_leaf container_read_framed container_read_under_read.
    + unfold SiteRecoveryProtectionContainer.resourceSiteRecoveryProtectionContainerDelete,
        SiteRecoveryProtectionContainer.clientDelete,
        SiteRecoveryProtectionContainer.futureWaitForCompletionRef.
      handler_unfold. branches. all: repeat constructor.
Qed.

(** X21.  The operation that a registration or a deregistration of the
    backup protection container started is polled with the create timeout
    when the resource is new and with the update timeout otherwise, in
    Create and in Delete alike: the Delete does not poll with the delete
    timeout of the resource. *)
Theorem backup_container_operation_is_polled_with_the_create_or_update_timeout (W : Type)
    (imp : BackupProtectionContainerStorageAccount.imports)
    (clients : BackupProtectionContainerStorageAccount.Clients W) (d : ResourceData) (w : W) :
  let timeout := if IsNewResource d then TimeoutCreate (Timeouts d)
                 else TimeoutUpdate (Timeouts d) in
  Forall (fun c => MoreDeadlines.pollerTimeout c = None
                   \/ MoreDeadlines.pollerTimeout c = Some timeout)
    (calls (trace (final (run (BackupProtectionContainerStorageAccount.resourceBackupProtectionContainerStorageAccountCreate
                                 imp clients) d w))))
  /\ forall Unregister,
       Forall (fun c => MoreDeadlines.deletePollerTimeout c = None
                        \/ MoreDeadlines.deletePollerTimeout c = Some timeout)
         (calls (trace (final (run (BackupProtectionContainerStorageAccountDelete.resourceBackupProtectionContainerStorageAccountDelete
                                      imp clients Unregister) d w)))).
Proof.
  split; [|intros Unregister].
  - unfold BackupProtectionContainerStorageAccount.resourceBackupProtectionContainerStorageAccountCreate,
      BackupProtectionContainerStorageAccount.resourceBackupProtectionContainerStorageAccountRead,
      BackupProtectionContainerStorageAccount.resourceBackupProtectionContainerStorageAccountWaitForOperation,
      BackupProtectionContainerStorageAccount.clientGet,
      BackupProtectionContainerStorageAccount.clientRegister.
    handler_unfold. branches.
    all: repeat (apply Forall_cons; [simpl; first [left; reflexivity | right; reflexivity]|]);
      apply Forall_nil.
  - unfold BackupProtectionContainerStorageAccountDelete.resourceBackupProtectionContainerStorageAccountDelete,
      lift,
      BackupProtectionContainerStorageAccount.resourceBackupProtectionContainerStorageAccountWaitForOperation.
    handler_unfold. branches.
    all: repeat (apply Forall_cons; [simpl; first [left; reflexivity | right; reflexivity]|]);
      apply Forall_nil.
Qed.

(** ** Create of a recovery services container that is already there *)

(** X22.  The Create of the backup protection container and of the site
    recovery protection container, on a new resource whose existence check
    finds a container with an ID that is not empty, return the import error
    that carries this ID as [handleAzureSdkForGoBug2824] rewrites it, leave
    the resource data as it was, and neither register nor create anything:
    the check is the one call they made. *)
Theorem recovery_creates_conflict_with_an_existing_container (W : Type) :
  (forall (imp : BackupProtectionContainerStorageAccount.imports)
          (clients : BackupProtectionContainerStorageAccount.Clients W)
          (d : ResourceData) (w : W) (parsedStorageAccountID : azure.ResourceID)
          (accountName id : string),
      let containerName :=
        ("StorageContainer;storage;" ++ azure.ResourceGroup parsedStorageAccountID
           ++ ";" ++ accountName)%string in
      let existing := fst (BackupProtectionContainerStorageAccount.Get clients
                             (timeouts.ForRead d) (GetString d "recovery_vault_name")
                             (GetString d "resource_group_name") "Azure" containerName w) in
      let r := run (BackupProtectionContainerStorageAccount.resourceBackupProtectionContainerStorageAccountCreate
                      imp clients) d w in
      BackupProtectionContainerStorageAccount.ParseAzureResourceID imp
        (GetString d "storage_account_id") = inr parsedStorageAccountID ->
      lookup "storageAccounts" (azure.Path parsedStorageAccountID) = Some accountName ->
      IsNewResource d = true ->
      Err existing = None \/ ResponseWasNotFound existing = true ->
      BackupProtectionContainerStorageAccount.ContainerID (Body existing) = Some id ->
      id <> "" ->
      result r
      = Fail (ImportAsExistsError "azurerm_backup_protection_container_storage"
                (BackupProtectionContainerStorageAccount.handleAzureSdkForGoBug2824 imp id))
      /\ data (final r) = d
      /\ length (trace (final r)) = 1%nat)
  /\
  (forall (imp : SiteRecoveryProtectionContainer.imports)
          (client : SiteRecoveryProtectionContainer.ProtectionContainerClient W)
          (d : ResourceData) (w : W) (id : string),
      let existing := fst (SiteRecoveryProtectionContainer.Get client
                             (GetString d "resource_group_name")
                             (GetString d "recovery_vault_name") (timeouts.ForCreate d)
                             (GetString d "recovery_fabric_name") (GetString d "name") w) in
      let r := run (SiteRecoveryProtectionContainer.resourceSiteRecoveryProtectionContainerCreate
                      imp client) d w in
      IsNewResource d = true ->
      Err existing = None \/ ResponseWasNotFound existing = true ->
      SiteRecoveryProtectionContainer.ContainerID (Body existing) = Some id ->
      id <> "" ->
      result r
      = Fail (ImportAsExistsError "azurerm_site_recovery_protection_container"
                (SiteRecoveryProtectionContainer.handleAzureSdkForGoBug2824 imp id))
      /\ data (final r) = d
      /\ length (trace (final r)) = 1%nat).
Proof.
  split.
  - intros imp clients d w parsedStorageAccountID accountName id containerName existing r
      Hparse Haccount Hnew Hfound Hid Hnonempty.
    subst r existing containerName.
    unfold BackupProtectionContainerStorageAccount.resourceBackupProtectionContainerStorageAccountCreate,
      BackupProtectionContainerStorageAccount.clientGet.
    handler_unfold. simpl. rewrite Hparse. simpl. rewrite Haccount, Hnew. simpl.
    destruct (BackupProtectionContainerStorageAccount.Get clients (timeouts.ForRead d)
                (GetString d "recovery_vault_name") (GetString d "resource_group_name")
                "Azure" _ w) as [existing w'].
    cbn [fst snd] in *. simpl.
    apply String.eqb_neq in Hnonempty.
    destruct Hfound as [Hfound | Hfound]; rewrite ?Hfound;
      destruct (Err existing); simpl; rewrite ?Hfound; simpl;
      rewrite Hid, Hnonempty; simpl; repeat split.
  - intros imp client d w id existing r Hnew Hfound Hid Hnonempty.
    subst r existing.
    unfold SiteRecoveryProtectionContainer.resourceSiteRecoveryProtectionContainerCreate,
      SiteRecoveryProtectionContainer.clientGet.
    handler_unfold. simpl. rewrite Hnew. simpl.
    destruct (SiteRecoveryProtectionContainer.Get client
                (GetString d "resource_group_name") (GetString d "recovery_vault_name")
                (timeouts.ForCreate d) (GetString d "recovery_fabric_name")
                (GetString d "name") w) as [existing w'].
    cbn [fst snd] in *. simpl.
    apply String.eqb_neq in Hnonempty.
    destruct Hfound as [Hfound | Hfound]; rewrite ?Hfound;
      destruct (Err existing); simpl; rewrite ?Hfound; simpl;
      rewrite Hid, Hnonempty; simpl; repeat split.
Qed.

Lemma recovery_creates_conflict_with_an_existing_container_witness :
  (let r := run (BackupProtectionContainerStorageAccount.resourceBackupProtectionContainerStorageAccountCreate
                   InMemory.Backup.imp InMemory.Backup.clients) InMemory.Backup.creating
              (Some (BackupProtectionContainerStorageAccount.mkProtectionContainerResource
                       (Some InMemory.Backup.containerId) None)) in
   result r
   = Fail (ImportAsExistsError "azurerm_backup_protection_container_storage"
             InMemory.Backup.containerId)
   /\ data (final r) = InMemory.Backup.creating
   /\ length (trace (final r)) = 1%nat)
  /\
  (let r := run (SiteRecoveryProtectionContainer.resourceSiteRecoveryProtectionContainerCreate
                   Gone.recoveryImp Present.container) Present.creating tt in
   result r
   = Fail (ImportAsExistsError "azurerm_site_recovery_protection_container"
             Present.containerId)
   /\ data (final r) = Present.creating
   /\ length (trace (final r)) = 1%nat).
Proof.
  split.
  - refine (proj1 (recovery_creates_conflict_with_an_existing_container
                     (option BackupProtectionContainerStorageAccount.ProtectionContainerResource))
              InMemory.Backup.imp InMemory.Backup.clients InMemory.Backup.creating
              (Some (BackupProtectionContainerStorageAccount.mkProtectionContainerResource
                       (Some InMemory.Backup.containerId) None))
              _ "account1" InMemory.Backup.containerId eq_refl eq_refl eq_refl _ eq_refl _);
      [left; reflexivity | discriminate].
  - refine (proj2 (recovery_creates_conflict_with_an_existing_container unit)
              Gone.recoveryImp Present.container Present.creating tt Present.containerId
              eq_refl _ eq_refl _);
      [left; reflexivity | discriminate].
Defined.

(** ** What is persisted, and when *)

Ltac persisted_leaf :=
  first [ left; reflexivity | right; reflexivity ].

(** X23.  The Create of the subnet NAT-gateway association, the CreateUpdate
    of the IoT Hub route and the Create of the scale-set extension write to
    the resource data only after the submission was accepted and the wait
    for it, which follows at once, succeeded; the CreateUpdate of the
    resource group, which does not wait, only after the submission was
    accepted and the fetch that follows it succeeded.  On every other way
    out the identifier and the attributes are as they were. *)
Theorem creates_persist_nothing_before_the_write_completed (W : Type) (d : ResourceData)
    (w : W) :
  (forall imp client,
      let r := run (SubnetNatGatewayAssociation.resourceSubnetNatGatewayAssociationCreate
                      imp client) d w in
      data (final r) = d
      \/ Writes.adjacent Writes.subnetSubmitted Writes.subnetCompleted
           (calls (trace (final r))) = true)
  /\
  (forall imp client,
      let r := run (IotHubRoute.resourceIotHubRouteCreateUpdate imp client) d w in
      data (final r) = d
      \/ Writes.adjacent Writes.hubSubmitted Writes.hubCompleted
           (calls (trace (final r))) = true)
  /\
  (forall imp client,
      let r := run (ResourceGroup.resourceResourceGroupCreateUpdate imp client) d w in
      data (final r) = d
      \/ Writes.adjacent Writes.groupSubmitted Writes.groupFetched
           (calls (trace (final r))) = true)
  /\
  (forall json (imp : VirtualMachineScaleSetExtension.imports json) clients,
      let r := run (VirtualMachineScaleSetExtension.resourceVirtualMachineScaleSetExtensionCreate
                      imp clients) d w in
      data (final r) = d
      \/ Writes.adjacent (@Writes.extensionSubmitted json) (@Writes.extensionCompleted json)
           (calls (trace (final r))) = true).
Proof.
  split; [|split; [|split]].
  - intros imp client r. subst r.
    unfold SubnetNatGatewayAssociation.resourceSubnetNatGatewayAssociationCreate,
      SubnetNatGatewayAssociation.resourceSubnetNatGatewayAssociationRead,
      SubnetNatGatewayAssociation.clientGet,
      SubnetNatGatewayAssociation.clientCreateOrUpdate,
      SubnetNatGatewayAssociation.futureWaitForCompletionRef.
    handler_unfold. branches. all: persisted_leaf.
  - intros imp client r. subst r.
    unfold IotHubRoute.resourceIotHubRouteCreateUpdate, IotHubRoute.clientGet,
      IotHubRoute.clientCreateOrUpdate, IotHubRoute.futureWaitForCompletionRef.
    handler_unfold. branches.
    all: try (left; reflexivity).
    all: right; after_route_read; reflexivity.
  - intros imp client r. subst r.
    unfold ResourceGroup.resourceResourceGroupCreateUpdate,
      ResourceGroup.resourceResourceGroupRead, ResourceGroup.clientGet,
      ResourceGroup.clientCreateOrUpdate.
    handler_unfold. branches.
    all: try (left; reflexivity).
    all: try congruence.
    all: right; simpl;
      repeat match goal with
             | H : Err ?r = _ |- context [Err ?r] => rewrite H
             end; simpl; rewrite ?orb_true_r; reflexivity.
  - intros json imp clients r. subst r.
    unfold VirtualMachineScaleSetExtension.resourceVirtualMachineScaleSetExtensionCreate,
      VirtualMachineScaleSetExtension.resourceVirtualMachineScaleSetExtensionRead,
      VirtualMachineScaleSetExtension.clientGet,
      VirtualMachineScaleSetExtension.vmssClientGet,
      VirtualMachineScaleSetExtension.clientCreateOrUpdate,
      VirtualMachineScaleSetExtension.futureWaitForCompletionRef.
    handler_unfold. branches. all: persisted_leaf.
Qed.

(** X24.  The Create of the site recovery protection container and the
    Update of the scale-set extension write to the resource data only after
    the submission was accepted and the wait for it, which follows at once,
    succeeded.  On every other way out the identifier and the attributes
    are as they were. *)
Theorem recovery_create_and_update_persist_nothing_before_the_write_completed (W : Type)
    (d : ResourceData) (w : W) :
  (forall imp client,
      let r := run (SiteRecoveryProtectionContainer.resourceSiteRecoveryProtectionContainerCreate
                      imp client) d w in
      data (final r) = d
      \/ Writes.adjacent Writes.containerSubmitted Writes.containerCompleted
           (calls (trace (final r))) = true)
  /\
  (forall json (imp : VirtualMachineScaleSetExtension.imports json) clients HasChange,
      let r := run (VirtualMachineScaleSetExtensionUpdate.resourceVirtualMachineScaleSetExtensionUpdate
                      imp clients HasChange) d w in
      data (final r) = d
      \/ Writes.adjacent (@Writes.extensionSubmitted json) (@Writes.extensionCompleted json)
           (calls (trace (final r))) = true).
Proof.
  split.
  - intros imp client r. subst r.
    unfold SiteRecoveryProtectionContainer.resourceSiteRecoveryProtectionContainerCreate,
      SiteRecoveryProtectionContainer.resourceSiteRecoveryProtectionContainerRead,
      SiteRecoveryProtectionContainer.clientGet,
      SiteRecoveryProtectionContainer.clientCreate,
      SiteRecoveryProtectionContainer.futureWaitForCompletionRef.
    handler_unfold. branches. all: persisted_leaf.
  - intros json imp clients HasChange r. subst r.
    unfold VirtualMachineScaleSetExtensionUpdate.resourceVirtualMachineScaleSetExtensionUpdate,
      VirtualMachineScaleSetExtension.resourceVirtualMachineScaleSetExtensionRead,
      VirtualMachineScaleSetExtension.clientGet,
      VirtualMachineScaleSetExtension.vmssClientGet,
      VirtualMachineScaleSetExtension.clientCreateOrUpdate,
      VirtualMachineScaleSetExtension.futureWaitForCompletionRef.
    handler_unfold. branches. all: persisted_leaf.
Qed.

(** ** The automation schedule *)

(** X25.  The CustomizeDiff accepts a schedule exactly when each field
    fits the frequency, letter case aside: no interval above zero with the
    frequency OneTime, [week_days] only with the frequency Week, and
    [month_days] and [monthly_occurrence] each only with the frequency
    Month.  So an accepted schedule never sets [week_days] together with
    one of the other two; [month_days] and [monthly_occurrence] may be set
    together, which every schedule of the frequency Month that sets both
    and no [week_days] shows: it is accepted. *)
Theorem schedule_is_accepted_exactly_when_its_fields_fit_the_frequency
    (ToLower : string -> string) :
  (forall diff : AutomationSchedule.ScheduleDiff,
      let frequency := ToLower (AutomationSchedule.frequency diff) in
      AutomationSchedule.CustomizeDiff ToLower diff = None
      <-> ((frequency = "onetime" -> (AutomationSchedule.interval diff <= 0)%Z)
           /\ (AutomationSchedule.hasWeekDays diff = true -> frequency = "week")
           /\ (AutomationSchedule.hasMonthDays diff = true -> frequency = "month")
           /\ (AutomationSchedule.hasMonthlyOccurrences diff = true -> frequency = "month")))
  /\ (forall diff : AutomationSchedule.ScheduleDiff,
         AutomationSchedule.CustomizeDiff ToLower diff = None ->
         AutomationSchedule.hasWeekDays diff
         && (AutomationSchedule.hasMonthDays diff
             || AutomationSchedule.hasMonthlyOccurrences diff) = false)
  /\ (forall (frequency : string) (interval : Z),
         ToLower frequency = "month" ->
         AutomationSchedule.CustomizeDiff ToLower
           (AutomationSchedule.mkScheduleDiff frequency interval false true true) = None).
Proof.
  assert (Hexact : forall diff : AutomationSchedule.ScheduleDiff,
      AutomationSchedule.CustomizeDiff ToLower diff = None
      <-> ((ToLower (AutomationSchedule.frequency diff) = "onetime"
            -> (AutomationSchedule.interval diff <= 0)%Z)
           /\ (AutomationSchedule.hasWeekDays diff = true
               -> ToLower (AutomationSchedule.frequency diff) = "week")
           /\ (AutomationSchedule.hasMonthDays diff = true
               -> ToLower (AutomationSchedule.frequency diff) = "month")
           /\ (AutomationSchedule.hasMonthlyOccurrences diff = true
               -> ToLower (AutomationSchedule.frequency diff) = "month"))).
  { intros diff. unfold AutomationSchedule.CustomizeDiff.
    set (f := ToLower (AutomationSchedule.frequency diff)).
    split.
    - intros H.
      destruct (String.eqb f "onetime" && (AutomationSchedule.interval diff >? 0)%Z) eqn:H1;
        [discriminate|].
      destruct (AutomationSchedule.hasWeekDays diff && negb (String.eqb f "week")) eqn:H2;
        [discriminate|].
      destruct (AutomationSchedule.hasMonthDays diff && negb (String.eqb f "month")) eqn:H3;
        [discriminate|].
      destruct (AutomationSchedule.hasMonthlyOccurrences diff && negb (String.eqb f "month"))
        eqn:H4; [discriminate|].
      clear H. split; [|split; [|split]].
      + intros E. rewrite E in H1. simpl in H1.
        rewrite Z.gtb_ltb in H1. apply Z.ltb_ge, H1.
      + intros E. rewrite E in H2. simpl in H2. apply negb_false_iff in H2.
        apply String.eqb_eq, H2.
      + intros E. rewrite E in H3. simpl in H3. apply negb_false_iff in H3.
        apply String.eqb_eq, H3.
      + intros E. rewrite E in H4. simpl in H4. apply negb_false_iff in H4.
        apply String.eqb_eq, H4.
    - intros [Hi [Hw [Hm Ho]]].
      assert (H1 : String.eqb f "onetime" && (AutomationSchedule.interval diff >? 0)%Z
                   = false).
      { destruct (String.eqb f "onetime") eqn:E; [|reflexivity]. simpl.
        apply String.eqb_eq in E. specialize (Hi E).
        rewrite Z.gtb_ltb. apply Z.ltb_ge, Hi. }
      assert (H2 : AutomationSchedule.hasWeekDays diff && negb (String.eqb f "week")
                   = false).
      { destruct (AutomationSchedule.hasWeekDays diff); [|reflexivity]. simpl.
        apply negb_false_iff, String.eqb_eq, Hw. reflexivity. }
      assert (H3 : AutomationSchedule.hasMonthDays diff && negb (String.eqb f "month")
                   = false).
      { destruct (AutomationSchedule.hasMonthDays diff); [|reflexivity]. simpl.
        apply negb_false_iff, String.eqb_eq, Hm. reflexivity. }
      assert (H4 : AutomationSchedule.hasMonthlyOccurrences diff
                   && negb (String.eqb f "month") = false).
      { destruct (AutomationSchedule.hasMonthlyOccurrences diff); [|reflexivity]. simpl.
        apply negb_false_iff, String.eqb_eq, Ho. reflexivity. }
      rewrite H1, H2, H3, H4. reflexivity. }
  split; [|split].
  - intros diff. cbv zeta. apply Hexact.
  - intros diff H. apply Hexact in H. destruct H as [_ [Hw [Hm Ho]]].
    destruct (AutomationSchedule.hasWeekDays diff); [|reflexivity].
    specialize (Hw eq_refl). simpl.
    destruct (AutomationSchedule.hasMonthDays diff);
      [specialize (Hm eq_refl); rewrite Hw in Hm; discriminate|].
    destruct (AutomationSchedule.hasMonthlyOccurrences diff);
      [specialize (Ho eq_refl); rewrite Hw in Ho; discriminate|].
    reflexivity.
  - intros frequency interval Hmonth. apply Hexact. simpl.
    rewrite Hmonth. split; [discriminate|]. split; [discriminate|].
    split; intros _; reflexivity.
Qed.

Lemma int32_in_range (v : Z) :
  (- 2 ^ 31 <= v < 2 ^ 31)%Z -> AutomationSchedule.int32 v = v.
Proof.
  intros H. unfold AutomationSchedule.int32.
  change (2 ^ 32)%Z with (2147483648 + 2147483648)%Z.
  change (2 ^ 31)%Z with 2147483648%Z in *.
  destruct H as [Hlow Hhigh].
  rewrite Z.mod_small.
  - apply Z.add_simpl_r.
  - split.
    + apply Z.le_sub_le_add_r. exact Hlow.
    + apply Z.add_lt_mono_r. exact Hhigh.
Qed.

Lemma flattenMonthlyOccurrences_expanded (occurrences flattened : list (string * Z)) :
  AutomationSchedule.flattenMonthlyOccurrences
    (map (fun m => AutomationSchedule.mkMonthlyOccurrence
                     (Some (AutomationSchedule.int32 (snd m))) (fst m))
         occurrences) flattened
  = Some (flattened ++ map (fun m => (fst m, AutomationSchedule.int32 (snd m))) occurrences).
Proof.
  revert flattened. induction occurrences as [|m rest IH]; simpl; intros flattened.
  - rewrite app_nil_r. reflexivity.
  - rewrite IH, <- app_assoc. reflexivity.
Qed.

(** X26.  The monthly occurrences of a schedule survive the way to the API
    and back: what [flattenArmAutomationScheduleAdvancedMonthlyOccurrences]
    makes of what [expandArmAutomationScheduleAdvanced] built, on create
    and on update, is the list of the configuration, days and occurrences
    in order, provided every occurrence fits in an [int32].  The flattening
    does not panic on it. *)
Theorem monthly_occurrences_survive_expand_and_flatten (d : AutomationSchedule.AdvancedConfig)
    (isUpdate : bool) :
  Forall (fun m => (- 2 ^ 31 <= snd m < 2 ^ 31)%Z) (AutomationSchedule.monthly_occurrence d) ->
  AutomationSchedule.flattenArmAutomationScheduleAdvancedMonthlyOccurrences
    (AutomationSchedule.expandArmAutomationScheduleAdvanced d isUpdate)
  = Some (AutomationSchedule.monthly_occurrence d).
Proof.
  intros Hrange.
  unfold AutomationSchedule.flattenArmAutomationScheduleAdvancedMonthlyOccurrences,
    AutomationSchedule.expandArmAutomationScheduleAdvanced.
  simpl. rewrite flattenMonthlyOccurrences_expanded. simpl. f_equal.
  induction Hrange as [|m rest Hm Hrest IH]; simpl; [reflexivity|].
  rewrite IH, int32_in_range by exact Hm. destruct m; reflexivity.
Qed.

Lemma monthly_occurrences_survive_expand_and_flatten_witness :
  let d := AutomationSchedule.mkAdvancedConfig None None
             [("Monday", 1%Z); ("Friday", (-1)%Z)] in
  AutomationSchedule.flattenArmAutomationScheduleAdvancedMonthlyOccurrences
    (AutomationSchedule.expandArmAutomationScheduleAdvanced d false)
  = Some (AutomationSchedule.monthly_occurrence d).
Proof.
  refine (@monthly_occurrences_survive_expand_and_flatten
            (AutomationSchedule.mkAdvancedConfig None None
               [("Monday", 1%Z); ("Friday", (-1)%Z)]) false _).
  repeat constructor; simpl; discriminate.
Defined.

(** ** Read of a resource that is gone *)

(** X27.  The Read of a resource that is gone removes it from the state.
    When the fetch comes back "not found", the Read of the resource group,
    of the backup protection container and of the site recovery protection
    container succeed with the identifier set to the empty string and
    nothing else of the resource data touched; so does the Read of the
    scale-set extension, when the scale set is "not found" and when the
    scale set is there and the extension is "not found". *)
Theorem read_of_a_gone_resource_clears_the_identifier (W : Type) :
  (forall (imp : ResourceGroup.imports) (client : ResourceGroup.GroupsClient W)
          (d : ResourceData) (w : W) (id : ResourceGroup.ResourceGroupId),
      let r := run (ResourceGroup.resourceResourceGroupRead imp client) d w in
      ResourceGroup.parseResourceGroupID imp (Id d) = inr id ->
      NotFound (fst (ResourceGroup.Get client (timeouts.ForRead d)
                       (ResourceGroup.ResourceGroupName id) w)) ->
      result r = Return tt /\ data (final r) = withId d "")
  /\
  (forall (json : Type) (imp : VirtualMachineScaleSetExtension.imports json)
          (clients : VirtualMachineScaleSetExtension.Clients json W)
          (d : ResourceData) (w : W)
          (id : VirtualMachineScaleSetExtension.VirtualMachineScaleSetExtensionId),
      let resourceGroup := VirtualMachineScaleSetExtension.ResourceGroup id in
      let vmssName := VirtualMachineScaleSetExtension.VirtualMachineScaleSetName id in
      let vmss := VirtualMachineScaleSetExtension.vmssGet clients (timeouts.ForRead d)
                    resourceGroup vmssName w in
      let resp := VirtualMachineScaleSetExtension.Get clients (timeouts.ForRead d)
                    resourceGroup vmssName
                    (VirtualMachineScaleSetExtension.ExtensionName id) "" (snd vmss) in
      let r := run (VirtualMachineScaleSetExtension.resourceVirtualMachineScaleSetExtensionRead
                      imp clients) d w in
      VirtualMachineScaleSetExtension.parseVirtualMachineScaleSetExtensionID imp (Id d)
        = inr id ->
      NotFound (fst vmss) \/ Err (fst vmss) = None /\ NotFound (fst resp) ->
      result r = Return tt /\ data (final r) = withId d "")
  /\
  (forall (imp : BackupProtectionContainerStorageAccount.imports)
          (clients : BackupProtectionContainerStorageAccount.Clients W)
          (d : ResourceData) (w : W) (id : azure.ResourceID),
      let r := run (BackupProtectionContainerStorageAccount.resourceBackupProtectionContainerStorageAccountRead
                      imp clients) d w in
      BackupProtectionContainerStorageAccount.ParseAzureResourceID imp (Id d) = inr id ->
      NotFound (fst (BackupProtectionContainerStorageAccount.Get clients
                       (timeouts.ForRead d) (azure.PathAt id "vaults")
                       (azure.ResourceGroup id) (azure.PathAt id "backupFabrics")
                       (azure.PathAt id "protectionContainers") w)) ->
      result r = Return tt /\ data (final r) = withId d "")
  /\
  (forall (imp : SiteRecoveryProtectionContainer.imports)
          (client : SiteRecoveryProtectionContainer.ProtectionContainerClient W)
          (d : ResourceData) (w : W) (id : azure.ResourceID),
      let r := run (SiteRecoveryProtectionContainer.resourceSiteRecoveryProtectionContainerRead
                      imp client) d w in
      SiteRecoveryProtectionContainer.ParseAzureResourceID imp (Id d) = inr id ->
      NotFound (fst (SiteRecoveryProtectionContainer.Get client (azure.ResourceGroup id)
                       (azure.PathAt id "vaults") (timeouts.ForRead d)
                       (azure.PathAt id "replicationFabrics")
                       (azure.PathAt id "replicationProtectionContainers") w)) ->
      result r = Return tt /\ data (final r) = withId d "").
Proof.
  split; [|split; [|split]].
  - intros imp client d w id r Hparse [Herr Hgone]. subst r.
    unfold ResourceGroup.resourceResourceGroupRead, ResourceGroup.clientGet.
    handler_unfold. simpl. rewrite Hparse. simpl.
    destruct (ResourceGroup.Get client (timeouts.ForRead d)
                (ResourceGroup.ResourceGroupName id) w) as [resp w'].
    cbn [fst snd] in *. simpl.
    destruct (Err resp); [|contradiction]. rewrite Hgone. split; reflexivity.
  - intros json imp clients d w id resourceGroup vmssName vmss resp r Hparse Hgone.
    subst r resp vmss vmssName resourceGroup.
    unfold VirtualMachineScaleSetExtension.resourceVirtualMachineScaleSetExtensionRead,
      VirtualMachineScaleSetExtension.clientGet,
      VirtualMachineScaleSetExtension.vmssClientGet.
    handler_unfold. simpl. rewrite Hparse. simpl.
    destruct (VirtualMachineScaleSetExtension.vmssGet clients (timeouts.ForRead d)
                (VirtualMachineScaleSetExtension.ResourceGroup id)
                (VirtualMachineScaleSetExtension.VirtualMachineScaleSetName id) w)
      as [vmss w'].
    cbn [fst snd] in *. simpl.
    destruct Hgone as [[Herr Hgone] | [Hfetched [Herr Hgone]]].
    + destruct (Err vmss); [|contradiction]. rewrite Hgone. split; reflexivity.
    + rewrite Hfetched. simpl.
      destruct (VirtualMachineScaleSetExtension.Get clients (timeouts.ForRead d)
                  (VirtualMachineScaleSetExtension.ResourceGroup id)
                  (VirtualMachineScaleSetExtension.VirtualMachineScaleSetName id)
                  (VirtualMachineScaleSetExtension.ExtensionName id) "" w')
        as [resp w2].
      cbn [fst snd] in *. simpl.
      destruct (Err resp); [|contradiction]. rewrite Hgone. split; reflexivity.
  - intros imp clients d w id r Hparse [Herr Hgone]. subst r.
    unfold BackupProtectionContainerStorageAccount.resourceBackupProtectionContainerStorageAccountRead,
      BackupProtectionContainerStorageAccount.clientGet.
    handler_unfold. simpl. rewrite Hparse. simpl.
    destruct (BackupProtectionContainerStorageAccount.Get clients (timeouts.ForRead d)
                (azure.PathAt id "vaults") (azure.ResourceGroup id)
                (azure.PathAt id "backupFabrics")
                (azure.PathAt id "protectionContainers") w) as [resp w'].
    cbn [fst snd] in *. simpl.
    destruct (Err resp); [|contradiction]. rewrite Hgone. split; reflexivity.
  - intros imp client d w id r Hparse [Herr Hgone]. subst r.
    unfold SiteRecoveryProtectionContainer.resourceSiteRecoveryProtectionContainerRead,
      SiteRecoveryProtectionContainer.clientGet.
    handler_unfold. simpl. rewrite Hparse. simpl.
    destruct (SiteRecoveryProtectionContainer.Get client (azure.ResourceGroup id)
                (azure.PathAt id "vaults") (timeouts.ForRead d)
                (azure.PathAt id "replicationFabrics")
                (azure.PathAt id "replicationProtectionContainers") w) as [resp w'].
    cbn [fst snd] in *. simpl.
    destruct (Err resp); [|contradiction]. rewrite Hgone. split; reflexivity.
Qed.

Lemma read_of_a_gone_resource_clears_the_identifier_witness :
  (let r := run (ResourceGroup.resourceResourceGroupRead InMemory.Rg.imp InMemory.Rg.client)
              Gone.groupData None in
   result r = Return tt /\ data (final r) = withId Gone.groupData "")
  /\
  (let r := run (VirtualMachineScaleSetExtension.resourceVirtualMachineScaleSetExtensionRead
                   InMemory.Vmss.imp InMemory.Vmss.client) Gone.extensionData None in
   result r = Return tt /\ data (final r) = withId Gone.extensionData "")
  /\
  (let r := run (BackupProtectionContainerStorageAccount.resourceBackupProtectionContainerStorageAccountRead
                   InMemory.Backup.imp InMemory.Backup.clients) Gone.backupData None in
   result r = Return tt /\ data (final r) = withId Gone.backupData "")
  /\
  (let r := run (SiteRecoveryProtectionContainer.resourceSiteRecoveryProtectionContainerRead
                   Gone.recoveryImp Gone.container) Gone.containerData tt in
   result r = Return tt /\ data (final r) = withId Gone.containerData "").
Proof.
  split; [|split; [|split]].
  - refine (proj1 (read_of_a_gone_resource_clears_the_identifier
                     (option ResourceGroup.Group))
              InMemory.Rg.imp InMemory.Rg.client Gone.groupData None
              (ResourceGroup.mkResourceGroupId "rg1") eq_refl _).
    split; [discriminate | reflexivity].
  - refine (proj1 (proj2 (read_of_a_gone_resource_clears_the_identifier
                            (option (VirtualMachineScaleSetExtension.VirtualMachineScaleSetExtension
                                       string))))
              string InMemory.Vmss.imp InMemory.Vmss.client Gone.extensionData None
              (VirtualMachineScaleSetExtension.mkExtensionId "rg" "vmss1" "ext1") eq_refl _).
    right. split; [reflexivity | split; [discriminate | reflexivity]].
  - refine (proj1 (proj2 (proj2 (read_of_a_gone_resource_clears_the_identifier
                                   (option BackupProtectionContainerStorageAccount.ProtectionContainerResource))))
              InMemory.Backup.imp InMemory.Backup.clients Gone.backupData None _ eq_refl _).
    split; [discriminate | reflexivity].
  - refine (proj2 (proj2 (proj2 (read_of_a_gone_resource_clears_the_identifier unit)))
              Gone.recoveryImp Gone.container Gone.containerData tt _ eq_refl _).
    split; [discriminate | reflexivity].
Defined.

(** ** The wait for an operation on the backup container *)

Ltac no_status_leaf :=
  intros ctx' timeout err Hin; simpl in Hin;
  repeat match goal with
         | H : _ \/ _ |- _ => destruct H
         | H : False |- _ => contradiction
         | H : Api _ = Api _ |- _ => injection H as H
         | H : _ = _ |- _ => discriminate H
         | H : BackupProtectionContainerStorageAccountDelete.Other _
               = BackupProtectionContainerStorageAccountDelete.Other _ |- _ =>
             injection H as H
         | H : BackupProtectionContainerStorageAccount.WaitForStateContext _ _ _
               = BackupProtectionContainerStorageAccount.WaitForStateContext _ _ _ |- _ =>
             injection H as ? ? H
         end;
  subst; simpl in *; try discriminate; try congruence; split; reflexivity.

(** X28.  The Create and the Delete of the backup protection container
    assert what the poller of the operation handed back to be an operation
    status without checking that there is one.  Whenever the poller hands
    back no status, with an error or without, the handler panics, and the
    resource data is as it was. *)
Theorem backup_container_handlers_panic_when_the_poller_gives_no_status (W : Type)
    (imp : BackupProtectionContainerStorageAccount.imports)
    (clients : BackupProtectionContainerStorageAccount.Clients W) (d : ResourceData) (w : W) :
  (let r := run (BackupProtectionContainerStorageAccount.resourceBackupProtectionContainerStorageAccountCreate
                   imp clients) d w in
   forall ctx timeout err,
     In (BackupProtectionContainerStorageAccount.WaitForStateContext ctx timeout (None, err))
        (calls (trace (final r))) ->
     result r = Panic /\ data (final r) = d)
  /\
  (forall Unregister,
      let r := run (BackupProtectionContainerStorageAccountDelete.resourceBackupProtectionContainerStorageAccountDelete
                      imp clients Unregister) d w in
      forall ctx timeout err,
        In (BackupProtectionContainerStorageAccountDelete.Other
              (BackupProtectionContainerStorageAccount.WaitForStateContext ctx timeout
                 (None, err)))
           (calls (trace (final r))) ->
        result r = Panic /\ data (final r) = d).
Proof.
  split; [|intros Unregister]; cbv zeta.
  - unfold BackupProtectionContainerStorageAccount.resourceBackupProtectionContainerStorageAccountCreate,
      BackupProtectionContainerStorageAccount.resourceBackupProtectionContainerStorageAccountRead,
      BackupProtectionContainerStorageAccount.resourceBackupProtectionContainerStorageAccountWaitForOperation,
      BackupProtectionContainerStorageAccount.clientGet,
      BackupProtectionContainerStorageAccount.clientRegister.
    handler_unfold. branches.
    all: repeat match goal with
                | p : (option _ * option _)%type |- _ => destruct p; simpl in *; subst
                end.
    all: no_status_leaf.
  - unfold BackupProtectionContainerStorageAccountDelete.resourceBackupProtectionContainerStorageAccountDelete,
      lift,
      BackupProtectionContainerStorageAccount.resourceBackupProtectionContainerStorageAccountWaitForOperation.
    handler_unfold. branches.
    all: repeat match goal with
                | p : (option _ * option _)%type |- _ => destruct p; simpl in *; subst
                end.
    all: no_status_leaf.
Qed.

Lemma backup_container_handlers_panic_when_the_poller_gives_no_status_witness :
  (let r := run (BackupProtectionContainerStorageAccount.resourceBackupProtectionContainerStorageAccountCreate
                   InMemory.Backup.imp TimedOut.clients) InMemory.Backup.creating None in
   result r = Panic /\ data (final r) = InMemory.Backup.creating)
  /\
  (let r := run (BackupProtectionContainerStorageAccountDelete.resourceBackupProtectionContainerStorageAccountDelete
                   InMemory.Backup.imp TimedOut.clients TimedOut.unregister)
              Gone.backupData None in
   result r = Panic /\ data (final r) = Gone.backupData).
Proof.
  split.
  - refine (proj1 (@backup_container_handlers_panic_when_the_poller_gives_no_status
                     (option BackupProtectionContainerStorageAccount.ProtectionContainerResource)
                     InMemory.Backup.imp TimedOut.clients InMemory.Backup.creating None)
              (timeouts.ForRead InMemory.Backup.creating) (30 * Minute)%Z
              (Some TimedOut.timeoutError) _).
    simpl. right. right. left. reflexivity.
  - refine (proj2 (@backup_container_handlers_panic_when_the_poller_gives_no_status
                     (option BackupProtectionContainerStorageAccount.ProtectionContainerResource)
                     InMemory.Backup.imp TimedOut.clients Gone.backupData None)
              TimedOut.unregister (timeouts.ForDelete Gone.backupData) (30 * Minute)%Z
              (Some TimedOut.timeoutError) _).
    simpl. right. left. reflexivity.
Defined.

(** ** Identifiers *)

Lemma Split_length (s : string) (sep : ascii) :
  length (strings.Split s sep) = S (Separators.count s sep).
Proof.
  induction s as [|c rest IH]; simpl; [reflexivity|].
  destruct (Ascii.eqb c sep); simpl; [rewrite IH; reflexivity|].
  destruct (strings.Split rest sep) as [|seg segs]; simpl in *; [discriminate | exact IH].
Qed.

(** X29.  The Read and the Delete of the network-interface backend-pool
    association take the identifier apart at the [|].  An identifier in
    which [|] does not occur exactly once is rejected with the error that
    names the expected format and carries the identifier: nothing is
    called, no lock is taken and the resource data is as it was. *)
Theorem malformed_association_identifier_is_rejected (W : Type)
    (imp : NetworkInterfaceBackendAddressPoolAssociation.imports)
    (client : NetworkInterfaceBackendAddressPoolAssociation.InterfacesClient W)
    (d : ResourceData) (w : W) :
  Separators.count (Id d) bar <> 1%nat ->
  let rejected :=
    Fail (Errorf "Expected ID to be in the format {networkInterfaceId}/ipConfigurations/{ipConfigurationName}|{backendAddressPoolId} but got %q"
            [Id d]) in
  let read := run (NetworkInterfaceBackendAddressPoolAssociation.resourceNetworkInterfaceBackendAddressPoolAssociationRead
                     imp client) d w in
  let delete := run (NetworkInterfaceBackendAddressPoolAssociation.resourceNetworkInterfaceBackendAddressPoolAssociationDelete
                       imp client) d w in
  (result read = rejected /\ final read = mkState d w [])
  /\ (result delete = rejected /\ final delete = mkState d w []).
Proof.
  intros Hcount. cbv zeta.
  pose proof (Split_length (Id d) bar) as Hlength.
  unfold NetworkInterfaceBackendAddressPoolAssociation.resourceNetworkInterfaceBackendAddressPoolAssociationRead,
    NetworkInterfaceBackendAddressPoolAssociation.resourceNetworkInterfaceBackendAddressPoolAssociationDelete.
  handler_unfold. simpl.
  destruct (strings.Split (Id d) bar) as [|splitId0 [|splitId1 [|splitId2 rest]]];
    simpl in *; try (repeat split; fail).
  injection Hlength as Hlength. symmetry in Hlength. contradiction.
Qed.

Lemma malformed_association_identifier_is_rejected_witness :
  let d := mkResourceData InMemory.Nic.nicId [] [] false InMemory.timeouts30 in
  let rejected :=
    Fail (Errorf "Expected ID to be in the format {networkInterfaceId}/ipConfigurations/{ipConfigurationName}|{backendAddressPoolId} but got %q"
            [InMemory.Nic.nicId]) in
  let read := run (NetworkInterfaceBackendAddressPoolAssociation.resourceNetworkInterfaceBackendAddressPoolAssociationRead
                     InMemory.Nic.imp InMemory.Nic.client) d None in
  let delete := run (NetworkInterfaceBackendAddressPoolAssociation.resourceNetworkInterfaceBackendAddressPoolAssociationDelete
                       InMemory.Nic.imp InMemory.Nic.client) d None in
  (result read = rejected /\ final read = mkState d None [])
  /\ (result delete = rejected /\ final delete = mkState d None []).
Proof.
  refine (@malformed_association_identifier_is_rejected
            (option NetworkInterfaceBackendAddressPoolAssociation.Interface)
            InMemory.Nic.imp InMemory.Nic.client
            (mkResourceData InMemory.Nic.nicId [] [] false InMemory.timeouts30) None _).
  simpl. discriminate.
Defined.

(** The Read of the route never changes the identifier. *)
Lemma iothub_route_read_identifier (W : Type) (imp : IotHubRoute.imports)
    (client : IotHubRoute.ResourceClient W) (s : state W IotHubRoute.apicall) :
  Id (data (snd (IotHubRoute.resourceIotHubRouteRead imp client s))) = Id (data s).
Proof.
  unfold IotHubRoute.resourceIotHubRouteRead, IotHubRoute.clientGet.
  handler_unfold. simpl.
  destruct (IotHubRoute.ParseAzureResourceID imp (Id (data s))); simpl; [reflexivity|].
  destruct (IotHubRoute.Get client _ _ _ (world s)) as [iothub w'] eqn:E. simpl.
  destruct (Err iothub); simpl; [reflexivity|].
  destruct (IotHubRoute.Properties (Body iothub)) as [properties|]; simpl; [|reflexivity].
  destruct (IotHubRoute.Routing properties) as [routing|]; simpl; [|reflexivity].
  destruct (IotHubRoute.Routes routing) as [routes|]; simpl; [|reflexivity].
  match goal with
  | |- context [IotHubRoute.setRouteAttributes imp ?n routes ?s'] =>
      destruct (setRouteAttributes_trace imp n routes s') as [_ [_ [_ [H _]]]]
  end.
  rewrite H. reflexivity.
Qed.

(** X30.  The identifier a successful Create leaves.  After a CreateUpdate
    of the IoT Hub route that succeeded, the identifier is the ID of the
    hub as it was fetched, then [/Routes/], then the configured name.
    After a Create of the network-interface backend-pool association that
    succeeded, the identifier is the one composed of the configured
    network interface ID, IP configuration name and backend pool ID, or it
    is empty, the Read that ends the Create having dropped the
    association. *)
Theorem successful_create_leaves_the_composed_identifier (W : Type) (d : ResourceData)
    (w : W) :
  (forall imp client,
      let iothub := fst (IotHubRoute.Get client (timeouts.ForCreateUpdate d)
                           (GetString d "resource_group_name") (GetString d "iothub_name")
                           w) in
      let r := run (IotHubRoute.resourceIotHubRouteCreateUpdate imp client) d w in
      result r = Return tt ->
      exists hubId,
        IotHubRoute.HubID (Body iothub) = Some hubId
        /\ Id (data (final r)) = (hubId ++ "/Routes/" ++ GetString d "name")%string)
  /\
  (forall imp client,
      let r := run (NetworkInterfaceBackendAddressPoolAssociation.resourceNetworkInterfaceBackendAddressPoolAssociationCreate
                      imp client) d w in
      result r = Return tt ->
      Id (data (final r))
      = NetworkInterfaceBackendAddressPoolAssociation.resourceId
          (GetString d "network_interface_id") (GetString d "ip_configuration_name")
          (GetString d "backend_address_pool_id")
      \/ Id (data (final r)) = "").
Proof.
  split.
  - intros imp client. cbv zeta.
    unfold IotHubRoute.resourceIotHubRouteCreateUpdate, IotHubRoute.clientGet,
      IotHubRoute.clientCreateOrUpdate, IotHubRoute.futureWaitForCompletionRef.
    handler_unfold. simpl.
    destruct (IotHubRoute.Get client _ _ _ w) as [iothub w'] eqn:E. simpl.
    destruct (Err iothub); simpl; [destruct (ResponseWasNotFound iothub); discriminate|].
    destruct (IotHubRoute.HubID (Body iothub)) as [hubId|]; simpl; [|discriminate].
    destruct (IotHubRoute.Properties (Body iothub)) as [properties|]; simpl; [|discriminate].
    destruct (IotHubRoute.existingRoutes imp _ _ _ _ _ _ _) as [err|[routes alreadyExists]];
      simpl; [discriminate|].
    destruct (if IsNewResource d then _ else _) as [err|routes']; simpl; [discriminate|].
    destruct (IotHubRoute.CreateOrUpdate client _ _ _ _ _ w') as [err w2]. simpl.
    destruct err; simpl; [discriminate|].
    destruct (IotHubRoute.FutureWaitForCompletionRef client _ w2) as [err w3]. simpl.
    destruct err; simpl; [discriminate|].
    match goal with
    | |- context [IotHubRoute.resourceIotHubRouteRead imp client ?st] =>
        pose proof (iothub_route_read_identifier imp client st) as Hid;
        destruct (IotHubRoute.resourceIotHubRouteRead imp client st) as [o s']
    end.
    simpl in *. intros _. exists hubId. split; [reflexivity | exact Hid].
  - intros imp client. cbv zeta.
    unfold NetworkInterfaceBackendAddressPoolAssociation.resourceNetworkInterfaceBackendAddressPoolAssociationCreate,
      NetworkInterfaceBackendAddressPoolAssociation.resourceNetworkInterfaceBackendAddressPoolAssociationRead,
      NetworkInterfaceBackendAddressPoolAssociation.clientGet,
      NetworkInterfaceBackendAddressPoolAssociation.clientCreateOrUpdate,
      NetworkInterfaceBackendAddressPoolAssociation.futureWaitForCompletionRef.
    handler_unfold. branches.
    all: intros Hresult; try discriminate Hresult.
    all: first [left; reflexivity | right; reflexivity].
Qed.

Lemma successful_create_leaves_the_composed_identifier_witness :
  (let r := run (IotHubRoute.resourceIotHubRouteCreateUpdate InMemory.Hub.imp
                   InMemory.Hub.client) (InMemory.Hub.creating "r1")
              (Some (InMemory.Hub.hub [InMemory.Hub.route "r0"])) in
   exists hubId,
     Some InMemory.Hub.hubId = Some hubId
     /\ Id (data (final r)) = (hubId ++ "/Routes/" ++ "r1")%string)
  /\
  (let d := InMemory.Nic.creating "internal" (InMemory.Nic.poolId "b") in
   let r := run (NetworkInterfaceBackendAddressPoolAssociation.resourceNetworkInterfaceBackendAddressPoolAssociationCreate
                   InMemory.Nic.imp InMemory.Nic.client) d
              (Some (InMemory.Nic.nic "internal" [InMemory.Nic.pool "a"])) in
   Id (data (final r))
   = NetworkInterfaceBackendAddressPoolAssociation.resourceId InMemory.Nic.nicId "internal"
       (InMemory.Nic.poolId "b")
   \/ Id (data (final r)) = "").
Proof.
  split.
  - exact (proj1 (@successful_create_leaves_the_composed_identifier
                    (option IotHubRoute.IotHubDescription) (InMemory.Hub.creating "r1")
                    (Some (InMemory.Hub.hub [InMemory.Hub.route "r0"])))
             InMemory.Hub.imp InMemory.Hub.client eq_refl).
  - exact (proj2 (@successful_create_leaves_the_composed_identifier
                    (option NetworkInterfaceBackendAddressPoolAssociation.Interface)
                    (InMemory.Nic.creating "internal" (InMemory.Nic.poolId "b"))
                    (Some (InMemory.Nic.nic "internal" [InMemory.Nic.pool "a"])))
             InMemory.Nic.imp InMemory.Nic.client eq_refl).
Defined.
